(** * Binance spot bot: risk-managed trading lifecycle

    A shallow embedding of the TypeScript sources (order reconciliation,
    position/trade ledger, risk calculator, position sizer, stop-loss
    monitor, strategy manager, backtest engine with its replay and its
    performance analyzer, technical indicators and pair scorer) followed by
    the properties established for them.

    Numbers.  A JavaScript [number] is modelled by [num]: a real number,
    [NaN], or one of the two infinities.  Arithmetic on finite values is
    exact (binary64 rounding, overflow and the sign of zero are not
    modelled); the special values follow IEEE 754 as JavaScript exposes them
    ([NaN] is absorbing, every comparison with [NaN] is false,
    [Infinity - Infinity] is [NaN], and so on).  The rounding step of the
    decimal normalization is also given on binary64 doubles ([Binary64]),
    so that its exact evaluation can be compared with the doubles
    JavaScript computes.

    Effects.  Asynchronous methods are functions in the monad [M]: they
    thread a [World] (database tables, clock, and a chronological log of
    everything done to the outside) and either return a value or throw. *)

From Stdlib Require Import Floats.
From Stdlib Require Import Reals Lra Lia ZArith List String Ascii Bool.
From Stdlib Require Import DecimalString Permutation.
Import ListNotations.

Set Implicit Arguments.

(* ================================================================= *)
(** * Part I: the embedding *)
(* ================================================================= *)

(** ** JavaScript numbers *)

Module Num.

Local Open Scope R_scope.

Inductive num : Type :=
| NaN
| PInf
| NInf
| Fin (r : R).

Definition Rltb (a b : R) : bool := if Rlt_dec a b then true else false.
Definition Rleb (a b : R) : bool := if Rle_dec a b then true else false.
Definition Reqb (a b : R) : bool := if Req_dec_T a b then true else false.

Definition ofZ (z : Z) : num := Fin (IZR z).

Definition neg (x : num) : num :=
  match x with
  | NaN => NaN
  | PInf => NInf
  | NInf => PInf
  | Fin r => Fin (- r)
  end.

Definition add (x y : num) : num :=
  match x, y with
  | NaN, _ | _, NaN => NaN
  | PInf, NInf | NInf, PInf => NaN
  | PInf, _ | _, PInf => PInf
  | NInf, _ | _, NInf => NInf
  | Fin a, Fin b => Fin (a + b)
  end.

Definition sub (x y : num) : num := add x (neg y).

(** [inf * r] for a finite [r]: [NaN] at zero, otherwise an infinity whose
    sign is the product of the signs. *)
Definition inf_times (positive : bool) (r : R) : num :=
  if Reqb r 0 then NaN
  else if Bool.eqb positive (Rltb 0 r) then PInf else NInf.

Definition mul (x y : num) : num :=
  match x, y with
  | NaN, _ | _, NaN => NaN
  | PInf, PInf | NInf, NInf => PInf
  | PInf, NInf | NInf, PInf => NInf
  | PInf, Fin r | Fin r, PInf => inf_times true r
  | NInf, Fin r | Fin r, NInf => inf_times false r
  | Fin a, Fin b => Fin (a * b)
  end.

(** Division; a zero divisor is the positive zero. *)
Definition div (x y : num) : num :=
  match x, y with
  | NaN, _ | _, NaN => NaN
  | PInf, PInf | PInf, NInf | NInf, PInf | NInf, NInf => NaN
  | PInf, Fin r => if Rltb r 0 then NInf else PInf
  | NInf, Fin r => if Rltb r 0 then PInf else NInf
  | Fin _, PInf | Fin _, NInf => Fin 0
  | Fin a, Fin b =>
      if Reqb b 0
      then (if Reqb a 0 then NaN else if Rltb 0 a then PInf else NInf)
      else Fin (a / b)
  end.

(** [x < y], [x <= y], [x === y]; [>] and [>=] are the flipped forms. *)
Definition ltb (x y : num) : bool :=
  match x, y with
  | NaN, _ | _, NaN => false
  | _, NInf => false
  | NInf, _ => true
  | PInf, _ => false
  | Fin _, PInf => true
  | Fin a, Fin b => Rltb a b
  end.

Definition leb (x y : num) : bool :=
  match x, y with
  | NaN, _ | _, NaN => false
  | NInf, _ => true
  | _, PInf => true
  | PInf, _ => false
  | Fin _, NInf => false
  | Fin a, Fin b => Rleb a b
  end.

Definition eqb (x y : num) : bool :=
  match x, y with
  | PInf, PInf | NInf, NInf => true
  | Fin a, Fin b => Reqb a b
  | _, _ => false
  end.

Definition gtb (x y : num) : bool := ltb y x.
Definition geb (x y : num) : bool := leb y x.

Definition isNaN (x : num) : bool :=
  match x with NaN => true | _ => false end.

Definition isFinite (x : num) : bool :=
  match x with Fin _ => true | _ => false end.

(** ToBoolean on a number: [0] and [NaN] are falsy. *)
Definition truthy (x : num) : bool :=
  match x with
  | NaN => false
  | Fin r => negb (Reqb r 0)
  | _ => true
  end.

(** [a || b] on numbers. *)
Definition or_else (a b : num) : num := if truthy a then a else b.

Definition Math_abs (x : num) : num :=
  match x with
  | NaN => NaN
  | PInf | NInf => PInf
  | Fin r => Fin (Rabs r)
  end.

Definition Math_min (x y : num) : num :=
  match x, y with
  | NaN, _ | _, NaN => NaN
  | _, _ => if ltb y x then y else x
  end.

Definition Math_sqrt (x : num) : num :=
  match x with
  | NaN | NInf => NaN
  | PInf => PInf
  | Fin r => if Rltb r 0 then NaN else Fin (sqrt r)
  end.

(** [Math.pow(x, 2)]. *)
Definition Math_pow2 (x : num) : num := mul x x.

(** Largest integer not above [r]. *)
Definition floorR (r : R) : Z := Int_part r.

(** [Math.floor] and [Math.round] (halves go up). *)
Definition Math_floor (x : num) : num :=
  match x with Fin r => Fin (IZR (floorR r)) | _ => x end.

Definition Math_round (x : num) : num :=
  match x with Fin r => Fin (IZR (floorR (r + / 2))) | _ => x end.

(** [isFinite(x) && x > 0], the validity test used throughout the
    order utilities. *)
Definition positive_finite (x : num) : bool := isFinite x && gtb x (Fin 0).

(** An array read [a[i]]; a read outside the array gives [undefined],
    which every numeric use below turns into [NaN]. *)
Definition at_index (a : list num) (i : nat) : num := nth i a NaN.

(** [a[a.length - 1]] and [a[a.length - 2]]. *)
Definition last_of (a : list num) : num := last a NaN.
Definition before_last_of (a : list num) : num := last (removelast a) NaN.

(** [a.reduce((s, v) => s + v, 0)]. *)
Definition sum (a : list num) : num := fold_left add a (Fin 0).

End Num.

Export Num.

(** ** Strings and number formatting *)

Module Str.

Local Open Scope R_scope.
Local Open Scope string_scope.

Definition is_digit (c : ascii) : bool :=
  let n := nat_of_ascii c in (48 <=? n)%nat && (n <=? 57)%nat.

Definition is_char (c d : ascii) : bool := Ascii.eqb c d.

(** [s.includes('.')]. *)
Definition includes_dot (s : string) : bool :=
  existsb (is_char ".") (list_ascii_of_string s).

Fixpoint drop_while (p : ascii -> bool) (l : list ascii) : list ascii :=
  match l with
  | [] => []
  | c :: l' => if p c then drop_while p l' else l
  end.

(** [s.replace(/0+$/, '')]. *)
Definition strip_trailing_zeros (s : string) : string :=
  string_of_list_ascii
    (rev (drop_while (is_char "0") (rev (list_ascii_of_string s)))).

(** [s.endsWith('.')]. *)
Definition ends_with_dot (s : string) : bool :=
  match rev (list_ascii_of_string s) with
  | c :: _ => is_char "." c
  | [] => false
  end.

(** [s.slice(0, -1)]. *)
Definition drop_last (s : string) : string :=
  string_of_list_ascii (removelast (list_ascii_of_string s)).

(** [s.replace(/\.$/, '')]. *)
Definition strip_final_dot (s : string) : string :=
  if ends_with_dot s then drop_last s else s.

(** [s.startsWith('0.')]. *)
Definition starts_with_zero_dot (s : string) : bool :=
  match list_ascii_of_string s with
  | c :: d :: _ => is_char "0" c && is_char "." d
  | _ => false
  end.

(** [s.startsWith(prefix)]. *)
Definition starts_with (prefix s : string) : bool :=
  String.eqb (substring 0 (String.length prefix) s) prefix.

(** [s.match(/^0+\d/)]: a zero followed by a digit. *)
Definition leading_zero_then_digit (s : string) : bool :=
  match list_ascii_of_string s with
  | c :: d :: _ => is_char "0" c && is_digit d
  | _ => false
  end.

(** [/^-?\d+(\.\d+)?$/.test(s)]. *)
Definition all_digits (l : list ascii) : bool :=
  negb (Nat.eqb (List.length l) 0) && forallb is_digit l.

Fixpoint split_at_dot (l : list ascii) : list ascii * option (list ascii) :=
  match l with
  | [] => ([], None)
  | c :: l' =>
      if is_char "." c then ([], Some l')
      else let '(a, b) := split_at_dot l' in (c :: a, b)
  end.

Definition is_plain_decimal (s : string) : bool :=
  let l := list_ascii_of_string s in
  let body := match l with
              | c :: l' => if is_char "-" c then l' else l
              | [] => l
              end in
  match split_at_dot body with
  | (int_part, None) => all_digits int_part
  | (int_part, Some frac) => all_digits int_part && all_digits frac
  end.

Fixpoint is_prefix (p l : list ascii) : bool :=
  match p, l with
  | [], _ => true
  | c :: p', d :: l' => Ascii.eqb c d && is_prefix p' l'
  | _ :: _, [] => false
  end.

Fixpoint remove_first_list (p l : list ascii) : list ascii :=
  match l with
  | [] => []
  | c :: l' =>
      if is_prefix p l then skipn (List.length p) l
      else c :: remove_first_list p l'
  end.

(** [s.replace(pattern, '')] for a non-empty literal pattern: the first
    occurrence is removed. *)
Definition remove_first (pattern s : string) : string :=
  string_of_list_ascii
    (remove_first_list (list_ascii_of_string pattern) (list_ascii_of_string s)).

(** The string contains an exponent marker. *)
Definition has_exponent (s : string) : bool :=
  existsb (is_char "e") (list_ascii_of_string s).

(** Decimal digits of a natural number, ["0"] for zero. *)
Definition digits (n : Z) : string :=
  NilZero.string_of_uint (N.to_uint (Z.to_N n)).

Definition zeros (k : nat) : string :=
  string_of_list_ascii (repeat "0"%char k).

(** ECMA-262 [Number.prototype.toFixed], step 8, for [f = 8] and an
    integer [n >= 0] standing for [n / 10^8]. *)
Definition fixed8 (n : Z) : string :=
  let m := digits n in
  let m := if (String.length m <=? 8)%nat
           then zeros (9 - String.length m) ++ m else m in
  let k := String.length m in
  substring 0 (k - 8) m ++ "." ++ substring (k - 8) 8 m.

(** ECMA-262 [Number::toString] for a magnitude of at least [10^21]:
    exponent notation [d.ddde+n].  The digits are those of the integer
    part of the exact value (a binary64 of that size is an integer). *)
Definition exponential (a : R) : string :=
  let ds := digits (floorR a) in
  let s := strip_trailing_zeros ds in
  let e := digits (Z.of_nat (String.length ds - 1)) in
  match s with
  | String d EmptyString => String d "e+" ++ e
  | String d rest => String d ("." ++ rest) ++ "e+" ++ e
  | EmptyString => ds
  end.

(** [x.toFixed(8)]. *)
Definition toFixed8 (x : num) : string :=
  match x with
  | NaN => "NaN"
  | PInf => "Infinity"
  | NInf => "-Infinity"
  | Fin r =>
      let sign := if Rltb r 0 then "-" else "" in
      let a := if Rltb r 0 then (- r)%R else r in
      if Rleb (IZR (10 ^ 21)) a
      then sign ++ exponential a
      else sign ++ fixed8 (floorR (a * IZR (10 ^ 8) + / 2))
  end.

(** [parseFloat(s).toString()] on a string of digits with redundant
    leading zeros: the zeros are dropped.  (No output of [toFixed] starts
    with a redundant zero, so [formatNumber] never gets here.) *)
Definition reparse (s : string) : string :=
  match drop_while (is_char "0") (list_ascii_of_string s) with
  | [] => "0"
  | c :: l => if is_char "." c then String "0" (string_of_list_ascii (c :: l))
              else string_of_list_ascii (c :: l)
  end.

End Str.

(** *** [toDbNumberString] (orderUtils.ts) *)

Definition toDbNumberString (value : num) : string :=
  if negb (isFinite value) then "0"%string
  else
    let rounded := div (Math_round (mul value (ofZ (10 ^ 8)))) (ofZ (10 ^ 8)) in
    let s := Str.toFixed8 rounded in
    if Str.includes_dot s
    then Str.strip_final_dot (Str.strip_trailing_zeros s)
    else s.

(** *** [formatNumber], the helper local to [saveTrade] (baseStrategy.ts) *)

Definition formatNumber (n : option num) : string :=
  match n with
  | None => "0"%string
  | Some n =>
      if isNaN n then "0"%string
      else
        let validNum := n in
        if negb (isFinite validNum) then "0"%string
        else
          let rounded :=
            div (Math_round (mul validNum (ofZ 100000000))) (ofZ 100000000) in
          let formatted := Str.toFixed8 rounded in
          let formatted :=
            if Str.includes_dot formatted
            then
              let f := Str.strip_trailing_zeros formatted in
              if Str.ends_with_dot f then Str.drop_last f else f
            else formatted in
          let formatted :=
            if Str.leading_zero_then_digit formatted
               && negb (Str.starts_with_zero_dot formatted)
            then Str.reparse formatted
            else formatted in
          if negb (Str.is_plain_decimal formatted)
          then
            let safe := Str.toFixed8 validNum in
            Str.strip_final_dot (Str.strip_trailing_zeros safe)
          else formatted
  end.

(** *** The rounding step on binary64 doubles

    Both functions above start with
    [Math.round(value * 1e8) / 1e8].  [Binary64.rounded] is that
    expression on IEEE 754 binary64 doubles, rounded after every
    operation as JavaScript does. *)

Module Binary64.

(** The double nearest to an integer; a zero takes the given sign. *)
Definition ofZ (negativeZero : bool) (z : Z) : float :=
  SF2Prim (binary_normalize prec emax z 0 negativeZero).

(** [Math.round]: the nearest integer, ties towards [+Infinity]; computed
    exactly from the mantissa and the exponent of the double. *)
Definition Math_round (x : float) : float :=
  match Prim2SF x with
  | S754_finite s m e =>
      if (0 <=? e)%Z then x
      else
        let d := (2 ^ (- e))%Z in
        let n := if s then Z.neg m else Z.pos m in
        ofZ s ((2 * n + d) / (2 * d))%Z
  | _ => x
  end.

Definition rounded (value : float) : float :=
  (Math_round (value * 1e8) / 1e8)%float.

(** The integer a double stands for, when it stands for one. *)
Definition toZ (x : float) : option Z :=
  match Prim2SF x with
  | S754_zero _ => Some 0%Z
  | S754_finite s m e =>
      let n := if s then Z.neg m else Z.pos m in
      if (0 <=? e)%Z then Some (n * 2 ^ e)%Z
      else if (n mod 2 ^ (- e) =? 0)%Z then Some (n / 2 ^ (- e))%Z
      else None
  | _ => None
  end.

End Binary64.

(** ** Data exchanged with the collaborators *)

(** A thrown value: [new Error(message)], or an error whose message ends
    with the text of a number, [new Error(`${message}${x}`)]. *)
Inductive Error : Type :=
| Err (message : string)
| ErrNum (message : string) (x : num).

Inductive Result (A : Type) : Type :=
| Ok (a : A)
| Throw (e : Error).

Arguments Ok {A} a.
Arguments Throw {A} e.

Inductive Side : Type := BUY | SELL.
Inductive OrderType : Type := MARKET | LIMIT.

(** A [Date]: milliseconds since the epoch, or an invalid date. *)
Inductive Date : Type :=
| DateMs (ms : Z)
| InvalidDate.

(** [d.getTime()], also the value a date takes in a comparison. *)
Definition getTime (d : Date) : num :=
  match d with
  | DateMs ms => ofZ ms
  | InvalidDate => NaN
  end.

(** A decimal column holds text.  [NumText x] is the text [x.toString()];
    reading it back with [parseFloat] gives [x] again. *)
Inductive DecimalText : Type :=
| Text (s : string)
| NumText (x : num).

Record Fill : Type := mkFill {
  fill_price : num;
  fill_qty : num;
  fill_commission : num;
  fill_commissionAsset : string
}.

Record OrderRequest : Type := mkOrderRequest {
  req_symbol : string;
  req_side : Side;
  req_type : OrderType;
  req_quantity : option num;
  req_quoteOrderQty : option num;
  req_price : option num;
  req_timeInForce : option string
}.

Record OrderResult : Type := mkOrderResult {
  ord_orderId : num;
  ord_symbol : string;
  ord_status : string;
  ord_side : Side;
  ord_type : OrderType;
  ord_quantity : num;
  ord_price : num;
  ord_executedQty : num;
  ord_fills : list Fill
}.

(** The payload of an order-status query; a field is the numeric reading of
    the decimal text sent by the exchange, [None] when it is absent. *)
Record OrderStatus : Type := mkOrderStatus {
  os_executedQty : option num;
  os_cummulativeQuoteQty : option num
}.

Record Balance : Type := mkBalance {
  bal_asset : string;
  bal_free : num;
  bal_locked : num;
  bal_total : num
}.

Record Kline : Type := mkKline {
  k_openTime : Date;
  k_open : num;
  k_high : num;
  k_low : num;
  k_close : num;
  k_volume : num;
  k_closeTime : Date
}.

Record TradingPair : Type := mkTradingPair {
  tp_symbol : string;
  tp_baseAsset : string;
  tp_quoteAsset : string;
  tp_price : num;
  tp_volume24h : num;
  tp_score : option num
}.

Record StrategyResult : Type := mkStrategyResult {
  sr_success : bool;
  sr_message : option string;
  sr_orderId : option num;
  sr_positionId : option string
}.

(** ** Database rows *)

Record StrategyRow : Type := mkStrategyRow {
  srow_id : string;
  srow_type : string;
  srow_name : string;
  srow_symbol : option string;
  srow_isActive : bool;
  srow_updatedAt : Z
}.

Record PositionRow : Type := mkPositionRow {
  pos_id : string;
  pos_strategyId : string;
  pos_symbol : string;
  pos_side : Side;
  pos_quantity : DecimalText;
  pos_entryPrice : DecimalText;
  pos_currentPrice : option DecimalText;
  pos_stopLoss : option DecimalText;
  pos_takeProfit : option DecimalText;
  pos_unrealizedPnl : option DecimalText;
  pos_unrealizedPnlPercent : option DecimalText;
  pos_openedAt : Z;
  pos_closedAt : option Z;
  pos_isOpen : bool
}.

Record TradeRow : Type := mkTradeRow {
  tr_positionId : option string;
  tr_strategyId : string;
  tr_symbol : string;
  tr_side : Side;
  tr_orderType : OrderType;
  tr_quantity : DecimalText;
  tr_price : DecimalText;
  tr_fee : DecimalText;
  tr_feeAsset : string;
  tr_pnl : option DecimalText;
  tr_pnlPercent : option DecimalText;
  tr_binanceOrderId : option DecimalText;
  tr_status : string;
  tr_executedAt : Z
}.

Record RiskLimitsRow : Type := mkRiskLimitsRow {
  rl_userId : string;
  rl_maxPositionSizePercent : DecimalText;
  rl_stopLossPercent : DecimalText;
  rl_takeProfitPercent : DecimalText;
  rl_dailyLossLimitPercent : DecimalText;
  rl_maxConcurrentPositions : Z
}.

(** A strategy's configuration: the optional fixed symbol and the numeric
    settings by name. *)
Record StrategyConfig : Type := mkStrategyConfig {
  cfg_symbol : option string;
  cfg_settings : list (string * num)
}.

Record BacktestResultRow : Type := mkBacktestResultRow {
  br_strategyType : string;
  br_symbol : string;
  br_startDate : Date;
  br_endDate : Date;
  br_initialBalance : DecimalText;
  br_finalBalance : DecimalText;
  br_totalReturn : DecimalText;
  br_totalReturnPercent : DecimalText;
  br_sharpeRatio : DecimalText;
  br_maxDrawdown : DecimalText;
  br_maxDrawdownPercent : DecimalText;
  br_winRate : DecimalText;
  br_totalTrades : num;
  br_winningTrades : num;
  br_losingTrades : num;
  br_config : StrategyConfig
}.

Record Db : Type := mkDb {
  tbl_strategies : list StrategyRow;
  tbl_positions : list PositionRow;
  tbl_trades : list TradeRow;
  tbl_riskLimits : list RiskLimitsRow;
  tbl_backtestResults : list BacktestResultRow
}.

(** ** The world and the effect monad *)

(** Everything the program does to the outside, in the order it happens:
    requests to the exchange and the pair selector, events emitted by the
    strategy manager, and the entry into a strategy's own methods. *)
Inductive Effect : Type :=
| CallGetPrice (symbol : string)
| CallGetBalance (asset : string)
| CallPlaceOrder (req : OrderRequest)
| CallGetOrder (symbol : string) (orderId : num)
| CallGetKlines (symbol interval : string) (limit : num)
| CallGetBestPairs (count : num)
| EmitExecuted (strategyId : string) (result : StrategyResult)
| EmitError (strategyId : string) (error : Error)
| EnterInitialize (strategyId : string)
| EnterExecute (strategyId : string).

Record World : Type := mkWorld {
  w_db : Db;
  w_now : Z;
  w_log : list Effect
}.

(** The collaborators.  An answer may depend on everything that happened
    before the request. *)
Record Services : Type := mkServices {
  getPrice_answer : list Effect -> string -> Result num;
  getBalance_answer : list Effect -> string -> Result (option Balance);
  placeOrder_answer : list Effect -> OrderRequest -> Result OrderResult;
  getOrder_answer : list Effect -> string -> num -> Result OrderStatus;
  getKlines_answer :
    list Effect -> string -> string -> num -> Result (list Kline);
  getBestPairs_answer : list Effect -> num -> Result (list TradingPair)
}.

Definition M (A : Type) : Type := World -> Result A * World.

Definition ret {A : Type} (a : A) : M A := fun w => (Ok a, w).

Definition throw {A : Type} (e : Error) : M A := fun w => (Throw e, w).

Definition bind {A B : Type} (m : M A) (k : A -> M B) : M B :=
  fun w =>
    match m w with
    | (Ok a, w') => k a w'
    | (Throw e, w') => (Throw e, w')
    end.

(** [try { m } catch (e) { h e }]. *)
Definition try_catch {A : Type} (m : M A) (h : Error -> M A) : M A :=
  fun w =>
    match m w with
    | (Ok a, w') => (Ok a, w')
    | (Throw e, w') => h e w'
    end.

Declare Scope m_scope.
Delimit Scope m_scope with m.
Notation "x <- m ;; k" := (bind m (fun x => k))
  (at level 61, m at next level, right associativity) : m_scope.
Notation "m ;;; k" := (bind m (fun _ => k))
  (at level 61, right associativity) : m_scope.
Local Open Scope m_scope.

(** [for (const x of l) { body x }]. *)
Fixpoint for_each {A : Type} (l : list A) (body : A -> M unit) : M unit :=
  match l with
  | [] => ret tt
  | x :: l' => body x ;;; for_each l' body
  end.

Definition record (e : Effect) (w : World) : World :=
  mkWorld (w_db w) (w_now w) (w_log w ++ [e]).

(** A request: it is logged, and answered from what happened before. *)
Definition request {A : Type} (e : Effect)
    (answer : list Effect -> Result A) : M A :=
  fun w => (answer (w_log w), record e w).

Definition emit (e : Effect) : M unit := fun w => (Ok tt, record e w).

Definition read_db {A : Type} (f : Db -> A) : M A := fun w => (Ok (f (w_db w)), w).

Definition write_db (f : Db -> Db) : M unit :=
  fun w => (Ok tt, mkWorld (f (w_db w)) (w_now w) (w_log w)).

Definition now : M Z := fun w => (Ok (w_now w), w).

Section Client.

Variable sv : Services.

Definition getPrice (symbol : string) : M num :=
  request (CallGetPrice symbol) (fun h => getPrice_answer sv h symbol).

Definition getBalance (asset : string) : M (option Balance) :=
  request (CallGetBalance asset) (fun h => getBalance_answer sv h asset).

Definition placeOrder (req : OrderRequest) : M OrderResult :=
  request (CallPlaceOrder req) (fun h => placeOrder_answer sv h req).

(** [OrderManager.marketSell]. *)
Definition marketSell (symbol : string) (quantity : num) : M OrderResult :=
  placeOrder (mkOrderRequest symbol SELL MARKET (Some quantity) None None None).

(** [OrderManager.getOrderStatus]. *)
Definition getOrderStatus (symbol : string) (orderId : num) : M OrderStatus :=
  request (CallGetOrder symbol orderId)
          (fun h => getOrder_answer sv h symbol orderId).

Definition getKlines (symbol interval : string) (limit : num)
  : M (list Kline) :=
  request (CallGetKlines symbol interval limit)
          (fun h => getKlines_answer sv h symbol interval limit).

(** [PairSelector.getBestPairs]. *)
Definition getBestPairs (count : num) : M (list TradingPair) :=
  request (CallGetBestPairs count) (fun h => getBestPairs_answer sv h count).

End Client.

(** ** Reading decimal text: [parseFloat] *)

Module Parse.

Local Open Scope R_scope.

Fixpoint take_digits (l : list ascii) : list ascii * list ascii :=
  match l with
  | c :: l' =>
      if Str.is_digit c
      then let '(ds, rest) := take_digits l' in (c :: ds, rest)
      else ([], l)
  | [] => ([], [])
  end.

Definition digit_value (c : ascii) : Z := Z.of_nat (nat_of_ascii c - 48).

Definition digits_value (ds : list ascii) : Z :=
  fold_left (fun acc c => (acc * 10 + digit_value c)%Z) ds 0%Z.

Definition is_space (c : ascii) : bool :=
  let n := nat_of_ascii c in
  Nat.eqb n 32 || ((9 <=? n)%nat && (n <=? 13)%nat).

(** The exponent part [e[+-]ddd], zero when there is none. *)
Definition exponent (l : list ascii) : Z :=
  match l with
  | c :: l' =>
      if Str.is_char "e" c || Str.is_char "E" c
      then
        let '(negative, l'') :=
          match l' with
          | s :: r => if Str.is_char "-" s then (true, r)
                      else if Str.is_char "+" s then (false, r)
                      else (false, l')
          | [] => (false, l')
          end in
        let '(ds, _) := take_digits l'' in
        if negative then (- digits_value ds)%Z else digits_value ds
      else 0%Z
  | [] => 0%Z
  end.

(** An unsigned decimal literal at the head of [l]: [ddd], [ddd.ddd],
    [.ddd], each with an optional exponent; [Infinity]. *)
Definition unsigned_literal (l : list ascii) : num :=
  if Str.starts_with "Infinity" (string_of_list_ascii l) then PInf
  else
    let '(int_digits, r1) := take_digits l in
    let '(frac_digits, r2) :=
      match r1 with
      | c :: r => if Str.is_char "." c then take_digits r else ([], r1)
      | [] => ([], r1)
      end in
    match int_digits ++ frac_digits with
    | [] => NaN
    | ds =>
        Fin (IZR (digits_value ds)
             * powerRZ 10 (exponent r2 - Z.of_nat (List.length frac_digits)))
    end.

(** [parseFloat(s)]: leading blanks are skipped, the longest literal at
    the head is read, anything after it is ignored. *)
Definition parseFloat_string (s : string) : num :=
  match Str.drop_while is_space (list_ascii_of_string s) with
  | c :: l =>
      if Str.is_char "-" c then neg (unsigned_literal l)
      else if Str.is_char "+" c then unsigned_literal l
      else unsigned_literal (c :: l)
  | [] => NaN
  end.

End Parse.

Definition parseFloat (t : DecimalText) : num :=
  match t with
  | Text s => Parse.parseFloat_string s
  | NumText x => x
  end.

(** ToBoolean on a nullable text column: [null] and the empty string are
    falsy. *)
Definition present (t : option DecimalText) : bool :=
  match t with
  | Some (Text EmptyString) => false
  | Some _ => true
  | None => false
  end.

(** [text || fallback]. *)
Definition textOr (t : option DecimalText) (fallback : string) : DecimalText :=
  match t with
  | Some x => if present t then x else Text fallback
  | None => Text fallback
  end.

(** ToBoolean on an optional string. *)
Definition nonempty (s : option string) : bool :=
  match s with
  | Some EmptyString => false
  | Some _ => true
  | None => false
  end.

(** ** Order reconciliation (orderUtils.ts)

    The file holds two generations of [extractExecutedFromResult] and
    [resolveExecutedFromExchange]; the later declarations, the ones in
    force, are embedded. *)

Record ExecutedLike : Type := mkExecutedLike {
  el_price : option num;
  el_executedQty : option num;
  el_fills : option (list Fill);
  el_orderId : option num;
  el_symbol : option string
}.

Record Executed : Type := mkExecuted {
  ex_price : num;
  ex_qty : num
}.

(** An [OrderResult] passed where an [ExecutedLike] is expected. *)
Definition asExecutedLike (r : OrderResult) : ExecutedLike :=
  mkExecutedLike (Some (ord_price r)) (Some (ord_executedQty r))
                 (Some (ord_fills r)) (Some (ord_orderId r))
                 (Some (ord_symbol r)).

(** [!isFinite(x) || x <= 0]. *)
Definition invalid (x : num) : bool := negb (isFinite x) || leb x (Fin 0).

Definition fillsValue (fills : list Fill) : num :=
  fold_left (fun sum f => add sum (mul (fill_price f) (fill_qty f)))
            fills (Fin 0).

Definition fillsQty (fills : list Fill) : num :=
  fold_left (fun sum f => add sum (fill_qty f)) fills (Fin 0).

Definition extractExecutedFromResult (result : ExecutedLike) : Executed :=
  let qty := Fin 0 in
  let price := Fin 0 in
  let '(price, qty) :=
    match el_fills result with
    | Some fills =>
        if (0 <? List.length fills)%nat
        then
          let totalValue := fillsValue fills in
          let totalQty := fillsQty fills in
          if gtb totalQty (Fin 0)
          then (div totalValue totalQty, totalQty)
          else (price, qty)
        else (price, qty)
    | None => (price, qty)
    end in
  let price :=
    match el_price result with
    | Some p =>
        if invalid price
        then (if isFinite p && gtb p (Fin 0) then p else price)
        else price
    | None => price
    end in
  let qty :=
    match el_executedQty result with
    | Some q =>
        if invalid qty
        then (if isFinite q && gtb q (Fin 0) then q else qty)
        else qty
    | None => qty
    end in
  mkExecuted price qty.

(** [Number(x || 0)] on a payload field. *)
Definition numberOrZero (x : option num) : num :=
  match x with
  | Some v => v
  | None => Fin 0
  end.

(** [!result.orderId]. *)
Definition missingId (x : option num) : bool :=
  match x with
  | Some v => negb (truthy v)
  | None => true
  end.

Section OrderUtils.

Variable sv : Services.

Local Open Scope m_scope.

Definition resolveExecutedFromExchange (result : ExecutedLike) : M Executed :=
  let e := extractExecutedFromResult result in
  let price := ex_price e in
  let qty := ex_qty e in
  if isFinite price && gtb price (Fin 0) && isFinite qty && gtb qty (Fin 0)
  then ret (mkExecuted price qty)
  else
    match el_symbol result, el_orderId result with
    | Some symbol, Some orderId =>
        if negb (nonempty (Some symbol)) || missingId (Some orderId)
        then ret (mkExecuted (or_else price (Fin 0)) (or_else qty (Fin 0)))
        else
          try_catch
            (order <- getOrderStatus sv symbol orderId ;;
             let executedQty := numberOrZero (os_executedQty order) in
             let executedPrice := Fin 0 in
             let executedPrice :=
               if gtb executedQty (Fin 0)
               then
                 let cqq := numberOrZero (os_cummulativeQuoteQty order) in
                 if isFinite cqq && gtb cqq (Fin 0)
                 then div cqq executedQty
                 else executedPrice
               else executedPrice in
             ret (mkExecuted
                    (or_else executedPrice (or_else price (Fin 0)))
                    (or_else executedQty (or_else qty (Fin 0)))))
            (fun _ =>
               ret (mkExecuted (or_else price (Fin 0)) (or_else qty (Fin 0))))
    | _, _ =>
        ret (mkExecuted (or_else price (Fin 0)) (or_else qty (Fin 0)))
    end.

End OrderUtils.

(** [calculatePnl]. *)
Definition calculatePnl (entryPrice exitPrice quantity : num) : num * num :=
  let pnl := mul (sub exitPrice entryPrice) quantity in
  let pnlPercent :=
    if gtb entryPrice (Fin 0)
    then mul (div (sub exitPrice entryPrice) entryPrice) (ofZ 100)
    else Fin 0 in
  (pnl, pnlPercent).

(** ** The strategy base class (baseStrategy.ts) *)

(** An instance of a strategy.  The abstract methods [initialize] and
    [execute] are whatever the variant makes them: any computation that may
    touch the world, return or throw. *)
Record Strategy : Type := mkStrategy {
  strategyId : string;
  strategyType : string;
  strategyName : string;
  config : StrategyConfig;
  isActive : bool;
  initialize_body : M unit;
  execute_body : option TradingPair -> M StrategyResult
}.

Definition set_isActive (s : Strategy) (b : bool) : Strategy :=
  mkStrategy (strategyId s) (strategyType s) (strategyName s) (config s) b
             (initialize_body s) (execute_body s).

Record TradeData : Type := mkTradeData {
  td_positionId : option string;
  td_symbol : string;
  td_side : Side;
  td_orderType : OrderType;
  td_quantity : num;
  td_price : num;
  td_fee : num;
  td_feeAsset : string;
  td_pnl : option num;
  td_pnlPercent : option num;
  td_binanceOrderId : option string;
  td_status : string
}.

Definition set_strategies (f : list StrategyRow -> list StrategyRow) (d : Db) : Db :=
  mkDb (f (tbl_strategies d)) (tbl_positions d) (tbl_trades d)
       (tbl_riskLimits d) (tbl_backtestResults d).

Definition set_positions (f : list PositionRow -> list PositionRow) (d : Db) : Db :=
  mkDb (tbl_strategies d) (f (tbl_positions d)) (tbl_trades d)
       (tbl_riskLimits d) (tbl_backtestResults d).

Definition set_trades (f : list TradeRow -> list TradeRow) (d : Db) : Db :=
  mkDb (tbl_strategies d) (tbl_positions d) (f (tbl_trades d))
       (tbl_riskLimits d) (tbl_backtestResults d).

Definition set_backtestResults
    (f : list BacktestResultRow -> list BacktestResultRow) (d : Db) : Db :=
  mkDb (tbl_strategies d) (tbl_positions d) (tbl_trades d)
       (tbl_riskLimits d) (f (tbl_backtestResults d)).

(** [db.update(t).set(...).where(eq(t.id, id))]: every row with that id. *)
Definition update_where {A : Type} (key : A -> string) (id : string)
    (f : A -> A) (rows : list A) : list A :=
  map (fun r => if String.eqb (key r) id then f r else r) rows.

(** [db.select().from(t).where(eq(t.id, id)).limit(1)]. *)
Definition select_first {A : Type} (p : A -> bool) (rows : list A) : option A :=
  find p rows.

Definition initialize (s : Strategy) : M unit :=
  emit (EnterInitialize (strategyId s)) ;;; initialize_body s.

Definition execute (s : Strategy) (pair : option TradingPair)
  : M StrategyResult :=
  emit (EnterExecute (strategyId s)) ;;; execute_body s pair.

Definition updateStrategyStatus (s : Strategy) (active : bool) : M unit :=
  t <- now ;;
  write_db (set_strategies
              (update_where srow_id (strategyId s)
                 (fun r => mkStrategyRow (srow_id r) (srow_type r) (srow_name r)
                                         (srow_symbol r) active t))).

(** A method that also assigns to fields of [this]: the instance after
    the call is returned next to the outcome. *)
Definition start (s : Strategy) (w : World) : (Result unit * Strategy) * World :=
  if isActive s
  then ((Throw (Err "Strategy is already active"), s), w)
  else
    match initialize s w with
    | (Ok _, w1) =>
        let s1 := set_isActive s true in
        match updateStrategyStatus s1 true w1 with
        | (Ok _, w2) => ((Ok tt, s1), w2)
        | (Throw e, w2) => ((Throw e, s1), w2)
        end
    | (Throw e, w1) => ((Throw e, s), w1)
    end.

Definition stop (s : Strategy) (w : World) : (Result unit * Strategy) * World :=
  let s1 := set_isActive s false in
  match updateStrategyStatus s1 false w with
  | (r, w1) => ((r, s1), w1)
  end.

Definition saveTrade (s : Strategy) (tradeData : TradeData) : M unit :=
  if negb (truthy (td_price tradeData))
     || negb (isFinite (td_price tradeData))
     || leb (td_price tradeData) (Fin 0)
  then throw (ErrNum "Refuse to save trade with non-positive price: "
                     (td_price tradeData))
  else
    t <- now ;;
    write_db (set_trades (fun rows => rows ++ [
      mkTradeRow
        (td_positionId tradeData)
        (strategyId s)
        (td_symbol tradeData)
        (td_side tradeData)
        (td_orderType tradeData)
        (Text (formatNumber (Some (td_quantity tradeData))))
        (Text (formatNumber (Some (td_price tradeData))))
        (Text (formatNumber (Some (td_fee tradeData))))
        (td_feeAsset tradeData)
        (Some (Text (formatNumber (td_pnl tradeData))))
        (Some (Text (formatNumber (td_pnlPercent tradeData))))
        (option_map Text (td_binanceOrderId tradeData))
        (td_status tradeData)
        t ])).

(** ** The risk calculator (riskCalculator.ts) *)

Inductive RiskLevel : Type := low | medium | high.

(** The [reason] texts.
    - [InsufficientBalance]: 'Insufficient balance'
    - [PositionSizeExceeds p m]: `Position size ${p.toFixed(2)}% exceeds maximum ${m}%`
    - [MaxConcurrentReached m]: `Maximum concurrent positions (${m}) reached`
    - [DailyLossExceeded l p]: `Daily loss limit (${l}%) exceeded: ${p.toFixed(2)}%`
    - [CorrelatedAsset]: `Position in correlated asset detected`
    - [Failure e]: [String(e)] for a caught error [e]. *)
Inductive Reason : Type :=
| InsufficientBalance
| PositionSizeExceeds (positionPercent maxPositionSizePercent : num)
| MaxConcurrentReached (maxConcurrentPositions : num)
| DailyLossExceeded (dailyLossLimitPercent lossPercent : num)
| CorrelatedAsset
| Failure (e : Error).

Record RiskCheckResult : Type := mkRiskCheckResult {
  allowed : bool;
  reason : option Reason;
  riskLevel : RiskLevel
}.

(** [config.risk]. *)
Record RiskConfig : Type := mkRiskConfig {
  cfg_maxPositionSizePercent : num;
  cfg_stopLossPercent : num;
  cfg_takeProfitPercent : num;
  cfg_dailyLossLimitPercent : num;
  cfg_maxConcurrentPositions : num
}.

Record Limits : Type := mkLimits {
  maxPositionSizePercent : num;
  stopLossPercent : num;
  takeProfitPercent : num;
  dailyLossLimitPercent : num;
  maxConcurrentPositions : num
}.

(** [parseFloat(text || fallback.toString())]. *)
Definition parseOr (text : DecimalText) (fallback : num) : num :=
  if present (Some text) then parseFloat text else fallback.

Definition openPositionsOf (d : Db) : list PositionRow :=
  filter pos_isOpen (tbl_positions d).

Section RiskCalculator.

Variable sv : Services.
Variable risk : RiskConfig.

(** The host's time zone: the latest local midnight not after an instant
    ([setHours(0, 0, 0, 0)]). *)
Variable localMidnight : Z -> Z.

Local Open Scope m_scope.

Definition getRiskLimits (userId : string) : M Limits :=
  row <- read_db (fun d =>
           select_first (fun r => String.eqb (rl_userId r) userId)
                        (tbl_riskLimits d)) ;;
  match row with
  | None =>
      ret (mkLimits (cfg_maxPositionSizePercent risk)
                    (cfg_stopLossPercent risk)
                    (cfg_takeProfitPercent risk)
                    (cfg_dailyLossLimitPercent risk)
                    (cfg_maxConcurrentPositions risk))
  | Some limits =>
      ret (mkLimits
             (parseOr (rl_maxPositionSizePercent limits)
                      (cfg_maxPositionSizePercent risk))
             (parseOr (rl_stopLossPercent limits) (cfg_stopLossPercent risk))
             (parseOr (rl_takeProfitPercent limits)
                      (cfg_takeProfitPercent risk))
             (parseOr (rl_dailyLossLimitPercent limits)
                      (cfg_dailyLossLimitPercent risk))
             (or_else (ofZ (rl_maxConcurrentPositions limits))
                      (cfg_maxConcurrentPositions risk)))
  end.

Definition checkPositionSize (userId symbol : string) (quantity price : num)
    (limits : Limits) : M RiskCheckResult :=
  let positionValue := mul quantity price in
  balance <- getBalance sv "USDT" ;;
  match balance with
  | None => ret (mkRiskCheckResult false (Some InsufficientBalance) high)
  | Some balance =>
      if eqb (bal_total balance) (Fin 0)
      then ret (mkRiskCheckResult false (Some InsufficientBalance) high)
      else
        let positionPercent :=
          mul (div positionValue (bal_total balance)) (ofZ 100) in
        if gtb positionPercent (maxPositionSizePercent limits)
        then ret (mkRiskCheckResult false
                    (Some (PositionSizeExceeds positionPercent
                             (maxPositionSizePercent limits)))
                    high)
        else ret (mkRiskCheckResult true None medium)
  end.

Definition checkConcurrentPositions (userId : string) (limits : Limits)
  : M RiskCheckResult :=
  openPositions <- read_db openPositionsOf ;;
  if geb (ofZ (Z.of_nat (List.length openPositions)))
         (maxConcurrentPositions limits)
  then ret (mkRiskCheckResult false
              (Some (MaxConcurrentReached (maxConcurrentPositions limits)))
              high)
  else ret (mkRiskCheckResult true None medium).

Definition checkDailyLossLimit (userId : string) (limits : Limits)
  : M RiskCheckResult :=
  t <- now ;;
  let today := localMidnight t in
  todayTrades <- read_db (fun d =>
                   filter (fun tr => (today <=? tr_executedAt tr)%Z)
                          (tbl_trades d)) ;;
  let todayPnL :=
    fold_left
      (fun sum trade =>
         add sum (parseFloat (textOr (tr_pnl trade) "0")))
      todayTrades (Fin 0) in
  balance <- getBalance sv "USDT" ;;
  match balance with
  | None => ret (mkRiskCheckResult true None medium)
  | Some balance =>
      if eqb (bal_total balance) (Fin 0)
      then ret (mkRiskCheckResult true None medium)
      else
        let lossPercent :=
          mul (div (Math_abs (Math_min (Fin 0) todayPnL)) (bal_total balance))
              (ofZ 100) in
        if geb lossPercent (dailyLossLimitPercent limits)
        then ret (mkRiskCheckResult false
                    (Some (DailyLossExceeded (dailyLossLimitPercent limits)
                             lossPercent))
                    high)
        else ret (mkRiskCheckResult true None medium)
  end.

Definition checkCorrelation (userId symbol : string) : M RiskCheckResult :=
  let baseAsset := Str.remove_first "USDT" symbol in
  openPositions <- read_db openPositionsOf ;;
  let existingPosition :=
    find (fun p => String.eqb (pos_symbol p) symbol
                   || String.eqb (Str.remove_first "USDT" (pos_symbol p))
                                 baseAsset)
         openPositions in
  match existingPosition with
  | Some existingPosition =>
      if String.eqb (pos_symbol existingPosition) symbol
      then ret (mkRiskCheckResult true None medium)
      else ret (mkRiskCheckResult true (Some CorrelatedAsset) medium)
  | None => ret (mkRiskCheckResult true None low)
  end.

Definition checkTradeRisk (userId symbol : string) (quantity price : num)
    (side : Side) : M RiskCheckResult :=
  try_catch
    (limits <- getRiskLimits userId ;;
     positionSizeCheck <-
       checkPositionSize userId symbol quantity price limits ;;
     if negb (allowed positionSizeCheck) then ret positionSizeCheck
     else
       concurrentCheck <- checkConcurrentPositions userId limits ;;
       if negb (allowed concurrentCheck) then ret concurrentCheck
       else
         dailyLossCheck <- checkDailyLossLimit userId limits ;;
         if negb (allowed dailyLossCheck) then ret dailyLossCheck
         else
           correlationCheck <- checkCorrelation userId symbol ;;
           if negb (allowed correlationCheck) then ret correlationCheck
           else ret (mkRiskCheckResult true None medium))
    (fun error => ret (mkRiskCheckResult false (Some (Failure error)) high)).

Definition calculateStopLoss (entryPrice stopLossPercent : num) : num :=
  mul entryPrice (sub (Fin 1) (div stopLossPercent (ofZ 100))).

Definition calculateTakeProfit (entryPrice takeProfitPercent : num) : num :=
  mul entryPrice (add (Fin 1) (div takeProfitPercent (ofZ 100))).

End RiskCalculator.

(** ** The stop-loss / take-profit monitor (stopLossManager.ts) *)

Definition findPosition (positionId : string) (d : Db) : option PositionRow :=
  select_first (fun p => String.eqb (pos_id p) positionId) (tbl_positions d).

(** The row a forced exit leaves behind: closed, stamped, pnl cleared. *)
Definition closedAt_ (executedPrice : num) (t : Z) (p : PositionRow)
  : PositionRow :=
  mkPositionRow (pos_id p) (pos_strategyId p) (pos_symbol p) (pos_side p)
                (pos_quantity p) (pos_entryPrice p)
                (Some (NumText executedPrice))
                (pos_stopLoss p) (pos_takeProfit p)
                (Some (Text "0")) (Some (Text "0"))
                (pos_openedAt p) (Some t) false.

(** The row after a refresh of price and unrealized pnl. *)
Definition refreshed (currentPrice pnl pnlPercent : num) (p : PositionRow)
  : PositionRow :=
  mkPositionRow (pos_id p) (pos_strategyId p) (pos_symbol p) (pos_side p)
                (pos_quantity p) (pos_entryPrice p)
                (Some (NumText currentPrice))
                (pos_stopLoss p) (pos_takeProfit p)
                (Some (NumText pnl)) (Some (NumText pnlPercent))
                (pos_openedAt p) (pos_closedAt p) (pos_isOpen p).

(** [result.fills.reduce((sum, fill) => sum + fill.commission, 0)]. *)
Definition fillsCommission (fills : list Fill) : num :=
  fold_left (fun sum fill => add sum (fill_commission fill)) fills (Fin 0).

(** [result.fills[0]?.commissionAsset || position.symbol.replace('USDT', '')]. *)
Definition feeAssetOf (fills : list Fill) (symbol : string) : string :=
  match fills with
  | f :: _ =>
      if nonempty (Some (fill_commissionAsset f)) then fill_commissionAsset f
      else Str.remove_first "USDT" symbol
  | [] => Str.remove_first "USDT" symbol
  end.

Section StopLossManager.

Variable sv : Services.

Local Open Scope m_scope.

(** The market exit shared by both handlers: sell, then reconcile the
    executed price, asking the exchange when the order result has none. *)
Definition sellAndReconcile (position : PositionRow)
  : M (OrderResult * num) :=
  let quantity := parseFloat (pos_quantity position) in
  result <- marketSell sv (pos_symbol position) quantity ;;
  let executedPrice := ex_price (extractExecutedFromResult (asExecutedLike result)) in
  if negb (isFinite executedPrice) || leb executedPrice (Fin 0)
  then
    e <- resolveExecutedFromExchange sv
           (mkExecutedLike (Some executedPrice) None None
                           (Some (ord_orderId result))
                           (Some (pos_symbol position))) ;;
    ret (result, ex_price e)
  else ret (result, executedPrice).

Definition executeStopLoss (positionId : string) : M unit :=
  position <- read_db (findPosition positionId) ;;
  match position with
  | None => ret tt
  | Some position =>
      if negb (pos_isOpen position) then ret tt
      else
        let quantity := parseFloat (pos_quantity position) in
        sold <- sellAndReconcile position ;;
        let '(result, executedPrice) := sold in
        let entryPrice := parseFloat (pos_entryPrice position) in
        let pnl := mul (sub executedPrice entryPrice) quantity in
        let pnlPercent :=
          mul (div (sub executedPrice entryPrice) entryPrice) (ofZ 100) in
        let fee := fillsCommission (ord_fills result) in
        let feeAsset := feeAssetOf (ord_fills result) (pos_symbol position) in
        t <- now ;;
        write_db (set_trades (fun rows => rows ++ [
          mkTradeRow (Some (pos_id position)) (pos_strategyId position)
                     (pos_symbol position) SELL MARKET
                     (NumText quantity) (NumText executedPrice) (NumText fee)
                     feeAsset
                     (Some (NumText (sub pnl fee)))
                     (Some (NumText pnlPercent))
                     (Some (NumText (ord_orderId result)))
                     "FILLED" t ])) ;;;
        write_db (set_positions
                    (update_where pos_id positionId (closedAt_ executedPrice t)))
  end.

Definition executeTakeProfit (positionId : string) : M unit :=
  position <- read_db (findPosition positionId) ;;
  match position with
  | None => ret tt
  | Some position =>
      if negb (pos_isOpen position) then ret tt
      else
        let quantity := parseFloat (pos_quantity position) in
        sold <- sellAndReconcile position ;;
        let '(result, executedPrice) := sold in
        let entryPrice := parseFloat (pos_entryPrice position) in
        let pnl := mul (sub executedPrice entryPrice) quantity in
        let pnlPercent :=
          mul (div (sub executedPrice entryPrice) entryPrice) (ofZ 100) in
        let fee := fillsCommission (ord_fills result) in
        let feeAsset := feeAssetOf (ord_fills result) (pos_symbol position) in
        t <- now ;;
        write_db (set_positions
                    (update_where pos_id positionId (closedAt_ executedPrice t)))
  end.

(** The body of the sweep for one position of the snapshot. *)
Definition checkPosition (position : PositionRow) : M unit :=
  try_catch
    (currentPrice <- getPrice sv (pos_symbol position) ;;
     let entryPrice := parseFloat (pos_entryPrice position) in
     if present (pos_stopLoss position)
        && leb currentPrice (parseFloat (textOr (pos_stopLoss position) ""))
     then executeStopLoss (pos_id position)
     else
       if present (pos_takeProfit position)
          && geb currentPrice (parseFloat (textOr (pos_takeProfit position) ""))
       then executeTakeProfit (pos_id position)
       else
         let pnl := mul (sub currentPrice entryPrice)
                        (parseFloat (pos_quantity position)) in
         let pnlPercent :=
           mul (div (sub currentPrice entryPrice) entryPrice) (ofZ 100) in
         write_db (set_positions
                     (update_where pos_id (pos_id position)
                        (refreshed currentPrice pnl pnlPercent))))
    (fun _ => ret tt).

Definition checkAndExecuteStopLosses : M unit :=
  openPositions <- read_db openPositionsOf ;;
  for_each openPositions checkPosition.

End StopLossManager.

(** ** The trailing stop of the momentum strategy (momentumStrategy.ts) *)

Definition setting (name : string) (c : StrategyConfig) : option num :=
  option_map snd (find (fun kv => String.eqb (fst kv) name) (cfg_settings c)).

Definition with_stopLoss (stopLoss : DecimalText) (p : PositionRow) : PositionRow :=
  mkPositionRow (pos_id p) (pos_strategyId p) (pos_symbol p) (pos_side p)
                (pos_quantity p) (pos_entryPrice p) (pos_currentPrice p)
                (Some stopLoss) (pos_takeProfit p)
                (pos_unrealizedPnl p) (pos_unrealizedPnlPercent p)
                (pos_openedAt p) (pos_closedAt p) (pos_isOpen p).

(** [position.stopLoss ? parseFloat(position.stopLoss) : 0]. *)
Definition currentStopLossOf (p : PositionRow) : num :=
  match pos_stopLoss p with
  | Some t => if present (pos_stopLoss p) then parseFloat t else Fin 0
  | None => Fin 0
  end.

Definition updateTrailingStop (s : Strategy) (positionId : string)
    (currentPrice : num) : M unit :=
  position <- read_db (findPosition positionId) ;;
  match position, setting "trailingStopPercent" (config s) with
  | Some position, Some trailingStopPercent =>
      if negb (pos_isOpen position) || negb (truthy trailingStopPercent)
      then ret tt
      else
        let entryPrice := parseFloat (pos_entryPrice position) in
        let profitPercent :=
          mul (div (sub currentPrice entryPrice) entryPrice) (ofZ 100) in
        if gtb profitPercent (Fin 0)
        then
          let trailingStopPrice :=
            mul currentPrice
                (sub (Fin 1) (div trailingStopPercent (ofZ 100))) in
          let currentStopLoss := currentStopLossOf position in
          if gtb trailingStopPrice currentStopLoss
          then write_db (set_positions
                           (update_where pos_id positionId
                              (with_stopLoss (NumText trailingStopPrice))))
          else ret tt
        else ret tt
  | _, _ => ret tt
  end.

(** ** The strategy manager (strategyManager.ts) *)

(** [activeStrategies: Map<string, BaseStrategy>], in insertion order. *)
Record Manager : Type := mkManager {
  activeStrategies : list (string * Strategy)
}.

Definition getStrategy (m : Manager) (id : string) : option Strategy :=
  option_map snd (find (fun kv => String.eqb (fst kv) id) (activeStrategies m)).

Definition getAllStrategies (m : Manager) : list Strategy :=
  map snd (activeStrategies m).

Section StrategyManager.

Variable sv : Services.

Local Open Scope m_scope.

Definition executeStrategy (m : Manager) (id : string)
    (pair : option TradingPair) : M unit :=
  match getStrategy m id with
  | None => ret tt
  | Some strategy =>
      if negb (isActive strategy) then ret tt
      else
        try_catch
          (result <- execute strategy pair ;;
           emit (EmitExecuted id result))
          (fun error =>
             emit (EmitError id error) ;;;
             throw error)
  end.

(** The body of the loop of [executeAll] for one strategy. *)
Definition executeOne (m : Manager) (pair : option TradingPair)
    (bestPairs : list TradingPair) (strategy : Strategy) : M unit :=
  try_catch
    (let executionPair :=
       match pair with
       | Some p => Some p
       | None => hd_error bestPairs
       end in
     executeStrategy m (strategyId strategy) executionPair)
    (fun error => emit (EmitError (strategyId strategy) error)).

Definition executeAll (m : Manager) (pair : option TradingPair) : M unit :=
  let active := filter isActive (getAllStrategies m) in
  if Nat.eqb (List.length active) 0 then ret tt
  else
    let hasAutoSelect := existsb (fun _ => true) active in
    bestPairs <-
      (if hasAutoSelect && negb (match pair with Some _ => true | None => false end)
       then try_catch (getBestPairs sv (ofZ 10)) (fun _ => ret [])
       else ret []) ;;
    for_each active (executeOne m pair bestPairs).

End StrategyManager.

(** ** The backtest entry point (dataProvider.ts, backtestEngine.ts) *)

Record Validation : Type := mkValidation {
  valid : bool;
  error : option string
}.

(** [DataProvider.validateDateRange]; [today] is [new Date()]. *)
Definition validateDateRange (today startDate endDate : Date) : Validation :=
  if geb (getTime startDate) (getTime endDate)
  then mkValidation false (Some "Start date must be before end date"%string)
  else
    let maxRangeDays := ofZ 365 in
    let daysDiff :=
      div (sub (getTime endDate) (getTime startDate))
          (ofZ (1000 * 60 * 60 * 24)) in
    if gtb daysDiff maxRangeDays
    then mkValidation false (Some "Date range cannot exceed 365 days"%string)
    else
      if gtb (getTime endDate) (getTime today)
      then mkValidation false (Some "End date cannot be in the future"%string)
      else mkValidation true None.

Record KlineData : Type := mkKlineData {
  kd_open : num;
  kd_high : num;
  kd_low : num;
  kd_close : num;
  kd_volume : num;
  kd_timestamp : Date
}.

Record BacktestData : Type := mkBacktestData {
  bd_symbol : string;
  bd_interval : string;
  bd_klines : list KlineData;
  bd_startDate : Date;
  bd_endDate : Date
}.

Record TradeRecord : Type := mkTradeRecord {
  trec_entryPrice : num;
  trec_exitPrice : num;
  trec_quantity : num;
  trec_entryTime : Date;
  trec_exitTime : Date;
  trec_pnl : num;
  trec_pnlPercent : num;
  trec_fee : num
}.

Record PerformanceMetrics : Type := mkPerformanceMetrics {
  pm_totalReturn : num;
  pm_totalReturnPercent : num;
  pm_sharpeRatio : num;
  pm_maxDrawdown : num;
  pm_maxDrawdownPercent : num;
  pm_winRate : num;
  pm_profitFactor : num;
  pm_totalTrades : num;
  pm_winningTrades : num;
  pm_losingTrades : num;
  pm_averageWin : num;
  pm_averageLoss : num;
  pm_largestWin : num;
  pm_largestLoss : num;
  pm_averageTrade : num
}.

Record BacktestConfig : Type := mkBacktestConfig {
  bc_strategyType : string;
  bc_symbol : string;
  bc_startDate : Date;
  bc_endDate : Date;
  bc_initialBalance : num;
  bc_strategyConfig : StrategyConfig;
  bc_interval : option string
}.

Record BacktestResult : Type := mkBacktestResult {
  res_id : option string;
  res_config : BacktestConfig;
  res_finalBalance : num;
  res_metrics : PerformanceMetrics;
  res_trades : list TradeRecord;
  res_equityCurve : list (Date * num)
}.

(** [Math.ceil]. *)
Definition Math_ceil (x : num) : num := neg (Math_floor (neg x)).

(** [new Date(t)] for a number [t]. *)
Definition dateOf (t : num) : Date :=
  match t with
  | Fin r =>
      if Rleb (Rabs r) (IZR 8640000000000000)
      then DateMs (if Rltb r 0 then - floorR (- r) else floorR r)
      else InvalidDate
  | _ => InvalidDate
  end.

(** The interval table of [getHistoricalData], one hour when unknown. *)
Definition intervalMs (interval : string) : num :=
  if String.eqb interval "1m" then ofZ 60000
  else if String.eqb interval "5m" then ofZ 300000
  else if String.eqb interval "15m" then ofZ 900000
  else if String.eqb interval "1h" then ofZ 3600000
  else if String.eqb interval "4h" then ofZ 14400000
  else if String.eqb interval "1d" then ofZ 86400000
  else ofZ 3600000.

(** [a.sort((x, y) => x.timestamp.getTime() - y.timestamp.getTime())],
    a stable sort. *)
Fixpoint insertByTime (x : KlineData) (l : list KlineData) : list KlineData :=
  match l with
  | [] => [x]
  | y :: l' =>
      if ltb (sub (getTime (kd_timestamp y)) (getTime (kd_timestamp x))) (Fin 0)
      then y :: insertByTime x l'
      else x :: l
  end.

Definition sortByTime (l : list KlineData) : list KlineData :=
  fold_right insertByTime [] l.

Definition toKlineData (k : Kline) : KlineData :=
  mkKlineData (k_open k) (k_high k) (k_low k) (k_close k) (k_volume k)
              (k_openTime k).

Section Backtest.

Variable sv : Services.

(** The replay of the candles and the analyzer are pure functions of
    their arguments; the engine is embedded with them as parameters. *)
Variable simulateTrading :
  list KlineData -> string -> StrategyConfig -> num -> list TradeRecord.
Variable calculateMetrics : num -> list TradeRecord -> PerformanceMetrics.
Variable generateEquityCurve : num -> list TradeRecord -> list (Date * num).

(** The identifier the database gives to an inserted row. *)
Variable generatedId : Db -> string.

(** The [while (currentStart < endDate)] loop of [getHistoricalData];
    [None] when [fuel] iterations were not enough to leave it. *)
Fixpoint fetchBatches (fuel : nat) (symbol interval : string)
    (endDate : Date) (estimatedCandles : num) (currentStart : Date)
    (allKlines : list Kline) (w : World)
  : option (Result (list Kline) * World) :=
  if ltb (getTime currentStart) (getTime endDate)
  then
    match fuel with
    | O => None
    | S fuel' =>
        let batchSize :=
          Math_min (ofZ 1000)
                   (sub estimatedCandles
                        (ofZ (Z.of_nat (List.length allKlines)))) in
        match getKlines sv symbol interval batchSize w with
        | (Throw e, w') => Some (Throw e, w')
        | (Ok klines, w') =>
            if Nat.eqb (List.length klines) 0 then Some (Ok allKlines, w')
            else
              let filteredKlines :=
                filter (fun k =>
                          geb (getTime (k_openTime k)) (getTime currentStart)
                          && leb (getTime (k_openTime k)) (getTime endDate))
                       klines in
              let allKlines' := allKlines ++ filteredKlines in
              if ltb (ofZ (Z.of_nat (List.length klines))) batchSize
              then Some (Ok allKlines', w')
              else
                let lastCloseTime :=
                  match rev klines with
                  | k :: _ => getTime (k_closeTime k)
                  | [] => NaN
                  end in
                fetchBatches fuel' symbol interval endDate estimatedCandles
                             (dateOf (add lastCloseTime (Fin 1)))
                             allKlines' w'
        end
    end
  else Some (Ok allKlines, w).

Definition getHistoricalData (fuel : nat) (symbol interval : string)
    (startDate endDate : Date) (w : World)
  : option (Result BacktestData * World) :=
  let totalMs := sub (getTime endDate) (getTime startDate) in
  let estimatedCandles := Math_ceil (div totalMs (intervalMs interval)) in
  match fetchBatches fuel symbol interval endDate estimatedCandles
                     startDate [] w with
  | None => None
  | Some (Throw e, w') => Some (Throw e, w')
  | Some (Ok allKlines, w') =>
      let klineData := sortByTime (map toKlineData allKlines) in
      Some (Ok (mkBacktestData symbol interval klineData startDate endDate), w')
  end.

Definition saveBacktestResult (result : BacktestResult) : M string :=
  fun w =>
    let c := res_config result in
    let m := res_metrics result in
    let row :=
      mkBacktestResultRow
        (bc_strategyType c) (bc_symbol c) (bc_startDate c) (bc_endDate c)
        (NumText (bc_initialBalance c))
        (NumText (res_finalBalance result))
        (NumText (pm_totalReturn m))
        (NumText (pm_totalReturnPercent m))
        (NumText (pm_sharpeRatio m))
        (NumText (pm_maxDrawdown m))
        (NumText (pm_maxDrawdownPercent m))
        (NumText (pm_winRate m))
        (pm_totalTrades m) (pm_winningTrades m) (pm_losingTrades m)
        (bc_strategyConfig c) in
    (Ok (generatedId (w_db w)),
     mkWorld (set_backtestResults (fun rows => rows ++ [row]) (w_db w))
             (w_now w) (w_log w)).

Definition runBacktest (fuel : nat) (cfg : BacktestConfig) (w : World)
  : option (Result BacktestResult * World) :=
  let validation :=
    validateDateRange (DateMs (w_now w)) (bc_startDate cfg) (bc_endDate cfg) in
  if negb (valid validation)
  then Some (Throw (Err (match error validation with
                         | Some msg => msg
                         | None => EmptyString
                         end)), w)
  else
    let interval :=
      if nonempty (bc_interval cfg)
      then match bc_interval cfg with Some i => i | None => "1h"%string end
      else "1h"%string in
    match getHistoricalData fuel (bc_symbol cfg) interval
                            (bc_startDate cfg) (bc_endDate cfg) w with
    | None => None
    | Some (Throw e, w1) => Some (Throw e, w1)
    | Some (Ok data, w1) =>
        let trades :=
          simulateTrading (bd_klines data) (bc_strategyType cfg)
                          (bc_strategyConfig cfg) (bc_initialBalance cfg) in
        let metrics := calculateMetrics (bc_initialBalance cfg) trades in
        let equityCurve := generateEquityCurve (bc_initialBalance cfg) trades in
        let finalBalance := add (bc_initialBalance cfg) (pm_totalReturn metrics) in
        let result :=
          mkBacktestResult None cfg finalBalance metrics trades equityCurve in
        match saveBacktestResult result w1 with
        | (Ok id, w2) =>
            Some (Ok (mkBacktestResult (Some id) cfg finalBalance metrics
                                       trades equityCurve), w2)
        | (Throw e, w2) => Some (Throw e, w2)
        end
    end.

End Backtest.

(** ** Technical indicators (technicalIndicators.ts) *)

(** [a.slice(from, to)] for [0 <= from <= to]. *)
Definition slice {A : Type} (a : list A) (from to : nat) : list A :=
  firstn (to - from) (skipn from a).

Definition ofNat (n : nat) : num := ofZ (Z.of_nat n).

Definition calculateSMA (prices : list num) (period : nat) : list num :=
  map (fun i =>
         if (i <? period - 1)%nat then NaN
         else div (sum (slice prices (i + 1 - period) (i + 1))) (ofNat period))
      (seq 0 (List.length prices)).

Definition calculateEMA (prices : list num) (period : nat) : list num :=
  let multiplier := div (Fin 2) (ofNat (period + 1)) in
  fold_left
    (fun ema i =>
       ema ++ [ if Nat.eqb i 0 then at_index prices i
                else if (i <? period)%nat
                     then div (sum (slice prices 0 (i + 1))) (ofNat (i + 1))
                     else add (mul (sub (at_index prices i) (at_index ema (i - 1)))
                                   multiplier)
                              (at_index ema (i - 1)) ])
    (seq 0 (List.length prices)) [].

Definition priceChanges (prices : list num) : list num :=
  map (fun i => sub (at_index prices i) (at_index prices (i - 1)))
      (seq 1 (List.length prices - 1)).

Definition rsiAt (changes : list num) (period i : nat) : num :=
  let relevantChanges := slice changes (i - period) i in
  let gains := filter (fun c => gtb c (Fin 0)) relevantChanges in
  let losses := map Math_abs (filter (fun c => ltb c (Fin 0)) relevantChanges) in
  let avgGain :=
    if (0 <? List.length gains)%nat then div (sum gains) (ofNat period)
    else Fin 0 in
  let avgLoss :=
    if (0 <? List.length losses)%nat then div (sum losses) (ofNat period)
    else Fin 0 in
  if eqb avgLoss (Fin 0) then ofZ 100
  else
    let rs := div avgGain avgLoss in
    sub (ofZ 100) (div (ofZ 100) (add (Fin 1) rs)).

Definition calculateRSI (prices : list num) (period : nat) : list num :=
  let changes := priceChanges prices in
  map (fun i => if (i <? period)%nat then NaN else rsiAt changes period i)
      (seq 0 (List.length prices)).

Record MACD : Type := mkMACD {
  macd_line : list num;
  macd_signal : list num;
  macd_histogram : list num
}.

Definition calculateMACD (prices : list num)
    (fastPeriod slowPeriod signalPeriod : nat) : MACD :=
  let fastEMA := calculateEMA prices fastPeriod in
  let slowEMA := calculateEMA prices slowPeriod in
  let macd :=
    map (fun i =>
           if isNaN (at_index fastEMA i) || isNaN (at_index slowEMA i) then NaN
           else sub (at_index fastEMA i) (at_index slowEMA i))
        (seq 0 (List.length prices)) in
  let defined := filter (fun v => negb (isNaN v)) macd in
  let signal := calculateEMA defined signalPeriod in
  let nanCount := (List.length macd - List.length defined)%nat in
  let paddedSignal := repeat NaN nanCount ++ signal in
  let histogram :=
    map (fun i =>
           if isNaN (at_index macd i) || isNaN (at_index paddedSignal i) then NaN
           else sub (at_index macd i) (at_index paddedSignal i))
        (seq 0 (List.length macd)) in
  mkMACD macd paddedSignal histogram.

Record Bands : Type := mkBands {
  upper : list num;
  middle : list num;
  lower : list num
}.

(** The three band values at index [i >= period - 1]. *)
Definition bandsAt (prices sma : list num) (period : nat) (stdDev : num)
    (i : nat) : num * num * num :=
  let window := slice prices (i + 1 - period) (i + 1) in
  let mean := at_index sma i in
  let variance :=
    div (fold_left (fun sum price => add sum (Math_pow2 (sub price mean)))
                   window (Fin 0))
        (ofNat period) in
  let standardDeviation := Math_sqrt variance in
  (add mean (mul standardDeviation stdDev),
   mean,
   sub mean (mul standardDeviation stdDev)).

Definition calculateBollingerBands (prices : list num) (period : nat)
    (stdDev : num) : Bands :=
  let sma := calculateSMA prices period in
  let rows :=
    map (fun i =>
           if (i <? period - 1)%nat then (NaN, NaN, NaN)
           else bandsAt prices sma period stdDev i)
        (seq 0 (List.length prices)) in
  mkBands (map (fun r => fst (fst r)) rows)
          (map (fun r => snd (fst r)) rows)
          (map snd rows).

Definition calculateSupportResistance (klines : list KlineData) : num * num :=
  let highs := map kd_high klines in
  let lows := map kd_low klines in
  let window := (List.length klines / 10)%nat in
  let resistance := at_index highs 0 in
  let support := at_index lows 0 in
  fold_left
    (fun '(support, resistance) i =>
       let isLocalMax :=
         forallb (fun '(idx, h) => Nat.eqb idx window || leb h (at_index highs i))
                 (combine (seq 0 (2 * window + 1))
                          (slice highs (i - window) (i + window + 1))) in
       let isLocalMin :=
         forallb (fun '(idx, l) => Nat.eqb idx window || geb l (at_index lows i))
                 (combine (seq 0 (2 * window + 1))
                          (slice lows (i - window) (i + window + 1))) in
       let resistance :=
         if isLocalMax && gtb (at_index highs i) resistance
         then at_index highs i else resistance in
       let support :=
         if isLocalMin && ltb (at_index lows i) support
         then at_index lows i else support in
       (support, resistance))
    (seq window (List.length highs - window - window))
    (support, resistance).

Definition getCurrentPrice (klines : list KlineData) : num :=
  last_of (map kd_close klines).

Definition calculateAverageVolume (klines : list KlineData) (period : nat) : num :=
  if Nat.eqb (List.length klines) 0 then Fin 0
  else
    let recent :=
      if Nat.eqb period 0 then klines
      else skipn (List.length klines - period) klines in
    div (fold_left (fun acc k => add acc (kd_volume k)) recent (Fin 0))
        (ofNat (List.length recent)).

(** ** The pair scorer (pairScorer.ts) *)

Record Factors : Type := mkFactors {
  f_rsi : num;
  f_macd : num;
  f_bollinger : num;
  f_volume : num;
  f_momentum : num;
  f_volatility : num
}.

Record PairScore : Type := mkPairScore {
  ps_pair : TradingPair;
  ps_score : num;
  ps_factors : Factors
}.

Definition zeroFactors : Factors :=
  mkFactors (Fin 0) (Fin 0) (Fin 0) (Fin 0) (Fin 0) (Fin 0).

Definition withScore (pair : TradingPair) (score : num) : TradingPair :=
  mkTradingPair (tp_symbol pair) (tp_baseAsset pair) (tp_quoteAsset pair)
                (tp_price pair) (tp_volume24h pair) (Some score).

Definition scoreRSI (rsi : num) : num :=
  if isNaN rsi then ofZ 50
  else if ltb rsi (ofZ 30)
       then add (ofZ 30) (mul (div (sub (ofZ 30) rsi) (ofZ 30)) (ofZ 40))
       else if gtb rsi (ofZ 70)
            then sub (ofZ 70) (mul (div (sub rsi (ofZ 70)) (ofZ 30)) (ofZ 40))
            else ofZ 60.

Definition scoreMACD (macd : MACD) : num :=
  let lastMacd := last_of (macd_line macd) in
  let lastSignal := last_of (macd_signal macd) in
  let lastHistogram := last_of (macd_histogram macd) in
  let prevHistogram := before_last_of (macd_histogram macd) in
  if isNaN lastMacd || isNaN lastSignal then ofZ 50
  else if gtb lastMacd lastSignal
          && gtb lastHistogram (or_else prevHistogram (Fin 0))
       then ofZ 80
       else if ltb lastMacd lastSignal then ofZ 30
            else ofZ 50.

Definition scoreBollinger (price : num) (bands : Bands) : num :=
  let lastUpper := last_of (upper bands) in
  let lastMiddle := last_of (middle bands) in
  let lastLower := last_of (lower bands) in
  if isNaN lastUpper || isNaN lastLower then ofZ 50
  else
    let bandWidth := sub lastUpper lastLower in
    if eqb bandWidth (Fin 0) then ofZ 50
    else
      let distanceFromLower := div (sub price lastLower) bandWidth in
      if ltb distanceFromLower (Fin (2 / 10))
      then sub (ofZ 80) (mul distanceFromLower (ofZ 100))
      else if gtb distanceFromLower (Fin (8 / 10))
           then add (ofZ 20) (mul (sub (Fin 1) distanceFromLower) (ofZ 30))
           else ofZ 50.

Definition scoreVolume (currentVolume avgVolume : num) : num :=
  if eqb avgVolume (Fin 0) then ofZ 50
  else
    let ratio := div currentVolume avgVolume in
    if geb ratio (Fin 2) then ofZ 100
    else if geb ratio (Fin (15 / 10)) then ofZ 80
         else if geb ratio (Fin 1) then ofZ 60
              else if geb ratio (Fin (5 / 10)) then ofZ 40
                   else ofZ 20.

Definition scoreMomentum (prices sma20 ema50 : list num) : num :=
  let currentPrice := last_of prices in
  let lastSma20 := last_of sma20 in
  let lastEma50 := last_of ema50 in
  if isNaN lastSma20 || isNaN lastEma50 then ofZ 50
  else
    let score := ofZ 50 in
    let score := if gtb currentPrice lastSma20 then add score (ofZ 20) else score in
    let score := if gtb currentPrice lastEma50 then add score (ofZ 20) else score in
    let score := if gtb lastSma20 lastEma50 then add score (ofZ 10) else score in
    Math_min (ofZ 100) score.

Definition scoreVolatility (prices : list num) (support resistance currentPrice : num)
  : num :=
  if eqb resistance support then ofZ 50
  else
    let range := sub resistance support in
    let distanceFromSupport := sub currentPrice support in
    let positionInRange := div distanceFromSupport range in
    if ltb positionInRange (Fin (3 / 10)) then ofZ 70
    else if gtb positionInRange (Fin (7 / 10)) then ofZ 30
         else ofZ 60.

(** The six sub-scores of a non-empty candle list. *)
Definition factorsOf (klineData : list KlineData) : Factors :=
  let prices := map kd_close klineData in
  let currentPrice := getCurrentPrice klineData in
  let rsi := calculateRSI prices 14 in
  let macd := calculateMACD prices 12 26 9 in
  let bollinger := calculateBollingerBands prices 20 (Fin 2) in
  let sma20 := calculateSMA prices 20 in
  let ema50 := calculateEMA prices 50 in
  let '(support, resistance) := calculateSupportResistance klineData in
  let avgVolume := calculateAverageVolume klineData 20 in
  let currentVolume := last_of (map kd_volume klineData) in
  mkFactors (scoreRSI (last_of rsi))
            (scoreMACD macd)
            (scoreBollinger currentPrice bollinger)
            (scoreVolume currentVolume avgVolume)
            (scoreMomentum prices sma20 ema50)
            (scoreVolatility prices support resistance currentPrice).

(** The weighted average of the sub-scores. *)
Definition totalScoreOf (factors : Factors) : num :=
  add (add (add (add (add (mul (f_rsi factors) (Fin (15 / 100)))
                          (mul (f_macd factors) (Fin (20 / 100))))
                     (mul (f_bollinger factors) (Fin (15 / 100))))
                (mul (f_volume factors) (Fin (15 / 100))))
           (mul (f_momentum factors) (Fin (20 / 100))))
      (mul (f_volatility factors) (Fin (15 / 100))).

(** [scores.sort((a, b) => b.score - a.score)], a stable sort. *)
Fixpoint insertByScore (x : PairScore) (l : list PairScore) : list PairScore :=
  match l with
  | [] => [x]
  | y :: l' =>
      if ltb (sub (ps_score x) (ps_score y)) (Fin 0)
      then y :: insertByScore x l'
      else x :: l
  end.

Definition sortByScore (l : list PairScore) : list PairScore :=
  fold_right insertByScore [] l.

Section PairScorer.

Variable sv : Services.

Local Open Scope m_scope.

Definition scorePair (pair : TradingPair) : M PairScore :=
  try_catch
    (klines <- getKlines sv (tp_symbol pair) "1h" (ofZ 100) ;;
     if Nat.eqb (List.length klines) 0
     then ret (mkPairScore pair (Fin 0) zeroFactors)
     else
       let klineData := map toKlineData klines in
       let factors := factorsOf klineData in
       let totalScore := totalScoreOf factors in
       ret (mkPairScore (withScore pair totalScore) totalScore factors))
    (fun _ => ret (mkPairScore pair (Fin 0) zeroFactors)).

(** The loop of [scorePairs]: the scores pushed so far are threaded. *)
Fixpoint scoreEach (pairs : list TradingPair) (scores : list PairScore)
  : M (list PairScore) :=
  match pairs with
  | [] => ret scores
  | p :: rest =>
      score <- try_catch (scorePair p)
                 (fun _ => ret (mkPairScore p (Fin 0) zeroFactors)) ;;
      scoreEach rest (scores ++ [score])
  end.

Definition scorePairs (pairs : list TradingPair) : M (list PairScore) :=
  scores <- scoreEach pairs [] ;;
  ret (sortByScore scores).

End PairScorer.
(** ** The performance analyzer (performanceAnalyzer.ts) *)

Module PerformanceAnalyzer.

(** [trade.pnl - trade.fee]. *)
Definition netPnl (trade : TradeRecord) : num :=
  sub (trec_pnl trade) (trec_fee trade).

(** [Math.max(x, y)]. *)
Definition Math_max (x y : num) : num :=
  match x, y with
  | NaN, _ | _, NaN => NaN
  | _, _ => if ltb x y then y else x
  end.

(** [Math.max(...a)] and [Math.min(...a)]. *)
Definition Math_max_of (a : list num) : num := fold_left Math_max a NInf.
Definition Math_min_of (a : list num) : num := fold_left Math_min a PInf.

(** The variables of the loop of [calculateMetrics]. *)
Record Tally : Type := mkTally {
  t_balance : num;
  t_balances : list num;
  t_totalProfit : num;
  t_totalLoss : num;
  t_winningTrades : list TradeRecord;
  t_losingTrades : list TradeRecord
}.

Definition tallyTrade (acc : Tally) (trade : TradeRecord) : Tally :=
  let netPnl := sub (trec_pnl trade) (trec_fee trade) in
  let balance := add (t_balance acc) netPnl in
  let balances := t_balances acc ++ [balance] in
  if gtb netPnl (Fin 0)
  then mkTally balance balances
               (add (t_totalProfit acc) netPnl) (t_totalLoss acc)
               (t_winningTrades acc ++ [trade]) (t_losingTrades acc)
  else mkTally balance balances
               (t_totalProfit acc) (add (t_totalLoss acc) (Math_abs netPnl))
               (t_winningTrades acc) (t_losingTrades acc ++ [trade]).

Definition tally (initialBalance : num) (trades : list TradeRecord) : Tally :=
  fold_left tallyTrade trades
            (mkTally initialBalance [initialBalance] (Fin 0) (Fin 0) [] []).

(** The variables of the loop of [calculateMaxDrawdown]. *)
Definition drawdownStep (acc : num * num * num) (balance : num)
  : num * num * num :=
  let '(maxBalance, maxDrawdown, maxDrawdownPercent) := acc in
  let maxBalance := if gtb balance maxBalance then balance else maxBalance in
  let drawdown := sub maxBalance balance in
  let drawdownPercent := mul (div drawdown maxBalance) (ofZ 100) in
  let maxDrawdown :=
    if gtb drawdown maxDrawdown then drawdown else maxDrawdown in
  let maxDrawdownPercent :=
    if gtb drawdownPercent maxDrawdownPercent
    then drawdownPercent else maxDrawdownPercent in
  (maxBalance, maxDrawdown, maxDrawdownPercent).

Definition calculateMaxDrawdown (balances : list num) (initialBalance : num)
  : num * num :=
  match balances with
  | [] => (Fin 0, Fin 0)
  | first :: _ =>
      let '(_, maxDrawdown, maxDrawdownPercent) :=
        fold_left drawdownStep balances (first, Fin 0, Fin 0) in
      (maxDrawdown, maxDrawdownPercent)
  end.

Definition calculateSharpeRatio (trades : list TradeRecord) : num :=
  if Nat.eqb (List.length trades) 0 then Fin 0
  else
    let returns := map trec_pnlPercent trades in
    let meanReturn := div (sum returns) (ofNat (List.length returns)) in
    let variance :=
      div (fold_left (fun sum r => add sum (Math_pow2 (sub r meanReturn)))
                     returns (Fin 0))
          (ofNat (List.length returns)) in
    let stdDev := Math_sqrt variance in
    if eqb stdDev (Fin 0) then Fin 0
    else div meanReturn stdDev.

Definition getEmptyMetrics : PerformanceMetrics :=
  mkPerformanceMetrics (Fin 0) (Fin 0) (Fin 0) (Fin 0) (Fin 0) (Fin 0) (Fin 0)
                       (Fin 0) (Fin 0) (Fin 0) (Fin 0) (Fin 0) (Fin 0) (Fin 0)
                       (Fin 0).

Definition calculateMetrics (initialBalance : num) (trades : list TradeRecord)
  : PerformanceMetrics :=
  if Nat.eqb (List.length trades) 0 then getEmptyMetrics
  else
    let t := tally initialBalance trades in
    let balances := t_balances t in
    let totalProfit := t_totalProfit t in
    let totalLoss := t_totalLoss t in
    let winningTrades := t_winningTrades t in
    let losingTrades := t_losingTrades t in
    let finalBalance := t_balance t in
    let totalReturn := sub finalBalance initialBalance in
    let totalReturnPercent := mul (div totalReturn initialBalance) (ofZ 100) in
    let '(maxDrawdown, maxDrawdownPercent) :=
      calculateMaxDrawdown balances initialBalance in
    let sharpeRatio := calculateSharpeRatio trades in
    let winRate :=
      mul (div (ofNat (List.length winningTrades)) (ofNat (List.length trades)))
          (ofZ 100) in
    let profitFactor :=
      if gtb totalLoss (Fin 0) then div totalProfit totalLoss
      else if gtb totalProfit (Fin 0) then PInf else Fin 0 in
    let averageWin :=
      if (0 <? List.length winningTrades)%nat
      then div (fold_left (fun sum t => add sum (sub (trec_pnl t) (trec_fee t)))
                          winningTrades (Fin 0))
               (ofNat (List.length winningTrades))
      else Fin 0 in
    let averageLoss :=
      if (0 <? List.length losingTrades)%nat
      then div (fold_left
                  (fun sum t => add sum (Math_abs (sub (trec_pnl t) (trec_fee t))))
                  losingTrades (Fin 0))
               (ofNat (List.length losingTrades))
      else Fin 0 in
    let largestWin :=
      if (0 <? List.length winningTrades)%nat
      then Math_max_of (map (fun t => sub (trec_pnl t) (trec_fee t)) winningTrades)
      else Fin 0 in
    let largestLoss :=
      if (0 <? List.length losingTrades)%nat
      then Math_min_of (map (fun t => sub (trec_pnl t) (trec_fee t)) losingTrades)
      else Fin 0 in
    let averageTrade := div totalReturn (ofNat (List.length trades)) in
    mkPerformanceMetrics
      totalReturn totalReturnPercent sharpeRatio maxDrawdown maxDrawdownPercent
      winRate profitFactor
      (ofNat (List.length trades))
      (ofNat (List.length winningTrades))
      (ofNat (List.length losingTrades))
      averageWin averageLoss largestWin largestLoss averageTrade.

(** [generateEquityCurve]; [today] is the [new Date()] that dates the
    first point when there is no trade. *)
Definition generateEquityCurve (today : Date) (initialBalance : num)
    (trades : list TradeRecord) : list (Date * num) :=
  let first :=
    match trades with
    | trade :: _ => trec_entryTime trade
    | [] => today
    end in
  snd (fold_left
         (fun '(balance, equityCurve) trade =>
            let netPnl := sub (trec_pnl trade) (trec_fee trade) in
            let balance := add balance netPnl in
            (balance, equityCurve ++ [(trec_exitTime trade, balance)]))
         trades (initialBalance, [(first, initialBalance)])).

End PerformanceAnalyzer.

(** ** The replay of the candles (backtestEngine.ts) *)

Module BacktestEngine.

(** A position of the replay; [sp_id] is the [n] of the identifier
    [`pos_${n}`]. *)
Record SimPosition : Type := mkSimPosition {
  sp_id : nat;
  sp_entryPrice : num;
  sp_quantity : num;
  sp_entryTime : Date
}.

(** The variables of [simulateTrading]. *)
Record SimState : Type := mkSimState {
  sim_balance : num;
  sim_trades : list TradeRecord;
  sim_positions : list SimPosition;
  sim_positionIdCounter : nat
}.

(** [a.findIndex(p)], [None] for [-1]. *)
Fixpoint findIndex {A : Type} (p : A -> bool) (a : list A) : option nat :=
  match a with
  | [] => None
  | x :: a' => if p x then Some O else option_map S (findIndex p a')
  end.

(** [a.splice(i, 1)]: what is left of [a]. *)
Definition splice1 {A : Type} (i : nat) (a : list A) : list A :=
  firstn i a ++ skipn (S i) a.

(** [((price - position.entryPrice) / position.entryPrice) * 100]. *)
Definition pnlPercentAt (price : num) (position : SimPosition) : num :=
  mul (div (sub price (sp_entryPrice position)) (sp_entryPrice position))
      (ofZ 100).

(** The trade recorded when [position] is sold at [exitPrice]. *)
Definition tradeOf (position : SimPosition) (exitPrice : num) (exitTime : Date)
  : TradeRecord :=
  let pnl := mul (sub exitPrice (sp_entryPrice position)) (sp_quantity position) in
  let pnlPercent := pnlPercentAt exitPrice position in
  let fee := mul (mul exitPrice (sp_quantity position)) (Fin (1 / 1000)) in
  mkTradeRecord (sp_entryPrice position) exitPrice (sp_quantity position)
                (sp_entryTime position) exitTime pnl pnlPercent fee.

(** The body of the loop over [positionsToExit]. *)
Definition exitPosition (currentPrice : num) (currentTime : Date)
    (st : SimState) (positionId : nat) : SimState :=
  match findIndex (fun p => Nat.eqb (sp_id p) positionId) (sim_positions st) with
  | None => st
  | Some positionIndex =>
      match nth_error (sim_positions st) positionIndex with
      | None => st
      | Some position =>
          let trade := tradeOf position currentPrice currentTime in
          mkSimState
            (add (sim_balance st) (sub (trec_pnl trade) (trec_fee trade)))
            (sim_trades st ++ [trade])
            (splice1 positionIndex (sim_positions st))
            (sim_positionIdCounter st)
      end
  end.

(** The entry at the end of an iteration. *)
Definition enterPosition (currentPrice : num) (currentTime : Date)
    (st : SimState) : SimState :=
  if Nat.eqb (List.length (sim_positions st)) 0
  then
    let balance := sim_balance st in
    let canAfford := geb balance (ofZ 100) in
    if canAfford
    then
      let positionSize :=
        Math_min (mul balance (Fin (1 / 10))) (sub balance (ofZ 10)) in
      let quantity := div positionSize currentPrice in
      let entryFee := mul positionSize (Fin (1 / 1000)) in
      if geb balance (add positionSize entryFee)
      then
        mkSimState
          (sub balance (add positionSize entryFee))
          (sim_trades st)
          (sim_positions st
             ++ [mkSimPosition (sim_positionIdCounter st) currentPrice quantity
                               currentTime])
          (S (sim_positionIdCounter st))
      else st
    else st
  else st.

(** One iteration of [for (let i = 20; i < klines.length; i++)]. *)
Definition simulateStep (st : SimState) (currentKline : KlineData) : SimState :=
  let currentPrice := kd_close currentKline in
  let currentTime := kd_timestamp currentKline in
  let positionsToExit :=
    map sp_id
        (filter (fun position =>
                   let pnlPercent := pnlPercentAt currentPrice position in
                   geb pnlPercent (ofZ 5) || leb pnlPercent (Fin (- (25 / 10))))
                (sim_positions st)) in
  let st := fold_left (exitPosition currentPrice currentTime) positionsToExit st in
  enterPosition currentPrice currentTime st.

(** [simulateTrading]: the candles from index 20 on are replayed, and
    what is still held is sold at the last candle. *)
Definition simulateTrading (klines : list KlineData) (strategyType : string)
    (strategyConfig : StrategyConfig) (initialBalance : num)
  : list TradeRecord :=
  let st := fold_left simulateStep (skipn 20 klines)
                      (mkSimState initialBalance [] [] 0) in
  match rev klines with
  | [] => sim_trades st
  | lastKline :: _ =>
      fold_left
        (fun trades position =>
           trades ++ [tradeOf position (kd_close lastKline)
                              (kd_timestamp lastKline)])
        (sim_positions st) (sim_trades st)
  end.

End BacktestEngine.

(** ** The position ledger of the strategy base class (baseStrategy.ts) *)

Record PositionData : Type := mkPositionData {
  pd_symbol : string;
  pd_side : Side;
  pd_quantity : num;
  pd_entryPrice : num;
  pd_stopLoss : option num;
  pd_takeProfit : option num
}.

(** [formatNumber], the helper local to [createPosition]: as the one of
    [saveTrade], with [undefined] where that one answers ['0']. *)
Definition formatNumberOpt (n : option num) : option string :=
  match n with
  | None => None
  | Some n =>
      if isNaN n then None
      else
        let validNum := n in
        if negb (isFinite validNum) then None
        else
          let rounded :=
            div (Math_round (mul validNum (ofZ 100000000))) (ofZ 100000000) in
          let formatted := Str.toFixed8 rounded in
          let formatted :=
            if Str.includes_dot formatted
            then
              let f := Str.strip_trailing_zeros formatted in
              if Str.ends_with_dot f then Str.drop_last f else f
            else formatted in
          let formatted :=
            if Str.leading_zero_then_digit formatted
               && negb (Str.starts_with_zero_dot formatted)
            then Str.reparse formatted
            else formatted in
          if negb (Str.is_plain_decimal formatted)
          then
            let safe := Str.toFixed8 validNum in
            Some (Str.strip_final_dot (Str.strip_trailing_zeros safe))
          else Some formatted
  end.

(** [text || '0']. *)
Definition orZeroText (text : option string) : string :=
  if nonempty text
  then match text with Some s => s | None => "0"%string end
  else "0"%string.

Section Ledger.

(** The identifier the database gives to an inserted position row. *)
Variable generatedId : Db -> string.

Local Open Scope m_scope.

(** The hooks of the base class; a variant may override them. *)
Definition onPositionOpened (positionId : string) : M unit := ret tt.
Definition onPositionClosed (positionId : string) : M unit := ret tt.

(** [getPositions] and [getOpenPositions]. *)
Definition getPositions (s : Strategy) : M (list PositionRow) :=
  read_db (fun d =>
             filter (fun p => String.eqb (pos_strategyId p) (strategyId s))
                    (tbl_positions d)).

Definition getOpenPositions (s : Strategy) : M (list PositionRow) :=
  results <- getPositions s ;;
  ret (filter pos_isOpen results).

(** [createPosition]; the columns the insert leaves out take the defaults
    of the schema: no pnl, opened now, open. *)
Definition createPosition (s : Strategy) (positionData : PositionData)
  : M PositionRow :=
  t <- now ;;
  id <- read_db generatedId ;;
  let position :=
    mkPositionRow
      id
      (strategyId s)
      (pd_symbol positionData)
      (pd_side positionData)
      (Text (orZeroText (formatNumberOpt (Some (pd_quantity positionData)))))
      (Text (orZeroText (formatNumberOpt (Some (pd_entryPrice positionData)))))
      (Some (Text (orZeroText (formatNumberOpt (Some (pd_entryPrice positionData))))))
      (option_map Text (formatNumberOpt (pd_stopLoss positionData)))
      (option_map Text (formatNumberOpt (pd_takeProfit positionData)))
      (Some (Text "0"))
      (Some (Text "0"))
      t None true in
  write_db (set_positions (fun rows => rows ++ [position])) ;;;
  onPositionOpened (pos_id position) ;;;
  ret position.

(** The row [closePosition] writes. *)
Definition closedRow (closePrice : num) (t : Z) (p : PositionRow)
  : PositionRow :=
  mkPositionRow (pos_id p) (pos_strategyId p) (pos_symbol p) (pos_side p)
                (pos_quantity p) (pos_entryPrice p)
                (Some (NumText closePrice))
                (pos_stopLoss p) (pos_takeProfit p)
                (pos_unrealizedPnl p) (pos_unrealizedPnlPercent p)
                (pos_openedAt p) (Some t) false.

(** [closePosition]: the first updated row is returned, [None] when no
    row has that id. *)
Definition closePosition (s : Strategy) (positionId : string) (closePrice : num)
  : M (option PositionRow) :=
  t <- now ;;
  write_db (set_positions
              (update_where pos_id positionId (closedRow closePrice t))) ;;;
  position <- read_db (findPosition positionId) ;;
  match position with
  | Some position => onPositionClosed positionId ;;; ret (Some position)
  | None => ret None
  end.

End Ledger.

(** ** The position sizer (positionSizer.ts) *)

Module PositionSizer.

Record PositionSizeResult : Type := mkPositionSizeResult {
  psr_quantity : num;
  psr_value : num;
  psr_percentage : num
}.

(** [Math.floor(quantity * 100000000) / 100000000]. *)
Definition roundDown8 (quantity : num) : num :=
  div (Math_floor (mul quantity (ofZ 100000000))) (ofZ 100000000).

Section Sizer.

Variable sv : Services.
Variable risk : RiskConfig.

Local Open Scope m_scope.

(** [calculatePositionSize]; without a percentage the maximum of the
    configuration is taken. *)
Definition calculatePositionSize (symbol : string) (price : num)
    (riskPercent : option num) : M PositionSizeResult :=
  let riskPercent :=
    match riskPercent with
    | Some p => p
    | None => cfg_maxPositionSizePercent risk
    end in
  balance <- getBalance sv "USDT" ;;
  match balance with
  | None => throw (Err "Insufficient USDT balance")
  | Some balance =>
      if eqb (bal_free balance) (Fin 0)
      then throw (Err "Insufficient USDT balance")
      else
        let positionValue :=
          div (mul (bal_free balance) riskPercent) (ofZ 100) in
        let quantity := div positionValue price in
        let roundedQuantity := roundDown8 quantity in
        ret (mkPositionSizeResult roundedQuantity positionValue riskPercent)
  end.

Definition calculateSafePositionSize (userId symbol : string) (price : num)
    (requestedPercent : option num) : M PositionSizeResult :=
  limits <- getRiskLimits risk userId ;;
  let riskPercent :=
    match requestedPercent with
    | Some p => or_else p (maxPositionSizePercent limits)
    | None => maxPositionSizePercent limits
    end in
  let finalRiskPercent :=
    Math_min riskPercent (maxPositionSizePercent limits) in
  calculatePositionSize symbol price (Some finalRiskPercent).

End Sizer.

End PositionSizer.

(** ** The backtest engine with its replay and its analyzer *)

(** [BacktestEngine.runBacktest] with [simulateTrading] and the methods of
    the performance analyzer in the place of the parameters of
    [runBacktest]. *)
Definition runBacktestOfEngine (sv : Services) (generatedId : Db -> string)
    (fuel : nat) (cfg : BacktestConfig) (w : World)
  : option (Result BacktestResult * World) :=
  runBacktest sv BacktestEngine.simulateTrading
              PerformanceAnalyzer.calculateMetrics
              (PerformanceAnalyzer.generateEquityCurve (DateMs (w_now w)))
              generatedId fuel cfg w.

(** ** The stops of an open position (stopLossManager.ts) *)

(** [db.update(positions).set(updates)] for the [updates] object of
    [updateStopLossTakeProfit]: a column that is not a key of the object
    keeps its value. *)
Definition with_stops (stopLoss takeProfit : option DecimalText)
    (p : PositionRow) : PositionRow :=
  mkPositionRow (pos_id p) (pos_strategyId p) (pos_symbol p) (pos_side p)
                (pos_quantity p) (pos_entryPrice p) (pos_currentPrice p)
                (match stopLoss with
                 | Some t => Some t
                 | None => pos_stopLoss p
                 end)
                (match takeProfit with
                 | Some t => Some t
                 | None => pos_takeProfit p
                 end)
                (pos_unrealizedPnl p) (pos_unrealizedPnlPercent p)
                (pos_openedAt p) (pos_closedAt p) (pos_isOpen p).

(** [StopLossManager.updateStopLossTakeProfit]; an omitted percent is
    [None]. *)
Definition updateStopLossTakeProfit (positionId : string)
    (stopLossPercent takeProfitPercent : option num) : M unit :=
  position <- read_db (findPosition positionId) ;;
  match position with
  | None => throw (Err "Position not found or not open")
  | Some position =>
      if negb (pos_isOpen position)
      then throw (Err "Position not found or not open")
      else
        let entryPrice := parseFloat (pos_entryPrice position) in
        let stopLoss :=
          option_map (fun percent =>
                        NumText (calculateStopLoss entryPrice percent))
                     stopLossPercent in
        let takeProfit :=
          option_map (fun percent =>
                        NumText (calculateTakeProfit entryPrice percent))
                     takeProfitPercent in
        match stopLoss, takeProfit with
        | None, None => ret tt
        | _, _ =>
            write_db (set_positions
                        (update_where pos_id positionId
                                      (with_stops stopLoss takeProfit)))
        end
  end.

(** ** Sample data *)

(** Values used to exercise the statements of Part II. *)

Definition emptyDb : Db := mkDb [] [] [] [] [].

Definition sampleWorld : World := mkWorld emptyDb 1700000000000 [].

Definition noConfig : StrategyConfig := mkStrategyConfig None [].

Definition idleStrategy (id : string) (active : bool) : Strategy :=
  mkStrategy id "momentum" id noConfig active (ret tt)
             (fun _ => ret (mkStrategyResult true None None None)).

Definition sampleTrade (price : num) : TradeData :=
  mkTradeData None "BTCUSDT" SELL MARKET (Fin 1) price (Fin 0) "USDT"
              None None None "FILLED".

Definition sampleRisk : RiskConfig :=
  mkRiskConfig (ofZ 10) (Fin (25 / 10)) (ofZ 5) (ofZ 5) (ofZ 1).

Definition sampleBalance : Balance := mkBalance "USDT" (ofZ 1000) (ofZ 0) (ofZ 1000).

(** An exchange that holds 1000 USDT, quotes every symbol at [quote], fills
    a market order in one fill at that price, and has no candles. *)
Definition sampleServices (quote : num) : Services :=
  mkServices
    (fun _ _ => Ok quote)
    (fun _ _ => Ok (Some sampleBalance))
    (fun _ req =>
       Ok (mkOrderResult (ofZ 7) (req_symbol req) "FILLED" (req_side req)
                         (req_type req) (Fin 1) quote (Fin 1)
                         [mkFill quote (Fin 1) (Fin 0) "USDT"]))
    (fun _ _ _ => Ok (mkOrderStatus None None))
    (fun _ _ _ _ => Ok [])
    (fun _ _ => Ok []).

Definition samplePosition (id symbol : string) (stopLoss takeProfit : option num)
  : PositionRow :=
  mkPositionRow id "s1" symbol BUY (NumText (Fin 1)) (NumText (ofZ 100))
                (Some (NumText (ofZ 100)))
                (option_map NumText stopLoss) (option_map NumText takeProfit)
                (Some (Text "0")) (Some (Text "0"))
                1690000000000 None true.

Definition worldWith (ps : list PositionRow) : World :=
  mkWorld (mkDb [] ps [] [] []) 1700000000000 [].

(** The fills [{price: 100, qty: 1}, {price: 102, qty: 1}]. *)
Definition twoFills : list Fill :=
  [ mkFill (ofZ 100) (Fin 1) (Fin 0) "USDT";
    mkFill (ofZ 102) (Fin 1) (Fin 0) "USDT" ].

(** An exchange whose order-status answer reports 2 executed for a quote
    total of 202. *)
Definition statusServices : Services :=
  mkServices
    (fun _ _ => Ok (ofZ 100))
    (fun _ _ => Ok (Some sampleBalance))
    (fun _ _ => Throw (Err "no orders"))
    (fun _ _ _ => Ok (mkOrderStatus (Some (Fin 2)) (Some (ofZ 202))))
    (fun _ _ _ _ => Ok [])
    (fun _ _ => Ok []).

(** ** Observations used to state the properties *)

(** The stop the code reads for a position: [currentStopLossOf] of its row,
    zero when there is no such row. *)
Definition storedStop (positionId : string) (w : World) : num :=
  match findPosition positionId (w_db w) with
  | Some p => currentStopLossOf p
  | None => Fin 0
  end.

(** The stop before and after each of a sequence of trailing-stop updates. *)
Fixpoint stopHistory (s : Strategy) (positionId : string) (prices : list num)
    (w : World) : list num :=
  match prices with
  | [] => [storedStop positionId w]
  | price :: rest =>
      storedStop positionId w
      :: stopHistory s positionId rest
           (snd (updateTrailingStop s positionId price w))
  end.

(** [b] is [a], or above it. *)
Definition notBelow (a b : num) : Prop := a = b \/ ltb a b = true.

Fixpoint nonDecreasing (l : list num) : Prop :=
  match l with
  | a :: (b :: _) as rest => notBelow a b /\ nonDecreasing rest
  | _ => True
  end.

(** The trailing price the update computes. *)
Definition trailingStopPrice (currentPrice trailingStopPercent : num) : num :=
  mul currentPrice (sub (Fin 1) (div trailingStopPercent (ofZ 100))).

(** [((currentPrice - entryPrice) / entryPrice) * 100 > 0]. *)
Definition inProfit (p : PositionRow) (currentPrice : num) : bool :=
  gtb (mul (div (sub currentPrice (parseFloat (pos_entryPrice p)))
                (parseFloat (pos_entryPrice p)))
           (ofZ 100))
      (Fin 0).

Definition trailingStrategy (percent : num) : Strategy :=
  mkStrategy "s1" "momentum" "trend" 
             (mkStrategyConfig (Some "BTCUSDT"%string)
                               [("trailingStopPercent"%string, percent)])
             true (ret tt)
             (fun _ => ret (mkStrategyResult true None None None)).

(** [(endDate.getTime() - startDate.getTime()) / (1000 * 60 * 60 * 24)]. *)
Definition daysDiff (startDate endDate : Date) : num :=
  div (sub (getTime endDate) (getTime startDate)) (ofZ (1000 * 60 * 60 * 24)).

Definition sampleBacktest (startMs endMs : Z) : BacktestConfig :=
  mkBacktestConfig "momentum" "BTCUSDT" (DateMs startMs) (DateMs endMs)
                   (ofZ 1000) noConfig None.

Definition noMetrics : PerformanceMetrics :=
  mkPerformanceMetrics (Fin 0) (Fin 0) (Fin 0) (Fin 0) (Fin 0) (Fin 0) (Fin 0)
                       (Fin 0) (Fin 0) (Fin 0) (Fin 0) (Fin 0) (Fin 0) (Fin 0)
                       (Fin 0).

(** The registry is a map: no key twice, and each instance under its id. *)
Definition wellKeyed (m : Manager) : Prop :=
  NoDup (map fst (activeStrategies m))
  /\ Forall (fun kv => strategyId (snd kv) = fst kv) (activeStrategies m).

(** The pair handed to a strategy in a tick. *)
Definition pairFor (pair : option TradingPair) (bestPairs : list TradingPair)
  : option TradingPair :=
  match pair with
  | Some p => Some p
  | None => hd_error bestPairs
  end.

(** What one strategy's turn does to the world: its [execute] is entered
    and run; a result is announced, an exception is announced (by
    [executeStrategy] and again by [executeAll]) and goes no further. *)
Definition turn (pair : option TradingPair) (w : World) (s : Strategy) : World :=
  match execute s pair w with
  | (Ok result, w') => record (EmitExecuted (strategyId s) result) w'
  | (Throw e, w') =>
      record (EmitError (strategyId s) e)
             (record (EmitError (strategyId s) e) w')
  end.

Definition failingStrategy (id : string) : Strategy :=
  mkStrategy id "grid" id noConfig true (ret tt)
             (fun _ => throw (Err "exchange unavailable")).

Definition sampleManager : Manager :=
  mkManager [ ("a"%string, failingStrategy "a");
              ("b"%string, idleStrategy "b" false);
              ("c"%string, idleStrategy "c" true) ].

(** One open position bought at 100: with a take-profit at 110, and with a
    stop-loss at 95. *)
Definition takeProfitWorld : World :=
  worldWith [samplePosition "p1" "BTCUSDT" None (Some (ofZ 110))].

Definition stopLossWorld : World :=
  worldWith [samplePosition "p1" "BTCUSDT" (Some (ofZ 95)) None].

Definition marketSellOne : OrderRequest :=
  mkOrderRequest "BTCUSDT" SELL MARKET (Some (Fin 1)) None None None.

(** A number that is a real within bounds. *)
Definition within (lo hi : R) (x : num) : Prop :=
  exists r : R, x = Fin r /\ (lo <= r <= hi)%R.

(** A number that is a real not below zero, or plus infinity. *)
Definition nonNegative (x : num) : Prop :=
  x = PInf \/ exists r : R, x = Fin r /\ (0 <= r)%R.

(** A strategy whose [execute] only adds to the log. *)
Definition appendsToLog (s : Strategy) : Prop :=
  forall (pair : option TradingPair) (w : World),
    exists l, w_log (snd (execute_body s pair w)) = w_log w ++ l.
(** ** Observations on the analyzer and the replay *)

(** The balance after each trade, the initial balance first. *)
Fixpoint runningBalances (balance : num) (trades : list TradeRecord)
  : list num :=
  balance
  :: match trades with
     | [] => []
     | trade :: rest =>
         runningBalances (add balance (PerformanceAnalyzer.netPnl trade)) rest
     end.

(** A trade that counts as a win: its net result is above zero. *)
Definition isWin (trade : TradeRecord) : bool :=
  gtb (PerformanceAnalyzer.netPnl trade) (Fin 0).

(** The exit rule of the replay: a gain of at least 5 percent or a loss of
    at least 2.5 percent. *)
Definition exitRule (trade : TradeRecord) : Prop :=
  geb (trec_pnlPercent trade) (ofZ 5) = true
  \/ leb (trec_pnlPercent trade) (Fin (- (25 / 10))) = true.

(** The derived fields of a trade of the replay agree with its prices and
    quantity. *)
Definition consistentTrade (trade : TradeRecord) : Prop :=
  trec_pnl trade
  = mul (sub (trec_exitPrice trade) (trec_entryPrice trade)) (trec_quantity trade)
  /\ trec_pnlPercent trade
     = mul (div (sub (trec_exitPrice trade) (trec_entryPrice trade))
                (trec_entryPrice trade))
           (ofZ 100)
  /\ trec_fee trade
     = mul (mul (trec_exitPrice trade) (trec_quantity trade)) (Fin (1 / 1000)).

Definition candle (close : num) (ms : Z) : KlineData :=
  mkKlineData close close close close (Fin 1) (DateMs ms).

(** ** Observations on the risk checks *)

(** The approval of [checkTradeRisk]. *)
Definition approval : RiskCheckResult := mkRiskCheckResult true None medium.

(** A denial: not allowed, at high risk, with a reason. *)
Definition denial (r : RiskCheckResult) : Prop :=
  allowed r = false /\ riskLevel r = high /\ exists why, reason r = Some why.

(** The trades the daily-loss check sums up at the instant [t]. *)
Definition todayTradesOf (localMidnight : Z -> Z) (w : World) : list TradeRow :=
  filter (fun tr => (localMidnight (w_now w) <=? tr_executedAt tr)%Z)
         (tbl_trades (w_db w)).

Definition sampleLimits (dailyLossLimitPercent : num) : Limits :=
  mkLimits (ofZ 10) (Fin (25 / 10)) (ofZ 5) dailyLossLimitPercent (ofZ 5).

(** ** Observations on the monitor *)

(** What a sweep may do to a position row: everything that identifies the
    position and its stops stays, and a closed row is not opened again. *)
Definition monitored (before after : PositionRow) : Prop :=
  pos_id after = pos_id before
  /\ pos_strategyId after = pos_strategyId before
  /\ pos_symbol after = pos_symbol before
  /\ pos_side after = pos_side before
  /\ pos_quantity after = pos_quantity before
  /\ pos_entryPrice after = pos_entryPrice before
  /\ pos_stopLoss after = pos_stopLoss before
  /\ pos_takeProfit after = pos_takeProfit before
  /\ pos_openedAt after = pos_openedAt before
  /\ (pos_isOpen after = true -> pos_isOpen before = true).

(** A trade row written by a forced exit of one of [positions]: a filled
    market sell that carries the position's id, strategy and symbol. *)
Definition forcedSale (positions : list PositionRow) (t : TradeRow) : Prop :=
  tr_side t = SELL
  /\ tr_orderType t = MARKET
  /\ tr_status t = "FILLED"%string
  /\ exists p, In p positions
               /\ pos_isOpen p = true
               /\ tr_positionId t = Some (pos_id p)
               /\ tr_strategyId t = pos_strategyId p
               /\ tr_symbol t = pos_symbol p.

(** The world after a sweep, compared with the world before. *)
Definition swept (w w' : World) : Prop :=
  Forall2 monitored (tbl_positions (w_db w)) (tbl_positions (w_db w'))
  /\ (exists added,
         tbl_trades (w_db w') = tbl_trades (w_db w) ++ added
         /\ Forall (forcedSale (tbl_positions (w_db w))) added)
  /\ tbl_strategies (w_db w') = tbl_strategies (w_db w)
  /\ tbl_riskLimits (w_db w') = tbl_riskLimits (w_db w)
  /\ tbl_backtestResults (w_db w') = tbl_backtestResults (w_db w)
  /\ w_now w' = w_now w
  /\ exists requests, w_log w' = w_log w ++ requests.

(** ** Observations on the position ledger *)

Definition samplePositionData : PositionData :=
  mkPositionData "BTCUSDT" BUY (Fin 1) (ofZ 100) None None.

(** ** Observations on the historical data *)

(** The candle was opened at [endDate] or before. *)
Definition notAfter (endDate : Date) (k : KlineData) : Prop :=
  leb (getTime (kd_timestamp k)) (getTime endDate) = true.

(** A candle of one hour opened at [ms], at the price 100. *)
Definition hourCandle (ms : Z) : Kline :=
  mkKline (DateMs ms) (ofZ 100) (ofZ 100) (ofZ 100) (ofZ 100) (Fin 1)
          (DateMs (ms + 3599999)).

(** An exchange like [sampleServices] that answers every candle request
    with [klines]. *)
Definition candleServices (klines : list Kline) : Services :=
  mkServices
    (fun _ _ => Ok (ofZ 100))
    (fun _ _ => Ok (Some sampleBalance))
    (fun _ _ => Throw (Err "no orders"))
    (fun _ _ _ => Ok (mkOrderStatus None None))
    (fun _ _ _ _ => Ok klines)
    (fun _ _ => Ok []).

(* ================================================================= *)
(** * Part II: properties *)
(* ================================================================= *)

Unset Implicit Arguments.
Local Open Scope R_scope.

(** ** Comparisons on reals and numbers *)

Lemma Rltb_true : forall a b : R, a < b -> Rltb a b = true.
Proof. intros a b H. unfold Rltb. destruct (Rlt_dec a b); [reflexivity | contradiction]. Qed.

Lemma Rltb_false : forall a b : R, ~ a < b -> Rltb a b = false.
Proof. intros a b H. unfold Rltb. destruct (Rlt_dec a b); [contradiction | reflexivity]. Qed.

Lemma Rleb_true : forall a b : R, a <= b -> Rleb a b = true.
Proof. intros a b H. unfold Rleb. destruct (Rle_dec a b); [reflexivity | contradiction]. Qed.

Lemma Rleb_false : forall a b : R, ~ a <= b -> Rleb a b = false.
Proof. intros a b H. unfold Rleb. destruct (Rle_dec a b); [contradiction | reflexivity]. Qed.

Lemma Reqb_true : forall a b : R, a = b -> Reqb a b = true.
Proof. intros a b H. unfold Reqb. destruct (Req_dec_T a b); [reflexivity | contradiction]. Qed.

Lemma Reqb_false : forall a b : R, a <> b -> Reqb a b = false.
Proof. intros a b H. unfold Reqb. destruct (Req_dec_T a b); [contradiction | reflexivity]. Qed.

Lemma Rltb_iff : forall a b : R, Rltb a b = true <-> a < b.
Proof.
  intros a b. unfold Rltb. destruct (Rlt_dec a b); split; intro H;
    try reflexivity; try assumption; try discriminate; contradiction.
Qed.

Lemma Rleb_iff : forall a b : R, Rleb a b = true <-> a <= b.
Proof.
  intros a b. unfold Rleb. destruct (Rle_dec a b); split; intro H;
    try reflexivity; try assumption; try discriminate; contradiction.
Qed.

Lemma Reqb_iff : forall a b : R, Reqb a b = true <-> a = b.
Proof.
  intros a b. unfold Reqb. destruct (Req_dec_T a b); split; intro H;
    try reflexivity; try assumption; try discriminate; contradiction.
Qed.

(** Decide the comparisons of concrete reals that occur in the goal. *)
Ltac rdecide :=
  repeat match goal with
         | |- context [Rltb ?a ?b] =>
             first [ rewrite (Rltb_true a b) by lra
                   | rewrite (Rltb_false a b) by lra ]
         | |- context [Rleb ?a ?b] =>
             first [ rewrite (Rleb_true a b) by lra
                   | rewrite (Rleb_false a b) by lra ]
         | |- context [Reqb ?a ?b] =>
             first [ rewrite (Reqb_true a b) by lra
                   | rewrite (Reqb_false a b) by lra ]
         end.

Lemma floorR_unique :
  forall (r : R) (z : Z), IZR z <= r < IZR z + 1 -> floorR r = z.
Proof.
  intros r z [Hlo Hhi]. unfold floorR.
  destruct (base_Int_part r) as [H1 H2].
  assert (A : (Int_part r < z + 1)%Z).
  { apply lt_IZR. rewrite plus_IZR. simpl. lra. }
  assert (B : (z < Int_part r + 1)%Z).
  { apply lt_IZR. rewrite plus_IZR. simpl. lra. }
  lia.
Qed.

(** Unfold the number operations and decide what they compare. *)
Ltac nred :=
  cbv beta iota delta
      [ofZ ofNat add sub neg mul div ltb leb eqb gtb geb isNaN isFinite truthy
       or_else invalid positive_finite inf_times Math_abs Math_min Math_pow2
       numberOrZero missingId].

Ltac ncompute := repeat (progress (nred; rdecide)).

(** ** The ledger refuses a trade without a positive price *)

(** C2.  For every trade whose price is not finite or not above zero,
    [saveTrade] throws its refusal and leaves the world as it found it: no
    row reaches the trades table. *)
Theorem saveTrade_refuses_bad_price :
  forall (s : Strategy) (tradeData : TradeData) (w : World),
    isFinite (td_price tradeData) = false
    \/ leb (td_price tradeData) (Fin 0) = true ->
    saveTrade s tradeData w
    = (Throw (ErrNum "Refuse to save trade with non-positive price: "
                     (td_price tradeData)), w)
    /\ tbl_trades (w_db (snd (saveTrade s tradeData w))) = tbl_trades (w_db w).
Proof.
  intros s tradeData w H.
  assert (E : saveTrade s tradeData w
              = (Throw (ErrNum "Refuse to save trade with non-positive price: "
                               (td_price tradeData)), w)).
  { unfold saveTrade.
    destruct H as [H | H]; rewrite H.
    - rewrite orb_true_r. reflexivity.
    - rewrite orb_true_r. reflexivity. }
  split; [exact E | rewrite E; reflexivity].
Qed.

Lemma saveTrade_refuses_bad_price_witness :
  saveTrade (idleStrategy "s1" true) (sampleTrade (Fin 0)) sampleWorld
  = (Throw (ErrNum "Refuse to save trade with non-positive price: " (Fin 0)),
     sampleWorld)
  /\ tbl_trades (w_db (snd (saveTrade (idleStrategy "s1" true)
                                      (sampleTrade (Fin 0)) sampleWorld)))
     = tbl_trades (w_db sampleWorld).
Proof.
  apply (saveTrade_refuses_bad_price (idleStrategy "s1" true)
                                     (sampleTrade (Fin 0)) sampleWorld).
  right. simpl. apply Rleb_true. lra.
Defined.

(** ** Starting a strategy *)

(** C10.  [start] on an instance that is already active throws
    'Strategy is already active' and nothing else happens: [initialize] is
    not entered (the log is the same), the instance keeps its flag and the
    strategies table is not written.  A call that does return has taken an
    inactive instance to the active state. *)
Theorem start_already_active :
  forall (s : Strategy) (w : World),
    isActive s = true ->
    start s w = ((Throw (Err "Strategy is already active"), s), w)
    /\ (forall (s0 s1 : Strategy) (w0 w1 : World),
           start s0 w0 = ((Ok tt, s1), w1) ->
           isActive s0 = false /\ isActive s1 = true).
Proof.
  intros s w Hactive. split.
  - unfold start. rewrite Hactive. reflexivity.
  - intros s0 s1 w0 w1 Hstart. unfold start in Hstart.
    destruct (isActive s0) eqn:E0; [discriminate |].
    split; [reflexivity |].
    destruct (initialize s0 w0) as [[u | e] w'].
    + destruct (updateStrategyStatus (set_isActive s0 true) true w') as [[u' | e'] w''].
      * injection Hstart as <- _. reflexivity.
      * discriminate.
    + discriminate.
Qed.

Lemma start_already_active_witness :
  start (idleStrategy "s1" true) sampleWorld
  = ((Throw (Err "Strategy is already active"), idleStrategy "s1" true),
     sampleWorld)
  /\ (forall (s0 s1 : Strategy) (w0 w1 : World),
         start s0 w0 = ((Ok tt, s1), w1) ->
         isActive s0 = false /\ isActive s1 = true).
Proof.
  apply (start_already_active (idleStrategy "s1" true) sampleWorld).
  reflexivity.
Defined.

(** From the inactive state [start] enters [initialize] and, when that
    returns, sets the flag and writes the status. *)
Lemma start_from_inactive :
  forall (s : Strategy) (w w1 : World),
    isActive s = false ->
    initialize s w = (Ok tt, w1) ->
    exists w2,
      start s w = ((Ok tt, set_isActive s true), w2)
      /\ w_log w2 = w_log w1.
Proof.
  intros s w w1 Hinactive Hinit. unfold start. rewrite Hinactive, Hinit.
  unfold updateStrategyStatus, bind, now, write_db. simpl.
  eexists. split; reflexivity.
Qed.

(** ** The order of the pre-trade checks *)

Section RiskOrder.

Variable sv : Services.
Variable risk : RiskConfig.
Variable localMidnight : Z -> Z.

Lemma getRiskLimits_reads :
  forall (userId : string) (w : World),
    exists limits, getRiskLimits risk userId w = (Ok limits, w).
Proof.
  intros userId w. unfold getRiskLimits, bind, read_db.
  destruct (select_first _ _); eexists; reflexivity.
Qed.

(** A denial by the position-size check is the answer, whatever the later
    checks would have said. *)
Lemma checkTradeRisk_first_denial :
  forall (userId symbol : string) (quantity price : num) (side : Side)
         (w w1 : World) (limits : Limits) (r : RiskCheckResult),
    getRiskLimits risk userId w = (Ok limits, w) ->
    checkPositionSize sv userId symbol quantity price limits w = (Ok r, w1) ->
    allowed r = false ->
    checkTradeRisk sv risk localMidnight userId symbol quantity price side w
    = (Ok r, w1).
Proof.
  intros userId symbol quantity price side w w1 limits r Hl Hp Hdeny.
  unfold checkTradeRisk, try_catch, bind. rewrite Hl, Hp, Hdeny. reflexivity.
Qed.

(** Once the position size passes, a denial by the concurrent-positions
    check is the answer. *)
Lemma checkTradeRisk_second_denial :
  forall (userId symbol : string) (quantity price : num) (side : Side)
         (w w1 w2 : World) (limits : Limits) (r1 r2 : RiskCheckResult),
    getRiskLimits risk userId w = (Ok limits, w) ->
    checkPositionSize sv userId symbol quantity price limits w = (Ok r1, w1) ->
    allowed r1 = true ->
    checkConcurrentPositions userId limits w1 = (Ok r2, w2) ->
    allowed r2 = false ->
    checkTradeRisk sv risk localMidnight userId symbol quantity price side w
    = (Ok r2, w2).
Proof.
  intros userId symbol quantity price side w w1 w2 limits r1 r2 Hl Hp Hok Hc Hdeny.
  unfold checkTradeRisk, try_catch, bind. rewrite Hl, Hp, Hok. simpl.
  rewrite Hc, Hdeny. reflexivity.
Qed.

(** Once both pass, a denial by the daily-loss check is the answer. *)
Lemma checkTradeRisk_third_denial :
  forall (userId symbol : string) (quantity price : num) (side : Side)
         (w w1 w2 w3 : World) (limits : Limits) (r1 r2 r3 : RiskCheckResult),
    getRiskLimits risk userId w = (Ok limits, w) ->
    checkPositionSize sv userId symbol quantity price limits w = (Ok r1, w1) ->
    allowed r1 = true ->
    checkConcurrentPositions userId limits w1 = (Ok r2, w2) ->
    allowed r2 = true ->
    checkDailyLossLimit sv localMidnight userId limits w2 = (Ok r3, w3) ->
    allowed r3 = false ->
    checkTradeRisk sv risk localMidnight userId symbol quantity price side w
    = (Ok r3, w3).
Proof.
  intros userId symbol quantity price side w w1 w2 w3 limits r1 r2 r3
         Hl Hp Hok1 Hc Hok2 Hd Hdeny.
  unfold checkTradeRisk, try_catch, bind. rewrite Hl, Hp, Hok1. simpl.
  rewrite Hc, Hok2. simpl. rewrite Hd, Hdeny. reflexivity.
Qed.

(** The correlation check flags, it never denies. *)
Lemma checkCorrelation_allows :
  forall (userId symbol : string) (w : World),
    exists r, checkCorrelation userId symbol w = (Ok r, w) /\ allowed r = true.
Proof.
  intros userId symbol w. unfold checkCorrelation, bind, read_db.
  destruct (find _ _) as [p |].
  - destruct (String.eqb (pos_symbol p) symbol); eexists; split; reflexivity.
  - eexists; split; reflexivity.
Qed.

(** The position-size check on a funded account whose request is too big. *)
Lemma checkPositionSize_exceeds :
  forall (userId symbol : string) (quantity price : num) (w : World)
         (limits : Limits) (balance : Balance),
    getBalance_answer sv (w_log w) "USDT" = Ok (Some balance) ->
    eqb (bal_total balance) (Fin 0) = false ->
    gtb (mul (div (mul quantity price) (bal_total balance)) (ofZ 100))
        (maxPositionSizePercent limits) = true ->
    checkPositionSize sv userId symbol quantity price limits w
    = (Ok (mkRiskCheckResult false
             (Some (PositionSizeExceeds
                      (mul (div (mul quantity price) (bal_total balance)) (ofZ 100))
                      (maxPositionSizePercent limits)))
             high),
       record (CallGetBalance "USDT") w).
Proof.
  intros userId symbol quantity price w limits balance Hb Hz Hgt.
  unfold checkPositionSize, bind, getBalance, request. rewrite Hb.
  rewrite Hz, Hgt. reflexivity.
Qed.

(** The concurrent-positions check with the open positions at the limit. *)
Lemma checkConcurrentPositions_reached :
  forall (userId : string) (limits : Limits) (w : World),
    geb (ofZ (Z.of_nat (List.length (openPositionsOf (w_db w)))))
        (maxConcurrentPositions limits) = true ->
    checkConcurrentPositions userId limits w
    = (Ok (mkRiskCheckResult false
             (Some (MaxConcurrentReached (maxConcurrentPositions limits)))
             high),
       w).
Proof.
  intros userId limits w H.
  unfold checkConcurrentPositions, bind, read_db. rewrite H. reflexivity.
Qed.

(** The position-size check on a funded account whose request is within
    the limit. *)
Lemma checkPositionSize_within :
  forall (userId symbol : string) (quantity price : num) (w : World)
         (limits : Limits) (balance : Balance),
    getBalance_answer sv (w_log w) "USDT" = Ok (Some balance) ->
    eqb (bal_total balance) (Fin 0) = false ->
    gtb (mul (div (mul quantity price) (bal_total balance)) (ofZ 100))
        (maxPositionSizePercent limits) = false ->
    checkPositionSize sv userId symbol quantity price limits w
    = (Ok (mkRiskCheckResult true None medium),
       record (CallGetBalance "USDT") w).
Proof.
  intros userId symbol quantity price w limits balance Hb Hz Hle.
  unfold checkPositionSize, bind, getBalance, request. rewrite Hb.
  rewrite Hz, Hle. reflexivity.
Qed.


End RiskOrder.


(** ** Order reconciliation *)

Lemma invalid_not_positive_finite :
  forall x : num, invalid x = negb (isFinite x && gtb x (Fin 0)).
Proof.
  intros [| | | r]; try reflexivity.
  unfold invalid, isFinite, gtb, ltb, leb. simpl.
  unfold Rleb, Rltb.
  destruct (Rle_dec r 0), (Rlt_dec 0 r); try reflexivity; lra.
Qed.

Lemma record_changes_world : forall (e : Effect) (w : World), record e w <> w.
Proof.
  intros e w H. apply (f_equal w_log) in H. simpl in H.
  apply (f_equal (@List.length Effect)) in H.
  rewrite length_app in H. simpl in H. lia.
Qed.

Lemma andb4_pairs :
  forall a b c d : bool, a && b && c && d = (a && b) && (c && d).
Proof. intros [] [] [] []; reflexivity. Qed.

Section Reconciliation.

Variable sv : Services.

(** With a valid local price and quantity the exchange is not asked. *)
Lemma resolve_local :
  forall (result : ExecutedLike) (w : World),
    invalid (ex_price (extractExecutedFromResult result)) = false ->
    invalid (ex_qty (extractExecutedFromResult result)) = false ->
    resolveExecutedFromExchange sv result w
    = (Ok (extractExecutedFromResult result), w).
Proof.
  intros result w Hp Hq. unfold resolveExecutedFromExchange.
  rewrite invalid_not_positive_finite in Hp, Hq.
  apply negb_false_iff in Hp. apply negb_false_iff in Hq.
  rewrite andb4_pairs, Hp, Hq. simpl.
  destruct (extractExecutedFromResult result). reflexivity.
Qed.

(** A call that changed the world asked the exchange exactly once, and the
    local price or quantity was invalid. *)
Lemma resolve_round_trip :
  forall (result : ExecutedLike) (w w' : World) (r : Result Executed),
    resolveExecutedFromExchange sv result w = (r, w') ->
    w' <> w ->
    (invalid (ex_price (extractExecutedFromResult result)) = true
     \/ invalid (ex_qty (extractExecutedFromResult result)) = true)
    /\ exists symbol orderId,
        el_symbol result = Some symbol
        /\ el_orderId result = Some orderId
        /\ w' = record (CallGetOrder symbol orderId) w.
Proof.
  intros result w w' r H Hneq. unfold resolveExecutedFromExchange in H.
  rewrite andb4_pairs in H.
  assert (Hsame : forall e, ret e w = (r, w') -> False).
  { intros e He. unfold ret in He. injection He as _ <-. contradiction. }
  destruct ((isFinite (ex_price (extractExecutedFromResult result))
             && gtb (ex_price (extractExecutedFromResult result)) (Fin 0))
            && (isFinite (ex_qty (extractExecutedFromResult result))
                && gtb (ex_qty (extractExecutedFromResult result)) (Fin 0)))
    eqn:E.
  - exfalso. exact (Hsame _ H).
  - split.
    + rewrite !invalid_not_positive_finite.
      apply andb_false_iff in E. destruct E as [E | E]; rewrite E; auto.
    + destruct (el_symbol result) as [symbol |];
        [| exfalso; exact (Hsame _ H)].
      destruct (el_orderId result) as [orderId |];
        [| exfalso; exact (Hsame _ H)].
      destruct (negb (nonempty (Some symbol)) || missingId (Some orderId));
        [exfalso; exact (Hsame _ H) |].
      exists symbol, orderId. split; [reflexivity | split; [reflexivity |]].
      unfold try_catch, bind, getOrderStatus, request, ret in H.
      destruct (getOrder_answer sv (w_log w) symbol orderId);
        injection H as _ <-; reflexivity.
Qed.

(** Usable fills decide price and quantity, whatever the order reports. *)
Lemma extract_from_fills :
  forall (result : ExecutedLike) (fills : list Fill),
    el_fills result = Some fills ->
    fills <> [] ->
    gtb (fillsQty fills) (Fin 0) = true ->
    invalid (div (fillsValue fills) (fillsQty fills)) = false ->
    invalid (fillsQty fills) = false ->
    extractExecutedFromResult result
    = mkExecuted (div (fillsValue fills) (fillsQty fills)) (fillsQty fills).
Proof.
  intros result fills Hf Hne Hq Hvp Hvq. unfold extractExecutedFromResult.
  rewrite Hf.
  destruct fills as [| f fills']; [contradiction |].
  change (0 <? List.length (f :: fills'))%nat with true. cbv iota.
  rewrite Hq, Hvp, Hvq.
  destruct (el_price result), (el_executedQty result); reflexivity.
Qed.

(** Without a price from the fills, a valid reported price is the price. *)
Lemma extract_from_reported_price :
  forall (result : ExecutedLike) (p : num),
    (el_fills result = None
     \/ el_fills result = Some []
     \/ exists fills, el_fills result = Some fills
                      /\ gtb (fillsQty fills) (Fin 0) = false) ->
    el_price result = Some p ->
    invalid p = false ->
    ex_price (extractExecutedFromResult result) = p.
Proof.
  intros result p Hf Hp Hvalid. unfold extractExecutedFromResult.
  rewrite invalid_not_positive_finite in Hvalid.
  apply negb_false_iff in Hvalid.
  assert (Hz : invalid (Fin 0) = true).
  { unfold invalid, leb. simpl. apply Rleb_true. lra. }
  destruct Hf as [Hf | [Hf | (fills & Hf & Hq)]]; rewrite Hf, Hp.
  - cbv beta iota zeta. rewrite Hz, Hvalid.
    destruct (el_executedQty result); reflexivity.
  - change (0 <? List.length (@nil Fill))%nat with false.
    cbv beta iota zeta. rewrite Hz, Hvalid.
    destruct (el_executedQty result); reflexivity.
  - rewrite Hq. destruct (0 <? List.length fills)%nat;
      cbv beta iota zeta; rewrite Hz, Hvalid;
      destruct (el_executedQty result); reflexivity.
Qed.

(** When the exchange is asked and reports an executed quantity and a
    quote total, both above zero, the quantity is the reported one and the
    price is the quote total over it (unless that quotient is zero). *)
Lemma resolve_from_exchange :
  forall (result : ExecutedLike) (w : World) (symbol : string)
         (orderId : num) (status : OrderStatus) (executedQty cqq : num),
    invalid (ex_price (extractExecutedFromResult result)) = true
    \/ invalid (ex_qty (extractExecutedFromResult result)) = true ->
    el_symbol result = Some symbol ->
    nonempty (Some symbol) = true ->
    el_orderId result = Some orderId ->
    truthy orderId = true ->
    getOrder_answer sv (w_log w) symbol orderId = Ok status ->
    os_executedQty status = Some executedQty ->
    gtb executedQty (Fin 0) = true ->
    os_cummulativeQuoteQty status = Some cqq ->
    isFinite cqq = true ->
    gtb cqq (Fin 0) = true ->
    truthy (div cqq executedQty) = true ->
    resolveExecutedFromExchange sv result w
    = (Ok (mkExecuted (div cqq executedQty) executedQty),
       record (CallGetOrder symbol orderId) w).
Proof.
  intros result w symbol orderId status executedQty cqq
         Hinv Hs Hne Hid Hidt Hans Hq Hqp Hc Hcf Hcp Ht.
  unfold resolveExecutedFromExchange.
  assert (Hlocal :
            isFinite (ex_price (extractExecutedFromResult result))
            && gtb (ex_price (extractExecutedFromResult result)) (Fin 0)
            && isFinite (ex_qty (extractExecutedFromResult result))
            && gtb (ex_qty (extractExecutedFromResult result)) (Fin 0) = false).
  { rewrite andb4_pairs. rewrite !invalid_not_positive_finite in Hinv.
    destruct Hinv as [H | H]; apply negb_true_iff in H; rewrite H.
    - reflexivity.
    - apply andb_false_r. }
  rewrite Hlocal. cbv iota.
  rewrite Hs, Hid. cbv iota. rewrite Hne.
  unfold missingId. rewrite Hidt.
  change (negb true || negb true) with false. cbv iota.
  unfold try_catch, bind, getOrderStatus, request. rewrite Hans.
  cbv beta iota zeta. rewrite Hq, Hc. cbn [numberOrZero].
  rewrite Hqp, Hcf, Hcp.
  change (true && true) with true. cbv iota. unfold ret.
  unfold or_else at 1. rewrite Ht.
  assert (Hqt : truthy executedQty = true).
  { destruct executedQty as [| | | r]; try discriminate; [reflexivity |].
    cbn [truthy]. unfold gtb, ltb in Hqp. apply Rltb_iff in Hqp.
    rewrite (Reqb_false r 0) by lra. reflexivity. }
  unfold or_else at 1. rewrite Hqt. reflexivity.
Qed.

(** When the order-status request throws, the local values are returned,
    zero standing for what is missing. *)
Lemma resolve_exchange_throws :
  forall (result : ExecutedLike) (w : World) (symbol : string)
         (orderId : num) (e : Error),
    invalid (ex_price (extractExecutedFromResult result)) = true
    \/ invalid (ex_qty (extractExecutedFromResult result)) = true ->
    el_symbol result = Some symbol ->
    nonempty (Some symbol) = true ->
    el_orderId result = Some orderId ->
    truthy orderId = true ->
    getOrder_answer sv (w_log w) symbol orderId = Throw e ->
    resolveExecutedFromExchange sv result w
    = (Ok (mkExecuted
             (or_else (ex_price (extractExecutedFromResult result)) (Fin 0))
             (or_else (ex_qty (extractExecutedFromResult result)) (Fin 0))),
       record (CallGetOrder symbol orderId) w).
Proof.
  intros result w symbol orderId e Hinv Hs Hne Hid Hidt Hans.
  unfold resolveExecutedFromExchange.
  assert (Hlocal :
            isFinite (ex_price (extractExecutedFromResult result))
            && gtb (ex_price (extractExecutedFromResult result)) (Fin 0)
            && isFinite (ex_qty (extractExecutedFromResult result))
            && gtb (ex_qty (extractExecutedFromResult result)) (Fin 0) = false).
  { rewrite andb4_pairs. rewrite !invalid_not_positive_finite in Hinv.
    destruct Hinv as [H | H]; apply negb_true_iff in H; rewrite H.
    - reflexivity.
    - apply andb_false_r. }
  rewrite Hlocal. cbv iota.
  rewrite Hs, Hid. cbv iota. rewrite Hne.
  unfold missingId. rewrite Hidt.
  change (negb true || negb true) with false. cbv iota.
  unfold try_catch, bind, getOrderStatus, request. rewrite Hans.
  reflexivity.
Qed.

End Reconciliation.

Lemma twoFills_average :
  div (fillsValue twoFills) (fillsQty twoFills) = ofZ 101
  /\ fillsQty twoFills = Fin 2.
Proof.
  unfold fillsValue, fillsQty, twoFills. simpl. ncompute.
  split; f_equal; lra.
Qed.

Lemma twoFills_extracted :
  forall (p q id : option num) (sym : option string),
    extractExecutedFromResult (mkExecutedLike p q (Some twoFills) id sym)
    = mkExecuted (ofZ 101) (Fin 2).
Proof.
  intros p q id sym.
  destruct twoFills_average as [Hprice Hqty].
  rewrite (extract_from_fills (mkExecutedLike p q (Some twoFills) id sym) twoFills).
  - rewrite Hprice, Hqty. reflexivity.
  - reflexivity.
  - discriminate.
  - rewrite Hqty. ncompute. reflexivity.
  - rewrite Hprice. unfold invalid. ncompute. reflexivity.
  - rewrite Hqty. unfold invalid. ncompute. reflexivity.
Qed.

(** A sanity check of the third source: an order result without fills,
    price or quantity is resolved by one order-status request, and the
    price is the quote total over the executed quantity. *)
Example resolve_asks_exchange :
  resolveExecutedFromExchange statusServices
    (mkExecutedLike None None None (Some (ofZ 7)) (Some "BTCUSDT"%string))
    sampleWorld
  = (Ok (mkExecuted (div (ofZ 202) (Fin 2)) (Fin 2)),
     record (CallGetOrder "BTCUSDT" (ofZ 7)) sampleWorld).
Proof.
  unfold resolveExecutedFromExchange, extractExecutedFromResult. simpl.
  ncompute. simpl.
  unfold try_catch, bind, getOrderStatus, request, ret. simpl.
  ncompute. reflexivity.
Qed.

Lemma statusServices_quotient : div (ofZ 202) (Fin 2) = ofZ 101.
Proof. unfold div, ofZ. rdecide. f_equal. lra. Qed.

(** C3.  Executed price and quantity are resolved in priority order.
    (1) Usable fills give the quantity-weighted average price and the summed
    quantity, whatever the order reports.  (2) Without a price from the
    fills, a valid reported price is taken.  (3) The exchange is asked only
    when the local price or quantity is invalid (not finite, or not above
    zero): with valid local values the world is untouched, and a call that
    touched the world made exactly one order-status request.  When the
    exchange is asked and reports an executed quantity and a quote total,
    both above zero, the quantity is the executed quantity and the price is
    the quote total over the executed quantity, also in place of a valid
    reported price whose quantity was missing; when the request throws, the
    local values are returned, zero for what is missing.  An exchange that
    reports 2 executed for a quote total of 202 gives price 101 and quantity
    2, both for an order result that holds nothing and for one that reports
    only the price 100.  The fills [{price:100, qty:1}, {price:102, qty:1}]
    give price 101 and quantity 2 with no request to the exchange. *)
Theorem reconciliation_priority :
  forall (sv : Services) (w : World),
    (forall (result : ExecutedLike) (fills : list Fill),
        el_fills result = Some fills ->
        fills <> [] ->
        gtb (fillsQty fills) (Fin 0) = true ->
        invalid (div (fillsValue fills) (fillsQty fills)) = false ->
        invalid (fillsQty fills) = false ->
        extractExecutedFromResult result
        = mkExecuted (div (fillsValue fills) (fillsQty fills)) (fillsQty fills))
    /\ (forall (result : ExecutedLike) (p : num),
           (el_fills result = None
            \/ el_fills result = Some []
            \/ exists fills, el_fills result = Some fills
                             /\ gtb (fillsQty fills) (Fin 0) = false) ->
           el_price result = Some p ->
           invalid p = false ->
           ex_price (extractExecutedFromResult result) = p)
    /\ (forall result : ExecutedLike,
           invalid (ex_price (extractExecutedFromResult result)) = false ->
           invalid (ex_qty (extractExecutedFromResult result)) = false ->
           resolveExecutedFromExchange sv result w
           = (Ok (extractExecutedFromResult result), w))
    /\ (forall (result : ExecutedLike) (w' : World) (r : Result Executed),
           resolveExecutedFromExchange sv result w = (r, w') ->
           w' <> w ->
           (invalid (ex_price (extractExecutedFromResult result)) = true
            \/ invalid (ex_qty (extractExecutedFromResult result)) = true)
           /\ exists symbol orderId,
               el_symbol result = Some symbol
               /\ el_orderId result = Some orderId
               /\ w' = record (CallGetOrder symbol orderId) w)
    /\ (forall (result : ExecutedLike) (symbol : string) (orderId : num)
               (status : OrderStatus) (executedQty cqq : num),
           invalid (ex_price (extractExecutedFromResult result)) = true
           \/ invalid (ex_qty (extractExecutedFromResult result)) = true ->
           el_symbol result = Some symbol ->
           nonempty (Some symbol) = true ->
           el_orderId result = Some orderId ->
           truthy orderId = true ->
           getOrder_answer sv (w_log w) symbol orderId = Ok status ->
           os_executedQty status = Some executedQty ->
           gtb executedQty (Fin 0) = true ->
           os_cummulativeQuoteQty status = Some cqq ->
           isFinite cqq = true ->
           gtb cqq (Fin 0) = true ->
           truthy (div cqq executedQty) = true ->
           resolveExecutedFromExchange sv result w
           = (Ok (mkExecuted (div cqq executedQty) executedQty),
              record (CallGetOrder symbol orderId) w))
    /\ (forall (result : ExecutedLike) (symbol : string) (orderId : num)
               (e : Error),
           invalid (ex_price (extractExecutedFromResult result)) = true
           \/ invalid (ex_qty (extractExecutedFromResult result)) = true ->
           el_symbol result = Some symbol ->
           nonempty (Some symbol) = true ->
           el_orderId result = Some orderId ->
           truthy orderId = true ->
           getOrder_answer sv (w_log w) symbol orderId = Throw e ->
           resolveExecutedFromExchange sv result w
           = (Ok (mkExecuted
                    (or_else (ex_price (extractExecutedFromResult result))
                             (Fin 0))
                    (or_else (ex_qty (extractExecutedFromResult result))
                             (Fin 0))),
              record (CallGetOrder symbol orderId) w))
    /\ resolveExecutedFromExchange statusServices
         (mkExecutedLike None None None (Some (ofZ 7)) (Some "BTCUSDT"%string))
         sampleWorld
       = (Ok (mkExecuted (ofZ 101) (Fin 2)),
          record (CallGetOrder "BTCUSDT" (ofZ 7)) sampleWorld)
    /\ resolveExecutedFromExchange statusServices
         (mkExecutedLike (Some (ofZ 100)) None None (Some (ofZ 7))
                         (Some "BTCUSDT"%string))
         sampleWorld
       = (Ok (mkExecuted (ofZ 101) (Fin 2)),
          record (CallGetOrder "BTCUSDT" (ofZ 7)) sampleWorld)
    /\ (forall (p q id : option num) (sym : option string),
           resolveExecutedFromExchange sv
             (mkExecutedLike p q (Some twoFills) id sym) w
           = (Ok (mkExecuted (ofZ 101) (Fin 2)), w)).
Proof.
  intros sv w.
  split; [intros; apply extract_from_fills; assumption |].
  split; [intros; apply extract_from_reported_price; assumption |].
  split; [intros; apply resolve_local; assumption |].
  split; [intros; eapply resolve_round_trip; eassumption |].
  split; [intros; eapply resolve_from_exchange; eassumption |].
  split; [intros; eapply resolve_exchange_throws; eassumption |].
  split; [| split].
  - rewrite <- statusServices_quotient.
    apply resolve_from_exchange
      with (status := mkOrderStatus (Some (Fin 2)) (Some (ofZ 202)));
      try reflexivity.
    + left. cbv [extractExecutedFromResult el_fills el_price el_executedQty
                 ex_price invalid]. ncompute. reflexivity.
    + ncompute. reflexivity.
    + ncompute. reflexivity.
    + ncompute. reflexivity.
    + rewrite statusServices_quotient. ncompute. reflexivity.
  - rewrite <- statusServices_quotient.
    apply resolve_from_exchange
      with (status := mkOrderStatus (Some (Fin 2)) (Some (ofZ 202)));
      try reflexivity.
    + right. cbv [extractExecutedFromResult el_fills el_price el_executedQty
                  ex_qty invalid]. ncompute. reflexivity.
    + ncompute. reflexivity.
    + ncompute. reflexivity.
    + ncompute. reflexivity.
    + rewrite statusServices_quotient. ncompute. reflexivity.
  - intros p q id sym.
    rewrite <- (twoFills_extracted p q id sym).
    apply resolve_local; rewrite twoFills_extracted;
      cbv [ex_price ex_qty invalid]; ncompute; reflexivity.
Qed.

(** ** The trailing stop only moves up *)

Lemma find_update_where :
  forall (id : string) (f : PositionRow -> PositionRow) (rows : list PositionRow),
    (forall p, pos_id (f p) = pos_id p) ->
    find (fun p => String.eqb (pos_id p) id) (update_where pos_id id f rows)
    = option_map f (find (fun p => String.eqb (pos_id p) id) rows).
Proof.
  intros id f rows Hid. induction rows as [| r rows IH]; [reflexivity |].
  unfold update_where in *. simpl.
  destruct (String.eqb (pos_id r) id) eqn:E.
  - simpl. rewrite Hid, E. reflexivity.
  - simpl. rewrite E. exact IH.
Qed.

(** One update: the row is left alone, or the position is in profit and a
    stop strictly above the one read is written. *)
Lemma updateTrailingStop_step :
  forall (s : Strategy) (positionId : string) (currentPrice : num)
         (w : World) (p : PositionRow),
    findPosition positionId (w_db w) = Some p ->
    exists p',
      fst (updateTrailingStop s positionId currentPrice w) = Ok tt
      /\ findPosition positionId
           (w_db (snd (updateTrailingStop s positionId currentPrice w)))
         = Some p'
      /\ (p' = p
          \/ exists percent,
               setting "trailingStopPercent" (config s) = Some percent
               /\ pos_isOpen p = true
               /\ inProfit p currentPrice = true
               /\ gtb (trailingStopPrice currentPrice percent)
                      (currentStopLossOf p) = true
               /\ p' = with_stopLoss
                         (NumText (trailingStopPrice currentPrice percent)) p).
Proof.
  intros s positionId currentPrice w p Hfind.
  unfold updateTrailingStop, bind, read_db. rewrite Hfind.
  destruct (setting "trailingStopPercent" (config s)) as [percent |];
    [| exists p; simpl; auto].
  destruct (pos_isOpen p) eqn:Eopen; [| exists p; simpl; auto].
  destruct (truthy percent); [| exists p; simpl; auto].
  cbv beta iota zeta. change (negb true || negb true) with false. cbv iota.
  fold (inProfit p currentPrice).
  destruct (inProfit p currentPrice) eqn:Eprofit; [| exists p; simpl; auto].
  fold (trailingStopPrice currentPrice percent).
  destruct (gtb (trailingStopPrice currentPrice percent) (currentStopLossOf p))
    eqn:Eup; [| exists p; simpl; auto].
  exists (with_stopLoss (NumText (trailingStopPrice currentPrice percent)) p).
  split; [reflexivity |]. split.
  - unfold write_db, findPosition, select_first, set_positions. simpl.
    rewrite find_update_where by reflexivity.
    unfold findPosition, select_first in Hfind. rewrite Hfind. reflexivity.
  - right. exists percent. auto.
Qed.

Lemma updateTrailingStop_not_below :
  forall (s : Strategy) (positionId : string) (currentPrice : num) (w : World),
    notBelow (storedStop positionId w)
             (storedStop positionId
                (snd (updateTrailingStop s positionId currentPrice w))).
Proof.
  intros s positionId currentPrice w. unfold storedStop.
  destruct (findPosition positionId (w_db w)) as [p |] eqn:Hfind.
  - destruct (updateTrailingStop_step s positionId currentPrice w p Hfind)
      as (p' & _ & Hfind' & [-> | (percent & _ & _ & _ & Hup & ->)]);
      rewrite Hfind'.
    + left. reflexivity.
    + right. exact Hup.
  - unfold updateTrailingStop, bind, read_db. rewrite Hfind. simpl.
    rewrite Hfind. left. reflexivity.
Qed.

(** C6.  Across any sequence of trailing-stop updates of a position, the
    stop the code reads from storage never moves down: each update leaves
    the row as it is, or, with the position in profit, writes a stop that is
    strictly above the one it read. *)
Theorem trailing_stop_non_decreasing :
  forall (s : Strategy) (positionId : string),
    (forall (prices : list num) (w : World),
        nonDecreasing (stopHistory s positionId prices w))
    /\ (forall (currentPrice : num) (w : World) (p : PositionRow),
           findPosition positionId (w_db w) = Some p ->
           exists p',
             fst (updateTrailingStop s positionId currentPrice w) = Ok tt
             /\ findPosition positionId
                  (w_db (snd (updateTrailingStop s positionId currentPrice w)))
                = Some p'
             /\ (p' = p
                 \/ exists percent,
                      setting "trailingStopPercent" (config s) = Some percent
                      /\ pos_isOpen p = true
                      /\ inProfit p currentPrice = true
                      /\ gtb (trailingStopPrice currentPrice percent)
                             (currentStopLossOf p) = true
                      /\ p' = with_stopLoss
                                (NumText (trailingStopPrice currentPrice percent))
                                p)).
Proof.
  intros s positionId. split.
  - induction prices as [| price rest IH]; intro w; [exact I |].
    specialize (IH (snd (updateTrailingStop s positionId price w))).
    change (stopHistory s positionId (price :: rest) w)
      with (storedStop positionId w
            :: stopHistory s positionId rest
                 (snd (updateTrailingStop s positionId price w))).
    destruct rest as [| price' rest'].
    + simpl. split; [apply updateTrailingStop_not_below | exact I].
    + change (stopHistory s positionId (price' :: rest')
                (snd (updateTrailingStop s positionId price w)))
        with (storedStop positionId (snd (updateTrailingStop s positionId price w))
              :: stopHistory s positionId rest'
                   (snd (updateTrailingStop s positionId price'
                           (snd (updateTrailingStop s positionId price w)))))
        in *.
      split; [apply updateTrailingStop_not_below | exact IH].
  - intros. apply updateTrailingStop_step. assumption.
Qed.

(** A sanity check: bought at 100 with a 10% trail, the prices 110, 105,
    120 (all in profit) move the stop from none to 99, keep it at 99, then
    move it to 108. *)
Example trailing_stop_ratchets :
  exists a b,
    stopHistory (trailingStrategy (ofZ 10)) "p1" [ofZ 110; ofZ 105; ofZ 120]
                (worldWith [samplePosition "p1" "BTCUSDT" None None])
    = [Fin 0; Fin a; Fin a; Fin b]
    /\ a = 99 /\ b = 108.
Proof.
  exists (110 * (1 + - (10 / 100))), (120 * (1 + - (10 / 100))).
  split; [| split; lra].
  unfold stopHistory, storedStop, updateTrailingStop, bind, read_db. simpl.
  ncompute. simpl. ncompute. simpl. ncompute. simpl. ncompute.
  reflexivity.
Qed.

(** ** The backtest window *)

Section BacktestWindow.

Variable sv : Services.
Variable simulateTrading :
  list KlineData -> string -> StrategyConfig -> num -> list TradeRecord.
Variable calculateMetrics : num -> list TradeRecord -> PerformanceMetrics.
Variable generateEquityCurve : num -> list TradeRecord -> list (Date * num).
Variable generatedId : Db -> string.

Lemma runBacktest_invalid :
  forall (fuel : nat) (cfg : BacktestConfig) (w : World) (reason : string),
    validateDateRange (DateMs (w_now w)) (bc_startDate cfg) (bc_endDate cfg)
    = mkValidation false (Some reason) ->
    runBacktest sv simulateTrading calculateMetrics generateEquityCurve
                generatedId fuel cfg w
    = Some (Throw (Err reason), w).
Proof.
  intros fuel cfg w reason H. unfold runBacktest. rewrite H. reflexivity.
Qed.

(** C7.  A window whose end is not after its start, that spans more than
    365 days, or whose end is in the future is rejected: [runBacktest]
    throws, with a reason that tells the three cases apart, and the world
    is as it was: no candle was requested (nothing was logged) and no
    result row was inserted. *)
Theorem runBacktest_rejects_window :
  forall (fuel : nat) (cfg : BacktestConfig) (w : World),
    geb (getTime (bc_startDate cfg)) (getTime (bc_endDate cfg)) = true
    \/ gtb (daysDiff (bc_startDate cfg) (bc_endDate cfg)) (ofZ 365) = true
    \/ gtb (getTime (bc_endDate cfg)) (ofZ (w_now w)) = true ->
    runBacktest sv simulateTrading calculateMetrics generateEquityCurve
                generatedId fuel cfg w
    = Some (Throw (Err
         (if geb (getTime (bc_startDate cfg)) (getTime (bc_endDate cfg))
          then "Start date must be before end date"%string
          else if gtb (daysDiff (bc_startDate cfg) (bc_endDate cfg)) (ofZ 365)
               then "Date range cannot exceed 365 days"%string
               else "End date cannot be in the future"%string)), w)
    /\ "Start date must be before end date"%string
       <> "Date range cannot exceed 365 days"%string
    /\ "Start date must be before end date"%string
       <> "End date cannot be in the future"%string
    /\ "Date range cannot exceed 365 days"%string
       <> "End date cannot be in the future"%string.
Proof.
  intros fuel cfg w H.
  split; [| repeat split; discriminate].
  apply runBacktest_invalid. unfold validateDateRange.
  fold (daysDiff (bc_startDate cfg) (bc_endDate cfg)).
  destruct (geb (getTime (bc_startDate cfg)) (getTime (bc_endDate cfg)));
    [reflexivity |].
  destruct (gtb (daysDiff (bc_startDate cfg) (bc_endDate cfg)) (ofZ 365));
    [reflexivity |].
  destruct H as [H | [H | H]]; try discriminate.
  change (getTime (DateMs (w_now w))) with (ofZ (w_now w)).
  rewrite H. reflexivity.
Qed.

End BacktestWindow.

Lemma runBacktest_rejects_window_witness :
  runBacktest (sampleServices (ofZ 100)) (fun _ _ _ _ => [])
              (fun _ _ => noMetrics) (fun _ _ => []) (fun _ => "id"%string)
              0 (sampleBacktest 1600000000000 1500000000000) sampleWorld
  = Some (Throw (Err
       (if geb (getTime (DateMs 1600000000000)) (getTime (DateMs 1500000000000))
        then "Start date must be before end date"%string
        else if gtb (daysDiff (DateMs 1600000000000) (DateMs 1500000000000))
                    (ofZ 365)
             then "Date range cannot exceed 365 days"%string
             else "End date cannot be in the future"%string)), sampleWorld)
  /\ "Start date must be before end date"%string
     <> "Date range cannot exceed 365 days"%string
  /\ "Start date must be before end date"%string
     <> "End date cannot be in the future"%string
  /\ "Date range cannot exceed 365 days"%string
     <> "End date cannot be in the future"%string.
Proof.
  apply (runBacktest_rejects_window
           (sampleServices (ofZ 100)) (fun _ _ _ _ => [])
           (fun _ _ => noMetrics) (fun _ _ => []) (fun _ => "id"%string)
           0%nat (sampleBacktest 1600000000000 1500000000000) sampleWorld).
  left. simpl. ncompute. reflexivity.
Defined.

(** A sanity check of the three reasons and of the accepted case: with the
    clock at 1 700 000 000 000 ms, a one-day window in the past is accepted
    (one candle request is logged and one row is stored), a 400-day window
    is too long, and a window that ends after the clock is in the future. *)
Example runBacktest_cases :
  let run := runBacktest (sampleServices (ofZ 100)) (fun _ _ _ _ => [])
                         (fun _ _ => noMetrics) (fun _ _ => [])
                         (fun _ => "id"%string) 1 in
  (exists r w',
      run (sampleBacktest 1600000000000 1600086400000) sampleWorld
      = Some (Ok r, w')
      /\ w_log w' = [CallGetKlines "BTCUSDT" "1h" (Fin 24)]
      /\ List.length (tbl_backtestResults (w_db w')) = 1%nat)
  /\ run (sampleBacktest 1600000000000 1634560000000) sampleWorld
     = Some (Throw (Err "Date range cannot exceed 365 days"), sampleWorld)
  /\ run (sampleBacktest 1699999000000 1700000001000) sampleWorld
     = Some (Throw (Err "End date cannot be in the future"), sampleWorld).
Proof.
  cbv zeta. split; [| split].
  - unfold runBacktest, validateDateRange, sampleBacktest, sampleWorld.
    simpl. ncompute. simpl.
    unfold getHistoricalData, fetchBatches, intervalMs, Math_ceil, Math_floor.
    simpl. ncompute. simpl.
    unfold getKlines, request. simpl.
    eexists. eexists. split; [reflexivity |]. split; [| reflexivity].
    simpl. f_equal. f_equal.
    rewrite (floorR_unique _ (-24)) by lra.
    ncompute. f_equal. lra.
  - unfold runBacktest, validateDateRange, sampleBacktest, sampleWorld.
    simpl. ncompute. reflexivity.
  - unfold runBacktest, validateDateRange, sampleBacktest, sampleWorld.
    simpl. ncompute. reflexivity.
Qed.

(** ** One tick of the strategy manager *)

Lemma for_each_fold :
  forall (A : Type) (l : list A) (body : A -> M unit) (step : World -> A -> World)
         (w : World),
    (forall x w0, In x l -> body x w0 = (Ok tt, step w0 x)) ->
    for_each l body w = (Ok tt, fold_left step l w).
Proof.
  intros A l body step. induction l as [| x l IH]; intros w H.
  - reflexivity.
  - simpl. unfold bind. rewrite (H x w (or_introl eq_refl)).
    apply IH. intros y w0 Hy. apply H. right. exact Hy.
Qed.

Lemma getStrategy_registered :
  forall (m : Manager) (s : Strategy),
    wellKeyed m ->
    In s (getAllStrategies m) ->
    getStrategy m (strategyId s) = Some s.
Proof.
  intros [l] s [Hnodup Hkeys] Hin.
  unfold getStrategy, getAllStrategies in *. simpl in *.
  induction l as [| [k v] l IH]; [contradiction |].
  simpl in *. inversion Hnodup as [| k' l' Hnotin Hnodup']; subst.
  inversion Hkeys as [| kv l' Hk Hkeys']; subst. simpl in Hk.
  destruct Hin as [-> | Hin].
  - rewrite Hk, String.eqb_refl. reflexivity.
  - destruct (String.eqb k (strategyId s)) eqn:E.
    + apply String.eqb_eq in E. exfalso. apply Hnotin.
      rewrite E. apply in_map_iff in Hin. destruct Hin as ([k2 v2] & Hv & Hin).
      simpl in Hv. subst v2. apply in_map_iff. exists (k2, s). split; [| exact Hin].
      simpl. rewrite Forall_forall in Hkeys'. symmetry. exact (Hkeys' _ Hin).
    + apply IH; assumption.
Qed.

Section Tick.

Variable sv : Services.

(** The turn of a registered, active strategy never throws. *)
Lemma executeOne_turn :
  forall (m : Manager) (pair : option TradingPair) (bestPairs : list TradingPair)
         (s : Strategy) (w : World),
    wellKeyed m ->
    In s (getAllStrategies m) ->
    isActive s = true ->
    executeOne m pair bestPairs s w = (Ok tt, turn (pairFor pair bestPairs) w s).
Proof.
  intros m pair bestPairs s w Hm Hin Hactive.
  unfold executeOne, executeStrategy, try_catch.
  fold (pairFor pair bestPairs).
  rewrite (getStrategy_registered m s Hm Hin), Hactive. simpl.
  unfold bind, turn.
  destruct (execute s (pairFor pair bestPairs) w) as [[result | e] w'];
    reflexivity.
Qed.

(** C5.  In one tick every active strategy has its turn, in registry order,
    whatever the earlier ones did: [executeAll] returns normally, and the
    world it leaves is the one obtained by giving each active strategy its
    [turn] in sequence.  In a turn the strategy's [execute] is entered and
    run; when it throws, the exception is announced as an error event and
    the loop goes on to the next strategy. *)
Theorem executeAll_isolates_failures :
  forall (m : Manager) (pair : option TradingPair) (w : World),
    wellKeyed m ->
    exists (bestPairs : list TradingPair) (w0 : World),
      (w0 = w \/ w0 = record (CallGetBestPairs (ofZ 10)) w)
      /\ executeAll sv m pair w
         = (Ok tt,
            fold_left (turn (pairFor pair bestPairs))
                      (filter isActive (getAllStrategies m)) w0).
Proof.
  intros m pair w Hm. unfold executeAll.
  destruct (filter isActive (getAllStrategies m)) as [| s0 rest] eqn:Eactive.
  - exists [], w. split; [left; reflexivity | reflexivity].
  - simpl List.length. simpl Nat.eqb. cbv iota.
    assert (Hall : forall (bestPairs : list TradingPair) (w0 : World),
               for_each (s0 :: rest) (executeOne m pair bestPairs) w0
               = (Ok tt, fold_left (turn (pairFor pair bestPairs)) (s0 :: rest) w0)).
    { intros bestPairs w0. apply for_each_fold. intros s w1 Hs.
      rewrite <- Eactive in Hs. apply filter_In in Hs. destruct Hs as [Hin Hact].
      apply executeOne_turn; assumption. }
    simpl existsb. unfold bind.
    destruct pair as [p |]; simpl.
    + exists [], w. split; [left; reflexivity |]. apply Hall.
    + unfold try_catch, getBestPairs, request.
      destruct (getBestPairs_answer sv (w_log w) (ofZ 10)) as [bestPairs | e].
      * exists bestPairs, (record (CallGetBestPairs (ofZ 10)) w).
        split; [right; reflexivity |]. apply Hall.
      * exists [], (record (CallGetBestPairs (ofZ 10)) w).
        split; [right; reflexivity |]. apply Hall.
Qed.

End Tick.

(** What the log shows of a turn, for a strategy that only adds to it: the
    entry into [execute], and the error event when [execute] threw. *)
Lemma turn_log :
  forall (pair : option TradingPair) (w : World) (s : Strategy),
    appendsToLog s ->
    exists l,
      w_log (turn pair w s) = w_log w ++ EnterExecute (strategyId s) :: l
      /\ (forall e w',
             execute s pair w = (Throw e, w') ->
             In (EmitError (strategyId s) e) l).
Proof.
  intros pair w s Happ. unfold turn, execute, bind, emit.
  destruct (Happ pair (record (EnterExecute (strategyId s)) w)) as (l & Hl).
  change (w_log (record (EnterExecute (strategyId s)) w))
    with (w_log w ++ [EnterExecute (strategyId s)]) in Hl.
  destruct (execute_body s pair (record (EnterExecute (strategyId s)) w))
    as [[result | e] w1]; cbn [snd fst] in *.
  - exists (l ++ [EmitExecuted (strategyId s) result]).
    split; [| intros; discriminate].
    cbn [record w_log]. rewrite Hl, <- !app_assoc. reflexivity.
  - exists (l ++ [EmitError (strategyId s) e; EmitError (strategyId s) e]).
    split.
    + cbn [record w_log]. rewrite Hl, <- !app_assoc. reflexivity.
    + intros e0 w' H. injection H as <- _.
      apply in_or_app. right. left. reflexivity.
Qed.

Lemma turns_extend_log :
  forall (pair : option TradingPair) (l : list Strategy) (w : World),
    Forall appendsToLog l ->
    exists more, w_log (fold_left (turn pair) l w) = w_log w ++ more.
Proof.
  intros pair l. induction l as [| s l IH]; intros w Hall.
  - exists []. rewrite app_nil_r. reflexivity.
  - inversion Hall as [| s' l' Hs Hl]; subst. simpl.
    destruct (turn_log pair w s Hs) as (l1 & E1 & _).
    destruct (IH (turn pair w s) Hl) as (l2 & E2).
    rewrite E2, E1, <- app_assoc. eexists. reflexivity.
Qed.

(** Every strategy of the tick is entered, and an exception it threw is
    announced, whatever the strategies before and after it did. *)
Lemma turns_enter_everyone :
  forall (pair : option TradingPair) (before after : list Strategy)
         (s : Strategy) (w : World),
    Forall appendsToLog (before ++ s :: after) ->
    In (EnterExecute (strategyId s))
       (w_log (fold_left (turn pair) (before ++ s :: after) w))
    /\ (forall e w',
           execute s pair (fold_left (turn pair) before w) = (Throw e, w') ->
           In (EmitError (strategyId s) e)
              (w_log (fold_left (turn pair) (before ++ s :: after) w))).
Proof.
  intros pair before after s w Hall.
  apply Forall_app in Hall. destruct Hall as [_ Hall].
  inversion Hall as [| s' l' Hs Hafter]; subst.
  rewrite fold_left_app. simpl.
  set (w1 := fold_left (turn pair) before w).
  destruct (turn_log pair w1 s Hs) as (l1 & E1 & Herr).
  destruct (turns_extend_log pair after (turn pair w1 s) Hafter) as (l2 & E2).
  rewrite E2, E1. split.
  - apply in_or_app. left. apply in_or_app. right. left. reflexivity.
  - intros e w' H. apply in_or_app. left. apply in_or_app. right. right.
    exact (Herr e w' H).
Qed.

Lemma sampleManager_wellKeyed : wellKeyed sampleManager.
Proof.
  split.
  - simpl. repeat constructor; simpl; intuition discriminate.
  - repeat constructor.
Defined.

Lemma executeAll_isolates_failures_witness :
  exists (bestPairs : list TradingPair) (w0 : World),
    (w0 = sampleWorld \/ w0 = record (CallGetBestPairs (ofZ 10)) sampleWorld)
    /\ executeAll (sampleServices (ofZ 100)) sampleManager None sampleWorld
       = (Ok tt,
          fold_left (turn (pairFor None bestPairs))
                    (filter isActive (getAllStrategies sampleManager)) w0).
Proof.
  apply (executeAll_isolates_failures (sampleServices (ofZ 100)) sampleManager
                                      None sampleWorld).
  exact sampleManager_wellKeyed.
Defined.

(** A sanity check on the sample registry: strategy a throws, b is
    inactive, c runs.  The tick returns, a's exception is announced, and c
    is entered after it. *)
Example executeAll_sample_log :
  executeAll (sampleServices (ofZ 100)) sampleManager None sampleWorld
  = (Ok tt,
     mkWorld emptyDb 1700000000000
       [ CallGetBestPairs (ofZ 10);
         EnterExecute "a";
         EmitError "a" (Err "exchange unavailable");
         EmitError "a" (Err "exchange unavailable");
         EnterExecute "c";
         EmitExecuted "c" (mkStrategyResult true None None None) ]).
Proof. reflexivity. Qed.

(** ** The monitor's forced exits *)

Section Monitor.

Variable sv : Services.

Lemma resolve_keeps_db :
  forall (result : ExecutedLike) (w : World),
    w_db (snd (resolveExecutedFromExchange sv result w)) = w_db w.
Proof.
  intros result w. unfold resolveExecutedFromExchange.
  destruct (isFinite _ && gtb _ _ && isFinite _ && gtb _ _); [reflexivity |].
  destruct (el_symbol result) as [symbol |]; [| reflexivity].
  destruct (el_orderId result) as [orderId |]; [| reflexivity].
  destruct (negb (nonempty (Some symbol)) || missingId (Some orderId));
    [reflexivity |].
  unfold try_catch, bind, getOrderStatus, request.
  destruct (getOrder_answer sv (w_log w) symbol orderId); reflexivity.
Qed.

Lemma sellAndReconcile_keeps_db :
  forall (position : PositionRow) (w : World),
    w_db (snd (sellAndReconcile sv position w)) = w_db w.
Proof.
  intros position w. unfold sellAndReconcile, bind, marketSell, placeOrder, request.
  destruct (placeOrder_answer sv (w_log w) _) as [result | e]; [| reflexivity].
  destruct (negb (isFinite _) || leb _ (Fin 0)); [| reflexivity].
  match goal with
  | |- context [resolveExecutedFromExchange sv ?r ?w0] =>
      pose proof (resolve_keeps_db r w0) as H;
      destruct (resolveExecutedFromExchange sv r w0) as [[e | err] w1]
  end; simpl in *; exact H.
Qed.

(** The take-profit handler never writes the trades table. *)
Lemma executeTakeProfit_keeps_trades :
  forall (positionId : string) (w : World),
    tbl_trades (w_db (snd (executeTakeProfit sv positionId w)))
    = tbl_trades (w_db w).
Proof.
  intros positionId w. unfold executeTakeProfit, bind, read_db.
  destruct (findPosition positionId (w_db w)) as [position |]; [| reflexivity].
  destruct (pos_isOpen position); [| reflexivity]. simpl.
  pose proof (sellAndReconcile_keeps_db position w) as H.
  destruct (sellAndReconcile sv position w) as [[[result executedPrice] | e] w1];
    simpl in *; rewrite H; reflexivity.
Qed.

(** The stop-loss handler, when its market exit goes through, appends one
    row to the trades table. *)
Lemma executeStopLoss_records_trade :
  forall (positionId : string) (w w1 : World) (position : PositionRow)
         (result : OrderResult) (executedPrice : num),
    findPosition positionId (w_db w) = Some position ->
    pos_isOpen position = true ->
    sellAndReconcile sv position w = (Ok (result, executedPrice), w1) ->
    exists row,
      tbl_trades (w_db (snd (executeStopLoss sv positionId w)))
      = tbl_trades (w_db w) ++ [row]
      /\ tr_positionId row = Some (pos_id position)
      /\ tr_price row = NumText executedPrice.
Proof.
  intros positionId w w1 position result executedPrice Hfind Hopen Hsell.
  pose proof (sellAndReconcile_keeps_db position w) as Hdb.
  rewrite Hsell in Hdb. simpl in Hdb.
  unfold executeStopLoss, bind, read_db. rewrite Hfind, Hopen. simpl.
  rewrite Hsell. simpl. rewrite Hdb.
  eexists. split; [reflexivity |]. split; reflexivity.
Qed.

End Monitor.

(** Evaluate a sweep of the monitor on a concrete world: simplify, decide
    the comparisons of reals that come up, and go on. *)
Ltac evaluate :=
  unfold checkAndExecuteStopLosses, checkPosition, executeTakeProfit,
    executeStopLoss, sellAndReconcile, resolveExecutedFromExchange,
    extractExecutedFromResult, marketSell, placeOrder, getPrice, for_each,
    request, try_catch, bind, read_db, write_db, now, ret;
  repeat (progress (cbv beta iota zeta; simpl; ncompute)).

(** C4.  The sweep at a take-profit breach and at a stop-loss breach.  A
    position bought at 100 with take-profit 110 and the price at 120: the
    sweep asks the price, places the market sell and closes the position
    ([isOpen] false, [closedAt] set), but the trades table stays empty.  The
    same position with stop-loss 95 and the price at 90: the sweep closes it
    and stores one trade.  In general [executeTakeProfit] never writes the
    trades table. *)
Theorem monitor_take_profit_records_no_trade :
  (fst (checkAndExecuteStopLosses (sampleServices (ofZ 120)) takeProfitWorld)
   = Ok tt
   /\ w_log (snd (checkAndExecuteStopLosses (sampleServices (ofZ 120))
                                            takeProfitWorld))
      = [CallGetPrice "BTCUSDT"; CallPlaceOrder marketSellOne]
   /\ map (fun p => (pos_isOpen p, pos_closedAt p))
          (tbl_positions
             (w_db (snd (checkAndExecuteStopLosses (sampleServices (ofZ 120))
                                                   takeProfitWorld))))
      = [(false, Some 1700000000000%Z)]
   /\ tbl_trades
        (w_db (snd (checkAndExecuteStopLosses (sampleServices (ofZ 120))
                                              takeProfitWorld)))
      = [])
  /\ (map (fun p => (pos_isOpen p, pos_closedAt p))
          (tbl_positions
             (w_db (snd (checkAndExecuteStopLosses (sampleServices (ofZ 90))
                                                   stopLossWorld))))
      = [(false, Some 1700000000000%Z)]
      /\ map (fun t => (tr_positionId t, tr_side t, tr_price t))
             (tbl_trades
                (w_db (snd (checkAndExecuteStopLosses (sampleServices (ofZ 90))
                                                      stopLossWorld))))
         = [(Some "p1"%string, SELL, NumText (div (add (Fin 0) (mul (ofZ 90) (Fin 1)))
                                                  (add (Fin 0) (Fin 1))))])
  /\ (forall (sv : Services) (positionId : string) (w : World),
         tbl_trades (w_db (snd (executeTakeProfit sv positionId w)))
         = tbl_trades (w_db w)).
Proof.
  split; [| split].
  - repeat split; evaluate; reflexivity.
  - split; evaluate; reflexivity.
  - apply executeTakeProfit_keeps_trades.
Qed.

(** ** Decimal text of large numbers *)

Lemma round_1e30 :
  floorR (IZR 10000000000000000000000 * IZR 100000000 + / 2)
  = 1000000000000000000000000000000%Z.
Proof. apply floorR_unique. lra. Qed.

Lemma floor_1e22 :
  floorR (IZR 1000000000000000000000000000000 / IZR 100000000)
  = 10000000000000000000000%Z.
Proof. apply floorR_unique. lra. Qed.

Lemma toFixed8_1e22 :
  Str.toFixed8 (Fin (IZR 1000000000000000000000000000000 / IZR 100000000))
  = "1e+22"%string.
Proof.
  unfold Str.toFixed8.
  change (10 ^ 21)%Z with 1000000000000000000000%Z.
  rdecide.
  unfold Str.exponential. rewrite floor_1e22. vm_compute. reflexivity.
Qed.

Lemma toFixed8_1e22_unrounded :
  Str.toFixed8 (Fin (IZR 10000000000000000000000)) = "1e+22"%string.
Proof.
  unfold Str.toFixed8.
  change (10 ^ 21)%Z with 1000000000000000000000%Z.
  rdecide.
  unfold Str.exponential.
  rewrite (floorR_unique _ 10000000000000000000000) by lra.
  vm_compute. reflexivity.
Qed.

Lemma rounded_1e22 :
  div (Math_round (mul (ofZ 10000000000000000000000) (ofZ 100000000)))
      (ofZ 100000000)
  = Fin (IZR 1000000000000000000000000000000 / IZR 100000000).
Proof.
  unfold Math_round, mul, div, ofZ. rewrite round_1e30. rdecide. reflexivity.
Qed.

(** C9.  At 10^22 both normalizations give exponent notation: the text
    ["1e+22"] comes back from [toDbNumberString] and from the [formatNumber]
    of [saveTrade] (whose final check rejects the text and whose fallback
    produces it again), and it is not a plain decimal.  The double that
    [toFixed] receives is 10^22 itself: binary64 rounding changes nothing
    at this input. *)
Theorem decimal_text_exponent_at_1e22 :
  Binary64.toZ (Binary64.rounded 1e22) = Some 10000000000000000000000%Z
  /\ toDbNumberString (ofZ 10000000000000000000000) = "1e+22"%string
  /\ formatNumber (Some (ofZ 10000000000000000000000)) = "1e+22"%string
  /\ Str.has_exponent "1e+22" = true
  /\ Str.is_plain_decimal "1e+22" = false.
Proof.
  split; [vm_compute; reflexivity |].
  split; [| split; [| split; reflexivity]].
  - unfold toDbNumberString.
    change (10 ^ 8)%Z with 100000000%Z.
    rewrite rounded_1e22, toFixed8_1e22. reflexivity.
  - unfold formatNumber.
    rewrite rounded_1e22, toFixed8_1e22.
    change (ofZ 10000000000000000000000)
      with (Fin (IZR 10000000000000000000000)).
    cbv beta iota zeta delta [isNaN isFinite negb].
    rewrite toFixed8_1e22_unrounded. reflexivity.
Qed.

(** Two observations on the doubles themselves.  At 10^21, the threshold
    of [toFixed], the division by [1e8] rounds below the threshold, so the
    exponent form first appears a little above it.  And the rounding step
    alone can move a value by more than [1e-8]: near 10^8 neighbouring
    doubles are [2^-26] apart. *)
#[warnings="-inexact-float"]
Example binary64_rounded_samples :
  Binary64.toZ (Binary64.rounded 1e21) = Some 999999999999999868928%Z
  /\ Binary64.rounded 0x1.84b3460106235p+26 = 0x1.84b3460106236p+26%float
  /\ (1e-8 <? 0x1.84b3460106236p+26 - 0x1.84b3460106235p+26)%float = true.
Proof. repeat split; vm_compute; reflexivity. Qed.

(** Sanity checks of the normalization in its intended range, and of the
    default for values that are not finite. *)
Example toDbNumberString_samples :
  toDbNumberString (Fin (3 / 2)) = "1.5"%string
  /\ toDbNumberString (ofZ 100) = "100"%string
  /\ toDbNumberString (Fin (- (1 / 8))) = "-0.125"%string
  /\ toDbNumberString NaN = "0"%string
  /\ toDbNumberString PInf = "0"%string
  /\ formatNumber None = "0"%string
  /\ formatNumber (Some NInf) = "0"%string
  /\ formatNumber (Some (Fin (1 / 4))) = "0.25"%string.
Proof.
  assert (F : forall r z, IZR z <= r * IZR 100000000 + / 2 < IZR z + 1 ->
                          div (Math_round (mul (Fin r) (ofZ 100000000)))
                              (ofZ 100000000)
                          = Fin (IZR z / IZR 100000000)).
  { intros r z H. unfold Math_round, mul, div, ofZ.
    rewrite (floorR_unique _ z H). rdecide. reflexivity. }
  assert (G : forall (z : Z) (negative : bool) (a : Z),
             Rltb (IZR z / IZR 100000000) 0 = negative ->
             IZR a <= (if negative then - (IZR z / IZR 100000000)
                       else IZR z / IZR 100000000) * IZR 100000000 + / 2
                   < IZR a + 1 ->
             (if negative then - (IZR z / IZR 100000000)
              else IZR z / IZR 100000000) < IZR 1000000000000000000000 ->
             Str.toFixed8 (Fin (IZR z / IZR 100000000))
             = ((if negative then "-" else "") ++ Str.fixed8 a)%string).
  { intros z negative a Hneg Ha Hsmall. unfold Str.toFixed8.
    change (10 ^ 21)%Z with 1000000000000000000000%Z.
    change (10 ^ 8)%Z with 100000000%Z.
    rewrite Hneg. rewrite (Rleb_false _ _) by lra.
    rewrite (floorR_unique _ a Ha). reflexivity. }
  repeat split; try reflexivity.
  - unfold toDbNumberString. change (10 ^ 8)%Z with 100000000%Z.
    rewrite (F _ 150000000%Z) by lra.
    rewrite (G _ false 150000000%Z); [reflexivity | apply Rltb_false; lra | lra | lra].
  - unfold toDbNumberString. change (10 ^ 8)%Z with 100000000%Z.
    change (ofZ 100) with (Fin (IZR 100)).
    rewrite (F _ 10000000000%Z) by lra.
    rewrite (G _ false 10000000000%Z); [reflexivity | apply Rltb_false; lra | lra | lra].
  - unfold toDbNumberString. change (10 ^ 8)%Z with 100000000%Z.
    rewrite (F _ (-12500000)%Z) by lra.
    rewrite (G _ true 12500000%Z); [reflexivity | apply Rltb_true; lra | lra | lra].
  - unfold formatNumber.
    rewrite (F _ 25000000%Z) by lra.
    rewrite (G _ false 25000000%Z); [reflexivity | apply Rltb_false; lra | lra | lra].
Qed.

(** ** The range of the pair score *)

Lemma last_of_map_seq :
  forall (f : nat -> num) (n : nat),
    last_of (map f (seq 0 n)) = match n with O => NaN | S k => f k end.
Proof.
  intros f n. unfold last_of. destruct n as [| k]; [reflexivity |].
  rewrite seq_S, map_app. simpl. apply last_last.
Qed.

Lemma last_of_map_seq_with :
  forall (A : Type) (f : nat -> A) (g : A -> num) (n : nat),
    last_of (map g (map f (seq 0 n)))
    = match n with O => NaN | S k => g (f k) end.
Proof.
  intros A f g n. rewrite map_map. apply last_of_map_seq.
Qed.

Lemma at_index_map_seq :
  forall (f : nat -> num) (n i : nat),
    (i < n)%nat -> at_index (map f (seq 0 n)) i = f i.
Proof.
  intros f n i H. unfold at_index.
  rewrite (nth_indep _ NaN (f 0%nat)) by (rewrite length_map, length_seq; exact H).
  rewrite map_nth, seq_nth by exact H. reflexivity.
Qed.

(** *** Sub-scores that take one of a few values *)

Ltac split_ifs :=
  repeat match goal with
         | |- context [if ?c then _ else _] => destruct c
         end.

Lemma scoreMACD_range : forall m : MACD, within 30 80 (scoreMACD m).
Proof.
  intro m. unfold scoreMACD, within, ofZ. split_ifs;
    eexists; (split; [reflexivity | lra]).
Qed.

Lemma scoreVolume_range :
  forall currentVolume avgVolume : num,
    within 20 100 (scoreVolume currentVolume avgVolume).
Proof.
  intros c a. unfold scoreVolume, within, ofZ. split_ifs;
    eexists; (split; [reflexivity | lra]).
Qed.

Lemma scoreVolatility_range :
  forall (prices : list num) (support resistance currentPrice : num),
    within 30 70 (scoreVolatility prices support resistance currentPrice).
Proof.
  intros p s r c. unfold scoreVolatility, within, ofZ. split_ifs;
    eexists; (split; [reflexivity | lra]).
Qed.

Lemma scoreMomentum_range :
  forall prices sma20 ema50 : list num,
    within 50 100 (scoreMomentum prices sma20 ema50).
Proof.
  intros p s e. unfold scoreMomentum, within.
  destruct (isNaN (last_of s) || isNaN (last_of e));
    [eexists; split; [reflexivity | simpl; lra] |].
  destruct (gtb (last_of p) (last_of s)), (gtb (last_of p) (last_of e)),
    (gtb (last_of s) (last_of e));
    cbv [ofZ add Math_min ltb]; unfold Rltb;
    match goal with
    | |- context [Rlt_dec ?a ?b] => destruct (Rlt_dec a b)
    end;
    eexists; (split; [reflexivity | lra]).
Qed.

(** *** The relative strength index stays between 0 and 100 *)

Lemma add_nonNegative :
  forall x y : num, nonNegative x -> nonNegative y -> nonNegative (add x y).
Proof.
  intros x y [-> | (a & -> & Ha)] [-> | (b & -> & Hb)]; simpl;
    try (left; reflexivity).
  right. exists (a + b). split; [reflexivity | lra].
Qed.

Lemma sum_nonNegative :
  forall l : list num, Forall nonNegative l -> nonNegative (sum l).
Proof.
  intros l H. unfold sum.
  assert (G : forall acc, nonNegative acc -> nonNegative (fold_left add l acc)).
  { induction H as [| x l Hx Hl IH]; intros acc Hacc; simpl; [exact Hacc |].
    apply IH. apply add_nonNegative; assumption. }
  apply G. right. exists 0. split; [reflexivity | lra].
Qed.

Lemma gains_nonNegative :
  forall l : list num, Forall nonNegative (filter (fun c => gtb c (Fin 0)) l).
Proof.
  intro l. apply Forall_forall. intros x Hx.
  apply filter_In in Hx. destruct Hx as [_ Hx].
  destruct x as [| | | r]; simpl in Hx; try discriminate.
  - left. reflexivity.
  - right. exists r. split; [reflexivity |].
    unfold gtb, ltb in Hx. apply Rltb_iff in Hx. lra.
Qed.

Lemma losses_nonNegative :
  forall l : list num,
    Forall nonNegative (map Math_abs (filter (fun c => ltb c (Fin 0)) l)).
Proof.
  intro l. apply Forall_forall. intros y Hy.
  apply in_map_iff in Hy. destruct Hy as (x & <- & Hx).
  apply filter_In in Hx. destruct Hx as [_ Hx].
  destruct x as [| | | r]; simpl in Hx; try discriminate.
  - left. reflexivity.
  - right. exists (Rabs r). split; [reflexivity | apply Rabs_pos].
Qed.

Lemma average_nonNegative :
  forall (l : list num) (period : nat),
    Forall nonNegative l ->
    nonNegative (if (0 <? List.length l)%nat
                 then div (sum l) (ofNat (S period)) else Fin 0).
Proof.
  intros l period H.
  destruct (0 <? List.length l)%nat;
    [| right; exists 0; split; [reflexivity | lra]].
  assert (P : 0 < IZR (Z.of_nat (S period))).
  { apply IZR_lt. lia. }
  destruct (sum_nonNegative l H) as [-> | (s & -> & Hs)];
    unfold div, ofNat, ofZ.
  - rewrite (Rltb_false _ _) by lra. left. reflexivity.
  - rewrite (Reqb_false _ _) by lra. right.
    exists (s / IZR (Z.of_nat (S period))). split; [reflexivity |].
    apply Rmult_le_pos; [exact Hs |]. apply Rlt_le. apply Rinv_0_lt_compat. exact P.
Qed.

(** The index is undefined ([NaN]) or a real between 0 and 100. *)
Lemma rsiAt_range :
  forall (changes : list num) (period i : nat),
    rsiAt changes (S period) i = NaN \/ within 0 100 (rsiAt changes (S period) i).
Proof.
  intros changes period i. unfold rsiAt.
  set (rel := slice changes (i - S period) i).
  pose proof (average_nonNegative _ period (gains_nonNegative rel)) as Hg.
  pose proof (average_nonNegative _ period (losses_nonNegative rel)) as Hl.
  set (avgGain := if (0 <? List.length (filter (fun c => gtb c (Fin 0)) rel))%nat
                  then _ else _) in *.
  set (avgLoss := if (0 <? List.length
                              (map Math_abs (filter (fun c => ltb c (Fin 0)) rel)))%nat
                  then _ else _) in *.
  clearbody avgGain avgLoss.
  destruct (eqb avgLoss (Fin 0)) eqn:Ez.
  - right. exists 100. split; [reflexivity | lra].
  - destruct Hl as [-> | (l & -> & Hlpos)];
      destruct Hg as [-> | (g & -> & Hgpos)].
    + left. reflexivity.
    + right. unfold div, add, sub, neg, ofZ. rdecide.
      eexists. split; [reflexivity | lra].
    + assert (l <> 0).
      { intro. subst l. unfold eqb in Ez.
        rewrite (Reqb_true _ _) in Ez by reflexivity. discriminate. }
      right. unfold div, add, sub, neg, ofZ.
      rewrite (Rltb_false l 0) by lra.
      eexists. split; [reflexivity | lra].
    + assert (l <> 0).
      { intro. subst l. unfold eqb in Ez.
        rewrite (Reqb_true _ _) in Ez by reflexivity. discriminate. }
      assert (0 < l) by lra.
      assert (Q : 0 <= g / l).
      { apply Rmult_le_pos; [exact Hgpos |]. apply Rlt_le, Rinv_0_lt_compat. lra. }
      right. exists (100 + - (100 / (1 + g / l))).
      unfold div, add, sub, neg, ofZ.
      rewrite (Reqb_false l 0) by assumption.
      rewrite (Reqb_false (1 + g / l) 0) by lra.
      split; [reflexivity |].
      assert (I1 : 0 < / (1 + g / l)) by (apply Rinv_0_lt_compat; lra).
      assert (I2 : / (1 + g / l) <= / 1) by (apply Rinv_le_contravar; lra).
      rewrite Rinv_1 in I2.
      unfold Rdiv at 1 3. nra.
Qed.

Lemma scoreRSI_range :
  forall rsi : num,
    rsi = NaN \/ within 0 100 rsi -> within 30 70 (scoreRSI rsi).
Proof.
  intros rsi [-> | (r & -> & Hr)]; unfold scoreRSI, within.
  - exists 50. split; [reflexivity | lra].
  - cbv [isNaN ofZ ltb gtb add sub neg mul div]. unfold Rltb.
    rewrite (Reqb_false 30 0) by lra.
    destruct (Rlt_dec r 30); [| destruct (Rlt_dec 70 r)];
      eexists; (split; [reflexivity | lra]).
Qed.

Lemma lastRSI_range :
  forall prices : list num,
    within 30 70 (scoreRSI (last_of (calculateRSI prices 14))).
Proof.
  intro prices. apply scoreRSI_range. unfold calculateRSI.
  rewrite last_of_map_seq.
  destruct (List.length prices) as [| k]; [left; reflexivity |].
  destruct (k <? 14)%nat; [left; reflexivity |].
  apply rsiAt_range.
Qed.

(** *** The Bollinger sub-score of a window that contains the price *)

Lemma fold_add_not_Fin :
  forall (l : list num) (acc : num),
    isFinite acc = false -> isFinite (fold_left add l acc) = false.
Proof.
  induction l as [| x l IH]; intros acc H; simpl; [exact H |].
  apply IH. destruct acc, x; simpl in *; try reflexivity; discriminate.
Qed.

Lemma fold_add_Fin :
  forall (l : list num) (a s : R),
    fold_left add l (Fin a) = Fin s ->
    exists rs, l = map Fin rs /\ s = fold_left Rplus rs a.
Proof.
  induction l as [| x l IH]; intros a s H; simpl in H.
  - injection H as <-. exists []. split; reflexivity.
  - destruct x as [| | | r]; simpl in H.
    + pose proof (fold_add_not_Fin l NaN eq_refl) as C.
      rewrite H in C. discriminate.
    + pose proof (fold_add_not_Fin l PInf eq_refl) as C.
      rewrite H in C. discriminate.
    + pose proof (fold_add_not_Fin l NInf eq_refl) as C.
      rewrite H in C. discriminate.
    + destruct (IH _ _ H) as (rs & -> & ->).
      exists (r :: rs). split; reflexivity.
Qed.

Lemma fold_add_PInf :
  forall (l : list num) (acc : num),
    fold_left add l acc = PInf -> acc = PInf \/ In PInf l.
Proof.
  induction l as [| x l IH]; intros acc H; simpl in H; [left; exact H |].
  destruct (IH _ H) as [E | E]; [| right; right; exact E].
  destruct acc, x; simpl in E; try discriminate; auto; right; left; reflexivity.
Qed.

Lemma fold_add_NInf :
  forall (l : list num) (acc : num),
    fold_left add l acc = NInf -> acc = NInf \/ In NInf l.
Proof.
  induction l as [| x l IH]; intros acc H; simpl in H; [left; exact H |].
  destruct (IH _ H) as [E | E]; [| right; right; exact E].
  destruct acc, x; simpl in E; try discriminate; auto; right; left; reflexivity.
Qed.

Lemma fold_add_NaN_acc :
  forall (f : num -> num) (l : list num),
    fold_left (fun s p => add s (f p)) l NaN = NaN.
Proof.
  intros f l. induction l as [| x l IH]; simpl; [reflexivity | exact IH].
Qed.

Lemma fold_add_NaN_term :
  forall (f : num -> num) (l : list num) (acc x : num),
    In x l -> f x = NaN -> fold_left (fun s p => add s (f p)) l acc = NaN.
Proof.
  intros f l. induction l as [| y l IH]; intros acc x Hin Hx; [contradiction |].
  simpl. destruct Hin as [-> | Hin].
  - rewrite Hx. replace (add acc NaN) with NaN by (destruct acc; reflexivity).
    apply fold_add_NaN_acc.
  - apply IH with (x := x); assumption.
Qed.

(** On a window of reals the sum of squared deviations is the real one. *)
Lemma squares_Fin :
  forall (rs : list R) (m a : R),
    fold_left (fun s p => add s (Math_pow2 (sub p (Fin m)))) (map Fin rs) (Fin a)
    = Fin (fold_left (fun s r => s + (r + - m) * (r + - m)) rs a).
Proof.
  induction rs as [| r rs IH]; intros m a; simpl; [reflexivity |].
  apply IH.
Qed.

Lemma squares_lower_bound :
  forall (rs : list R) (m a : R),
    a <= fold_left (fun s r => s + (r + - m) * (r + - m)) rs a.
Proof.
  induction rs as [| r rs IH]; intros m a; simpl; [lra |].
  specialize (IH m (a + (r + - m) * (r + - m))).
  pose proof (Rle_0_sqr (r + - m)) as Hsq. unfold Rsqr in Hsq.
  lra.
Qed.

(** The squared deviation of a member is at most the whole sum. *)
Lemma squares_cover_member :
  forall (rs : list R) (m a p : R),
    In p rs ->
    a + (p + - m) * (p + - m)
    <= fold_left (fun s r => s + (r + - m) * (r + - m)) rs a.
Proof.
  induction rs as [| r rs IH]; intros m a p Hin; [contradiction |].
  simpl. destruct Hin as [-> | Hin].
  - apply squares_lower_bound.
  - specialize (IH m (a + (r + - m) * (r + - m)) p Hin).
    pose proof (Rle_0_sqr (r + - m)) as Hsq. unfold Rsqr in Hsq.
    lra.
Qed.

Lemma scoreBollinger_undefined :
  forall (price : num) (b : Bands),
    last_of (upper b) = NaN \/ last_of (lower b) = NaN ->
    scoreBollinger price b = ofZ 50.
Proof.
  intros price b [H | H]; unfold scoreBollinger; rewrite H.
  - reflexivity.
  - replace (isNaN (last_of (upper b)) || isNaN NaN) with true;
      [reflexivity | destruct (last_of (upper b)); reflexivity].
Qed.

(** The score from bands that are reals, when the price is within 4.5
    standard deviations of the mean. *)
Lemma scoreBollinger_reals :
  forall (p m sd : R) (b : Bands),
    0 <= sd ->
    (p + - m) * (p + - m) <= 20 * (sd * sd) ->
    last_of (upper b) = Fin (m + sd * 2) ->
    last_of (lower b) = Fin (m + - (sd * 2)) ->
    within 0 150 (scoreBollinger (Fin p) b).
Proof.
  intros p m sd b Hsd Hdev Hu Hl. unfold scoreBollinger, within.
  rewrite Hu, Hl.
  cbv [isNaN orb sub add neg eqb].
  unfold Reqb at 1.
  destruct (Req_dec_T (m + sd * 2 + - (m + - (sd * 2))) 0) as [Ez | Enz].
  - exists 50. split; [reflexivity | lra].
  - assert (Hpos : 0 < sd) by lra.
    cbv [div]. rewrite (Reqb_false _ _ Enz).
    set (d := (p + - (m + - (sd * 2))) / (m + sd * 2 + - (m + - (sd * 2)))).
    assert (Hd : d * (4 * sd) = p + - m + 2 * sd).
    { unfold d. field. lra. }
    assert (Hlo : - (45 / 10) * sd <= p + - m) by nra.
    assert (Hhi : p + - m <= 45 / 10 * sd) by nra.
    assert (Dlo : - (625 / 1000) <= d) by nra.
    assert (Dhi : d <= 1625 / 1000) by nra.
    cbv [ltb gtb ofZ mul add sub neg]. unfold Rltb.
    destruct (Rlt_dec d (2 / 10)); [| destruct (Rlt_dec (8 / 10) d)];
      eexists; (split; [reflexivity | lra]).
Qed.

(** The score from the bands computed over a 20-element divisor window
    that contains the price: between 0 and 150. *)
Lemma scoreBollinger_window :
  forall (win : list num) (price : num) (b : Bands),
    In price win ->
    last_of (upper b)
    = add (div (sum win) (ofNat 20))
          (mul (Math_sqrt
                  (div (fold_left
                          (fun s p =>
                             add s (Math_pow2 (sub p (div (sum win) (ofNat 20)))))
                          win (Fin 0))
                       (ofNat 20)))
               (Fin 2)) ->
    last_of (lower b)
    = sub (div (sum win) (ofNat 20))
          (mul (Math_sqrt
                  (div (fold_left
                          (fun s p =>
                             add s (Math_pow2 (sub p (div (sum win) (ofNat 20)))))
                          win (Fin 0))
                       (ofNat 20)))
               (Fin 2)) ->
    within 0 150 (scoreBollinger price b).
Proof.
  intros win price b Hin Hu Hl.
  change (ofNat 20) with (Fin 20) in Hu, Hl.
  assert (Undefined : last_of (upper b) = NaN ->
                      within 0 150 (scoreBollinger price b)).
  { intro E. rewrite (scoreBollinger_undefined price b (or_introl E)).
    exists 50. split; [reflexivity | lra]. }
  destruct (sum win) as [| | | s] eqn:Es.
  - apply Undefined. rewrite Hu. reflexivity.
  - apply Undefined. rewrite Hu.
    unfold sum in Es. destruct (fold_add_PInf _ _ Es) as [C | Hinf];
      [discriminate |].
    replace (div PInf (Fin 20)) with PInf
      by (unfold div; rewrite (Rltb_false _ _) by lra; reflexivity).
    rewrite (fold_add_NaN_term _ win (Fin 0) PInf Hinf) by reflexivity.
    reflexivity.
  - apply Undefined. rewrite Hu.
    unfold sum in Es. destruct (fold_add_NInf _ _ Es) as [C | Hinf];
      [discriminate |].
    replace (div NInf (Fin 20)) with NInf
      by (unfold div; rewrite (Rltb_false _ _) by lra; reflexivity).
    rewrite (fold_add_NaN_term _ win (Fin 0) NInf Hinf) by reflexivity.
    reflexivity.
  - unfold sum in Es. destruct (fold_add_Fin _ _ _ Es) as (rs & -> & _).
    apply in_map_iff in Hin. destruct Hin as (p & <- & Hp).
    replace (div (Fin s) (Fin 20)) with (Fin (s / 20)) in Hu, Hl
      by (unfold div; rewrite (Reqb_false _ _) by lra; reflexivity).
    rewrite squares_Fin in Hu, Hl.
    set (V := fold_left (fun a r => a + (r + - (s / 20)) * (r + - (s / 20))) rs 0)
      in *.
    assert (HV : (p + - (s / 20)) * (p + - (s / 20)) <= V).
    { pose proof (squares_cover_member rs (s / 20) 0 p Hp) as C.
      fold V in C. lra. }
    assert (HV0 : 0 <= V / 20).
    { pose proof (Rle_0_sqr (p + - (s / 20))) as C. unfold Rsqr in C. lra. }
    replace (div (Fin V) (Fin 20)) with (Fin (V / 20)) in Hu, Hl
      by (unfold div; rewrite (Reqb_false _ _) by lra; reflexivity).
    unfold Math_sqrt in Hu, Hl.
    rewrite (Rltb_false _ _) in Hu, Hl by lra.
    apply (scoreBollinger_reals p (s / 20) (sqrt (V / 20)) b).
    + apply sqrt_pos.
    + rewrite sqrt_sqrt by exact HV0. lra.
    + exact Hu.
    + exact Hl.
Qed.

Lemma last_of_suffix :
  forall l1 l2 : list num, l2 <> [] -> last (l1 ++ l2) NaN = last l2 NaN.
Proof.
  intros l1 l2 H. induction l1 as [| x l1 IH]; [reflexivity |].
  simpl. destruct (l1 ++ l2) eqn:E; [| exact IH].
  apply app_eq_nil in E. destruct E as [_ E]. contradiction.
Qed.

Lemma last_is_member :
  forall l : list num, l <> [] -> In (last l NaN) l.
Proof.
  intros l H. destruct (@exists_last _ l H) as (l' & a & ->).
  rewrite last_last. apply in_or_app. right. left. reflexivity.
Qed.

Lemma last_in_window :
  forall (prices : list num) (k : nat),
    List.length prices = S k ->
    (19 <= k)%nat ->
    In (last_of prices) (slice prices (k + 1 - 20) (k + 1)).
Proof.
  intros prices k Hlen Hk. unfold slice, last_of.
  replace (k + 1 - (k + 1 - 20))%nat with 20%nat by lia.
  set (j := (k + 1 - 20)%nat).
  assert (Hskip : List.length (skipn j prices) = 20%nat).
  { rewrite length_skipn. lia. }
  rewrite firstn_all2 by lia.
  rewrite <- (firstn_skipn j prices) at 1.
  assert (Hne : skipn j prices <> []).
  { intro E. rewrite E in Hskip. discriminate. }
  rewrite (last_of_suffix _ _ Hne).
  apply last_is_member. exact Hne.
Qed.

Lemma lastBollinger_range :
  forall prices : list num,
    within 0 150
      (scoreBollinger (last_of prices)
                      (calculateBollingerBands prices 20 (Fin 2))).
Proof.
  intro prices.
  assert (Undefined :
            forall b, last_of (upper b) = NaN ->
                      within 0 150 (scoreBollinger (last_of prices) b)).
  { intros b E. rewrite (scoreBollinger_undefined _ b (or_introl E)).
    exists 50. split; [reflexivity | lra]. }
  destruct (List.length prices) as [| k] eqn:Hlen.
  - apply Undefined. unfold calculateBollingerBands. simpl upper.
    rewrite last_of_map_seq_with, Hlen. reflexivity.
  - destruct (k <? 19)%nat eqn:Hk.
    + apply Undefined. unfold calculateBollingerBands. simpl upper.
      rewrite last_of_map_seq_with, Hlen.
      change (20 - 1)%nat with 19%nat. rewrite Hk. reflexivity.
    + apply Nat.ltb_ge in Hk.
      assert (Hsma : at_index (calculateSMA prices 20) k
                     = div (sum (slice prices (k + 1 - 20) (k + 1))) (ofNat 20)).
      { unfold calculateSMA. rewrite at_index_map_seq by lia.
        change (20 - 1)%nat with 19%nat.
        replace (k <? 19)%nat with false by (symmetry; apply Nat.ltb_ge; exact Hk).
        reflexivity. }
      apply (scoreBollinger_window (slice prices (k + 1 - 20) (k + 1))).
      * apply last_in_window; assumption.
      * unfold calculateBollingerBands. simpl upper.
        rewrite last_of_map_seq_with, Hlen.
        change (20 - 1)%nat with 19%nat.
        replace (k <? 19)%nat with false by (symmetry; apply Nat.ltb_ge; exact Hk).
        unfold bandsAt. rewrite Hsma. reflexivity.
      * unfold calculateBollingerBands. simpl lower.
        rewrite last_of_map_seq_with, Hlen.
        change (20 - 1)%nat with 19%nat.
        replace (k <? 19)%nat with false by (symmetry; apply Nat.ltb_ge; exact Hk).
        unfold bandsAt. rewrite Hsma. reflexivity.
Qed.

(** *** The composite score *)

Lemma totalScore_range :
  forall klineData : list KlineData,
    within 0 100 (totalScoreOf (factorsOf klineData)).
Proof.
  intro klineData. unfold factorsOf.
  destruct (calculateSupportResistance klineData) as [support resistance].
  unfold getCurrentPrice.
  set (prices := map kd_close klineData).
  destruct (lastRSI_range prices) as (r1 & E1 & B1).
  destruct (scoreMACD_range (calculateMACD prices 12 26 9)) as (r2 & E2 & B2).
  destruct (lastBollinger_range prices) as (r3 & E3 & B3).
  destruct (scoreVolume_range (last_of (map kd_volume klineData))
                              (calculateAverageVolume klineData 20))
    as (r4 & E4 & B4).
  destruct (scoreMomentum_range prices (calculateSMA prices 20)
                                (calculateEMA prices 50))
    as (r5 & E5 & B5).
  destruct (scoreVolatility_range prices support resistance (last_of prices))
    as (r6 & E6 & B6).
  unfold totalScoreOf. simpl. rewrite E1, E2, E3, E4, E5, E6.
  eexists. split; [reflexivity | lra].
Qed.

Section ScorePair.

Variable sv : Services.

Lemma scorePair_outcome :
  forall (pair : TradingPair) (w : World),
    exists ps : PairScore,
      scorePair sv pair w
      = (Ok ps, record (CallGetKlines (tp_symbol pair) "1h" (ofZ 100)) w)
      /\ within 0 100 (ps_score ps)
      /\ tp_symbol (ps_pair ps) = tp_symbol pair
      /\ (forall e,
             getKlines_answer sv (w_log w) (tp_symbol pair) "1h" (ofZ 100)
             = Throw e ->
             ps = mkPairScore pair (Fin 0) zeroFactors).
Proof.
  intros pair w. unfold scorePair, try_catch, bind, getKlines, request.
  assert (Z0 : within 0 100 (Fin 0)) by (exists 0; split; [reflexivity | lra]).
  destruct (getKlines_answer sv (w_log w) (tp_symbol pair) "1h" (ofZ 100))
    as [klines | e].
  - destruct (Nat.eqb (List.length klines) 0).
    + eexists. split; [reflexivity |]. split; [exact Z0 |].
      split; [reflexivity | intros e He; discriminate].
    + eexists. split; [reflexivity |]. split; [apply totalScore_range |].
      split; [reflexivity | intros e He; discriminate].
  - eexists. split; [reflexivity |]. split; [exact Z0 |].
    split; [reflexivity | intros e' He; reflexivity].
Qed.

Lemma insertByScore_permutation :
  forall (x : PairScore) (l : list PairScore),
    Permutation (insertByScore x l) (x :: l).
Proof.
  intros x l. induction l as [| y l IH]; simpl; [apply Permutation_refl |].
  destruct (ltb (sub (ps_score x) (ps_score y)) (Fin 0)).
  - apply perm_trans with (y :: x :: l).
    + apply perm_skip. exact IH.
    + apply perm_swap.
  - apply Permutation_refl.
Qed.

Lemma sortByScore_permutation :
  forall l : list PairScore, Permutation (sortByScore l) l.
Proof.
  induction l as [| x l IH]; simpl; [apply perm_nil |].
  apply perm_trans with (x :: sortByScore l).
  - apply insertByScore_permutation.
  - apply perm_skip. exact IH.
Qed.

Lemma scoreEach_outcome :
  forall (pairs : list TradingPair) (acc : list PairScore) (w : World),
    exists (scores : list PairScore) (w' : World),
      scoreEach sv pairs acc w = (Ok (acc ++ scores), w')
      /\ map (fun s => tp_symbol (ps_pair s)) scores = map tp_symbol pairs
      /\ Forall (fun s => within 0 100 (ps_score s)) scores.
Proof.
  induction pairs as [| p rest IH]; intros acc w.
  - exists [], w. rewrite app_nil_r. repeat split; constructor.
  - simpl. unfold bind, try_catch.
    destruct (scorePair_outcome p w) as (ps & E & Hrange & Hsym & _).
    rewrite E.
    destruct (IH (acc ++ [ps])
                 (record (CallGetKlines (tp_symbol p) "1h" (ofZ 100)) w))
      as (scores & w' & E' & Hsyms & Hranges).
    exists (ps :: scores), w'. rewrite E', <- app_assoc. simpl.
    split; [reflexivity |]. split.
    + rewrite Hsym, Hsyms. reflexivity.
    + constructor; assumption.
Qed.

End ScorePair.

(** C8.  Whatever candles the exchange returns, [scorePair] returns
    normally with a composite score that is a real between 0 and 100; when
    the candle request throws, the result is the pair with score 0 and six
    zero sub-scores.  [scorePairs] returns one result per requested pair,
    none omitted, each with a score between 0 and 100. *)
Theorem scorePair_score_range :
  forall sv : Services,
    (forall (pair : TradingPair) (w : World),
        exists ps : PairScore,
          scorePair sv pair w
          = (Ok ps, record (CallGetKlines (tp_symbol pair) "1h" (ofZ 100)) w)
          /\ within 0 100 (ps_score ps)
          /\ (forall e,
                 getKlines_answer sv (w_log w) (tp_symbol pair) "1h" (ofZ 100)
                 = Throw e ->
                 ps = mkPairScore pair (Fin 0) zeroFactors))
    /\ (forall (pairs : list TradingPair) (w : World),
           exists (scores : list PairScore) (w' : World),
             scorePairs sv pairs w = (Ok scores, w')
             /\ Permutation (map (fun s => tp_symbol (ps_pair s)) scores)
                            (map tp_symbol pairs)
             /\ Forall (fun s => within 0 100 (ps_score s)) scores).
Proof.
  intro sv. split.
  - intros pair w.
    destruct (scorePair_outcome sv pair w) as (ps & E & Hrange & _ & Hthrow).
    exists ps. auto.
  - intros pairs w. unfold scorePairs, bind.
    destruct (scoreEach_outcome sv pairs [] w) as (scores & w' & E & Hsyms & Hranges).
    rewrite E. simpl.
    exists (sortByScore scores), w'. split; [reflexivity |]. split.
    + rewrite <- Hsyms. apply Permutation_map. apply sortByScore_permutation.
    + apply Forall_forall. intros s Hs.
      rewrite Forall_forall in Hranges. apply Hranges.
      apply (Permutation_in s (sortByScore_permutation scores)). exact Hs.
Qed.

(** A remark on the sub-scores: the Bollinger sub-score itself is not
    confined to 0..100.  With bands 100..110 and the price at 90 it is 180;
    it is the weight 0.15 and the window statistics that keep the composite
    in range. *)
Example scoreBollinger_above_100 :
  exists r : R,
    scoreBollinger (ofZ 90) (mkBands [ofZ 110] [ofZ 105] [ofZ 100]) = Fin r
    /\ r = 180.
Proof.
  unfold scoreBollinger. simpl. ncompute.
  assert (E : (90 + - (100)) / (110 + - (100)) = - (1)) by (field; lra).
  rewrite E. rdecide.
  eexists. split; [reflexivity | lra].
Qed.
(* ================================================================= *)
(** * Part III: further properties of the code *)
(* ================================================================= *)

(** ** The performance analyzer *)

Import PerformanceAnalyzer.

Lemma tally_fold :
  forall (trades : list TradeRecord) (acc : Tally),
    let t := fold_left tallyTrade trades acc in
    t_winningTrades t = t_winningTrades acc ++ filter isWin trades
    /\ t_losingTrades t
       = t_losingTrades acc ++ filter (fun x => negb (isWin x)) trades
    /\ t_balances t
       = t_balances acc ++ tl (runningBalances (t_balance acc) trades)
    /\ t_balance t = last (runningBalances (t_balance acc) trades) NaN.
Proof.
  induction trades as [| trade rest IH]; intro acc; simpl.
  - rewrite !app_nil_r. repeat split; reflexivity.
  - specialize (IH (tallyTrade acc trade)). simpl in IH.
    destruct IH as (Hw & Hl & Hb & Hlast).
    rewrite Hw, Hl, Hb, Hlast. clear Hw Hl Hb Hlast.
    unfold tallyTrade, isWin, netPnl.
    destruct (gtb (sub (trec_pnl trade) (trec_fee trade)) (Fin 0)); simpl;
      rewrite <- ?app_assoc; simpl.
    + repeat split; try reflexivity; destruct rest; reflexivity.
    + repeat split; try reflexivity; destruct rest; reflexivity.
Qed.

Lemma filter_length_le :
  forall (A : Type) (p : A -> bool) (l : list A),
    (List.length (filter p l) <= List.length l)%nat.
Proof.
  intros A p l. induction l as [| x l IH]; simpl; [lia |].
  destruct (p x); simpl; lia.
Qed.

Lemma filter_negb_length :
  forall (A : Type) (p : A -> bool) (l : list A),
    List.length (filter (fun x => negb (p x)) l)
    = (List.length l - List.length (filter p l))%nat.
Proof.
  intros A p l.
  assert (H : (List.length (filter p l)
               + List.length (filter (fun x => negb (p x)) l)
               = List.length l)%nat).
  { induction l as [| x l IH]; [reflexivity |].
    cbn [filter]. destruct (p x); cbn [negb List.length]; lia. }
  lia.
Qed.

Lemma calculateMetrics_totalTrades :
  forall (initialBalance : num) (trades : list TradeRecord),
    pm_totalTrades (calculateMetrics initialBalance trades)
    = ofNat (List.length trades).
Proof.
  intros initialBalance trades. unfold calculateMetrics.
  destruct trades as [| trade rest]; [reflexivity |].
  set (trades := trade :: rest).
  change (Nat.eqb (List.length trades) 0) with false. cbv iota.
  destruct (calculateMaxDrawdown (t_balances (tally initialBalance trades))
                                 initialBalance) as [dd ddp].
  reflexivity.
Qed.

(** X1.  Every trade is counted once: the metrics report the number of
    trades, the wins are the trades whose net result (pnl minus fee) is
    above zero, every other trade (a break-even one included) is a loss,
    and the win rate is a percentage between 0 and 100. *)
Theorem calculateMetrics_counts :
  forall (initialBalance : num) (trades : list TradeRecord),
    pm_totalTrades (calculateMetrics initialBalance trades)
    = ofNat (List.length trades)
    /\ pm_winningTrades (calculateMetrics initialBalance trades)
       = ofNat (List.length (filter isWin trades))
    /\ pm_losingTrades (calculateMetrics initialBalance trades)
       = ofNat (List.length trades - List.length (filter isWin trades))
    /\ within 0 100 (pm_winRate (calculateMetrics initialBalance trades)).
Proof.
  intros initialBalance trades. unfold calculateMetrics.
  destruct trades as [| trade rest].
  - simpl. repeat split; try reflexivity.
    exists 0. split; [reflexivity | lra].
  - set (trades := trade :: rest).
    change (Nat.eqb (List.length trades) 0) with false. cbv iota.
    destruct (calculateMaxDrawdown (t_balances (tally initialBalance trades))
                                   initialBalance) as [dd ddp].
    cbn [pm_totalTrades pm_winningTrades pm_losingTrades pm_winRate].
    destruct (tally_fold trades
                (mkTally initialBalance [initialBalance] (Fin 0) (Fin 0) [] []))
      as (Hw & Hl & _ & _).
    fold (tally initialBalance trades) in Hw, Hl.
    cbn [t_winningTrades t_losingTrades app] in Hw, Hl.
    rewrite Hw, Hl, filter_negb_length.
    repeat split; try reflexivity.
    pose proof (filter_length_le _ isWin trades) as Hle.
    set (w := List.length (filter isWin trades)) in *.
    assert (Hn : 0 < IZR (Z.of_nat (List.length trades))).
    { apply IZR_lt. simpl. lia. }
    assert (Hw0 : 0 <= IZR (Z.of_nat w)) by (apply IZR_le; lia).
    assert (Hwn : IZR (Z.of_nat w) <= IZR (Z.of_nat (List.length trades)))
      by (apply IZR_le; lia).
    unfold ofNat, ofZ, div, mul.
    rewrite (Reqb_false _ _) by lra.
    eexists. split; [reflexivity |].
    assert (Hi : 0 < / IZR (Z.of_nat (List.length trades)))
      by (apply Rinv_0_lt_compat; exact Hn).
    assert (Hq : IZR (Z.of_nat w) / IZR (Z.of_nat (List.length trades)) <= 1).
    { apply (Rmult_le_reg_r (IZR (Z.of_nat (List.length trades)))); [exact Hn |].
      unfold Rdiv. rewrite Rmult_assoc, Rinv_l by lra. lra. }
    assert (Hq0 : 0 <= IZR (Z.of_nat w) / IZR (Z.of_nat (List.length trades))).
    { unfold Rdiv. apply Rmult_le_pos; lra. }
    lra.
Qed.

Lemma runningBalances_head :
  forall (balance : num) (trades : list TradeRecord),
    runningBalances balance trades
    = balance :: tl (runningBalances balance trades).
Proof. intros balance trades. destruct trades; reflexivity. Qed.

Lemma runningBalances_length :
  forall (trades : list TradeRecord) (balance : num),
    List.length (runningBalances balance trades) = S (List.length trades).
Proof.
  induction trades as [| trade rest IH]; intro balance; [reflexivity |].
  cbn [runningBalances List.length]. rewrite IH. reflexivity.
Qed.

Lemma equityCurve_fold :
  forall (trades : list TradeRecord) (balance : num) (curve : list (Date * num)),
    fold_left
      (fun '(balance, equityCurve) trade =>
         let netPnl := sub (trec_pnl trade) (trec_fee trade) in
         let balance := add balance netPnl in
         (balance, equityCurve ++ [(trec_exitTime trade, balance)]))
      trades (balance, curve)
    = (last (runningBalances balance trades) NaN,
       curve ++ combine (map trec_exitTime trades)
                        (tl (runningBalances balance trades))).
Proof.
  induction trades as [| trade rest IH]; intros balance curve.
  - simpl. rewrite app_nil_r. reflexivity.
  - cbn [fold_left]. cbv zeta. rewrite IH.
    cbn [runningBalances tl map]. unfold netPnl.
    set (b' := add balance (sub (trec_pnl trade) (trec_fee trade))).
    pose proof (runningBalances_head b' rest) as E.
    set (rest' := tl (runningBalances b' rest)) in *.
    rewrite E. cbn [combine last tl]. rewrite <- app_assoc. reflexivity.
Qed.

Lemma generateEquityCurve_length :
  forall (today : Date) (initialBalance : num) (trades : list TradeRecord),
    List.length (generateEquityCurve today initialBalance trades)
    = S (List.length trades).
Proof.
  intros today initialBalance trades.
  unfold generateEquityCurve. rewrite equityCurve_fold.
  cbn [snd app List.length]. f_equal.
  rewrite length_combine, length_map.
  pose proof (runningBalances_length trades initialBalance) as H.
  rewrite (runningBalances_head initialBalance trades) in H.
  cbn [List.length] in H. lia.
Qed.

(** X2.  The equity curve and the metrics are computed from the same
    running balances: the curve has one point more than there are trades,
    it starts at the initial balance (dated by the first entry, or by the
    clock when there is no trade), each further point is dated by a trade's
    exit and adds that trade's net result, and the total return of the
    metrics is the last balance of the curve minus the initial balance. *)
Theorem equity_curve_matches_metrics :
  forall (today : Date) (initialBalance : num) (trades : list TradeRecord),
    map snd (generateEquityCurve today initialBalance trades)
    = runningBalances initialBalance trades
    /\ map fst (generateEquityCurve today initialBalance trades)
       = match trades with
         | trade :: _ => trec_entryTime trade
         | [] => today
         end :: map trec_exitTime trades
    /\ List.length (generateEquityCurve today initialBalance trades)
       = S (List.length trades)
    /\ (trades <> [] ->
        pm_totalReturn (calculateMetrics initialBalance trades)
        = sub (last_of (map snd (generateEquityCurve today initialBalance trades)))
              initialBalance).
Proof.
  intros today initialBalance trades.
  assert (Hlen : List.length (map trec_exitTime trades)
                 = List.length (tl (runningBalances initialBalance trades))).
  { rewrite length_map.
    pose proof (runningBalances_length trades initialBalance) as H.
    rewrite (runningBalances_head initialBalance trades) in H.
    simpl in H. lia. }
  assert (Hsnd : map snd (generateEquityCurve today initialBalance trades)
                 = runningBalances initialBalance trades).
  { unfold generateEquityCurve. rewrite equityCurve_fold.
    cbn [snd app map].
    rewrite (runningBalances_head initialBalance trades) at 2.
    f_equal.
    generalize dependent (tl (runningBalances initialBalance trades)).
    generalize (map trec_exitTime trades).
    induction l as [| d l IH]; intros l' Hl; destruct l' as [| b l'];
      try discriminate; [reflexivity |].
    simpl. f_equal. apply IH. simpl in Hl. lia. }
  split; [exact Hsnd |]. split; [| split].
  - unfold generateEquityCurve. rewrite equityCurve_fold.
    cbn [snd app map]. f_equal.
    generalize dependent (tl (runningBalances initialBalance trades)).
    generalize (map trec_exitTime trades).
    induction l as [| d l IH]; intros l' Hl; destruct l' as [| b l'];
      try discriminate; [reflexivity |].
    simpl. f_equal. apply IH. simpl in Hl. lia.
  - rewrite <- (length_map snd), Hsnd. apply runningBalances_length.
  - intro Hne. rewrite Hsnd. unfold calculateMetrics.
    destruct trades as [| trade rest]; [contradiction |].
    set (trades := trade :: rest).
    change (Nat.eqb (List.length trades) 0) with false. cbv iota.
    destruct (calculateMaxDrawdown (t_balances (tally initialBalance trades))
                                   initialBalance) as [dd ddp].
    cbn [pm_totalReturn].
    destruct (tally_fold trades
                (mkTally initialBalance [initialBalance] (Fin 0) (Fin 0) [] []))
      as (_ & _ & _ & Hb).
    fold (tally initialBalance trades) in Hb. cbn [t_balance] in Hb.
    rewrite Hb. reflexivity.
Qed.

(** *** The maximum drawdown *)

Lemma gtb_nonNegative :
  forall x p : num, nonNegative p -> gtb x p = true -> nonNegative x.
Proof.
  intros x p [-> | (r & -> & Hr)] H.
  - destruct x; discriminate.
  - destruct x as [| | | q]; try discriminate.
    + left. reflexivity.
    + right. exists q. split; [reflexivity |].
      unfold gtb, ltb in H. apply Rltb_iff in H. lra.
Qed.

Lemma drawdownStep_reals :
  forall (m d x : R) (p : num),
    nonNegative p ->
    exists p',
      drawdownStep (Fin m, Fin d, p) (Fin x)
      = (Fin (if Rltb m x then x else m),
         Fin (if Rltb d ((if Rltb m x then x else m) + - x)
              then (if Rltb m x then x else m) + - x else d),
         p')
      /\ nonNegative p'.
Proof.
  intros m d x p Hp. unfold drawdownStep.
  cbv beta iota delta [gtb ltb sub add neg].
  set (m' := if Rltb m x then x else m).
  replace (if Rltb m x then Fin x else Fin m) with (Fin m')
    by (unfold m'; destruct (Rltb m x); reflexivity).
  cbv beta iota.
  replace (if Rltb d (m' + - x) then Fin (m' + - x) else Fin d)
    with (Fin (if Rltb d (m' + - x) then m' + - x else d))
    by (destruct (Rltb d (m' + - x)); reflexivity).
  eexists. split; [reflexivity |].
  match goal with |- nonNegative (if ?c then _ else _) => destruct c eqn:E end;
    [| exact Hp].
  exact (gtb_nonNegative _ _ Hp E).
Qed.

Lemma drawdown_fold :
  forall (l pre : list R) (m d : R) (p : num),
    In m pre ->
    (forall x, In x pre -> x <= m) ->
    0 <= d ->
    nonNegative p ->
    (forall i j, (i <= j < List.length pre)%nat ->
                 nth i pre 0 - nth j pre 0 <= d) ->
    (exists i j, (i <= j < List.length pre)%nat
                 /\ d = nth i pre 0 - nth j pre 0) ->
    exists (m' d' : R) (p' : num),
      fold_left drawdownStep (map Fin l) (Fin m, Fin d, p) = (Fin m', Fin d', p')
      /\ 0 <= d'
      /\ nonNegative p'
      /\ (forall i j, (i <= j < List.length (pre ++ l))%nat ->
                      nth i (pre ++ l) 0 - nth j (pre ++ l) 0 <= d')
      /\ (exists i j, (i <= j < List.length (pre ++ l))%nat
                      /\ d' = nth i (pre ++ l) 0 - nth j (pre ++ l) 0).
Proof.
  induction l as [| x l IH]; intros pre m d p Hin Hmax Hd Hp Hall Hex.
  - exists m, d, p. rewrite app_nil_r. simpl. repeat split; assumption.
  - cbn [map fold_left].
    destruct (drawdownStep_reals m d x p Hp) as (p1 & -> & Hp1).
    set (m1 := if Rltb m x then x else m).
    set (d1 := if Rltb d (m1 + - x) then m1 + - x else d).
    assert (Hm1 : m <= m1 /\ x <= m1 /\ (m1 = m \/ m1 = x)).
    { unfold m1. unfold Rltb. destruct (Rlt_dec m x); lra. }
    assert (Hd1 : d <= d1 /\ m1 - x <= d1 /\ (d1 = d \/ (d1 = m1 - x /\ d < d1))).
    { unfold d1. unfold Rltb. destruct (Rlt_dec d (m1 + - x)); lra. }
    destruct Hm1 as (Hmm & Hxm & Hm1). destruct Hd1 as (Hdd & Hxd & Hd1).
    clearbody m1 d1.
    assert (Hlen : List.length (pre ++ [x]) = S (List.length pre))
      by (rewrite length_app; simpl; lia).
    destruct (IH (pre ++ [x]) m1 d1 p1) as (m' & d' & p' & E & H1 & H2 & H3 & H4).
    + apply in_or_app. destruct Hm1 as [-> | ->]; [left; exact Hin |].
      right. left. reflexivity.
    + intros y Hy. apply in_app_or in Hy. destruct Hy as [Hy | [<- | []]].
      * specialize (Hmax y Hy). lra.
      * exact Hxm.
    + lra.
    + exact Hp1.
    + intros i j Hij. rewrite Hlen in Hij.
      destruct (Nat.eq_dec j (List.length pre)) as [-> | Hj].
      * rewrite (app_nth2 pre [x] 0 (Nat.le_refl _)), Nat.sub_diag. simpl.
        destruct (Nat.eq_dec i (List.length pre)) as [-> | Hi].
        -- rewrite (app_nth2 pre [x] 0 (Nat.le_refl _)), Nat.sub_diag. simpl. lra.
        -- assert (Hi' : (i < List.length pre)%nat) by lia.
           rewrite (app_nth1 pre [x] 0 Hi').
           pose proof (Hmax _ (nth_In pre 0 Hi')). lra.
      * assert (Hj' : (j < List.length pre)%nat) by lia.
        assert (Hi' : (i < List.length pre)%nat) by lia.
        rewrite (app_nth1 pre [x] 0 Hi'), (app_nth1 pre [x] 0 Hj').
        specialize (Hall i j). assert (i <= j < List.length pre)%nat by lia.
        specialize (Hall H). lra.
    + destruct Hd1 as [-> | [Hd1 Hlt]].
      * destruct Hex as (i & j & Hij & ->).
        exists i, j. split; [rewrite Hlen; lia |].
        rewrite (app_nth1 pre [x] 0), (app_nth1 pre [x] 0) by lia. reflexivity.
      * destruct Hm1 as [-> | ->]; [| lra].
        destruct (In_nth pre m 0 Hin) as (i & Hi & Hnth).
        exists i, (List.length pre). split; [rewrite Hlen; lia |].
        rewrite (app_nth1 pre [x] 0 Hi), Hnth.
        rewrite (app_nth2 pre [x] 0 (Nat.le_refl _)), Nat.sub_diag. simpl.
        exact Hd1.
    + exists m', d', p'. rewrite <- app_assoc in H3, H4. simpl in H3, H4.
      repeat split; assumption.
Qed.

(** X3.  On balances that are real numbers the reported maximum drawdown
    is the largest drop from a balance to a later one: it is not below
    any such drop, and it is one of them (zero when the balances never
    fall).  The reported percentage is never negative. *)
Theorem maxDrawdown_is_largest_drop :
  forall (first : R) (rest : list R) (initialBalance : num),
    exists (d : R) (p : num),
      calculateMaxDrawdown (map Fin (first :: rest)) initialBalance = (Fin d, p)
      /\ 0 <= d
      /\ nonNegative p
      /\ (forall i j, (i <= j < List.length (first :: rest))%nat ->
                      nth i (first :: rest) 0 - nth j (first :: rest) 0 <= d)
      /\ (exists i j, (i <= j < List.length (first :: rest))%nat
                      /\ d = nth i (first :: rest) 0 - nth j (first :: rest) 0).
Proof.
  intros first rest initialBalance.
  unfold calculateMaxDrawdown. cbn [map fold_left].
  assert (Hz : nonNegative (Fin 0)) by (right; exists 0; split; [reflexivity | lra]).
  destruct (drawdownStep_reals first 0 first (Fin 0) Hz) as (p1 & -> & Hp1).
  rewrite (Rltb_false first first) by lra.
  rewrite (Rltb_false 0 (first + - first)) by lra.
  destruct (drawdown_fold rest [first] first 0 p1)
    as (m' & d' & p' & E & H1 & H2 & H3 & H4).
  - left. reflexivity.
  - intros x [<- | []]. lra.
  - lra.
  - exact Hp1.
  - intros i j Hij. simpl in Hij.
    assert (i = 0%nat) by lia. assert (j = 0%nat) by lia. subst. simpl. lra.
  - exists 0%nat, 0%nat. split; [simpl; lia | simpl; lra].
  - rewrite E. exists d', p'. repeat split; assumption.
Qed.

(** *** The Sharpe ratio *)

Lemma div_reals :
  forall a b : R, b <> 0 -> div (Fin a) (Fin b) = Fin (a / b).
Proof. intros a b H. unfold div. rewrite (Reqb_false b 0 H). reflexivity. Qed.

(** X4.  The Sharpe ratio of fewer than two trades: it is zero for no
    trade and for a single trade whose return is finite (the deviation is
    zero and the division is not made), and [NaN] for a single trade whose
    return is not finite. *)
Theorem calculateSharpeRatio_single_trade :
  calculateSharpeRatio [] = Fin 0
  /\ (forall trade : TradeRecord,
         calculateSharpeRatio [trade]
         = if isFinite (trec_pnlPercent trade) then Fin 0 else NaN).
Proof.
  split; [reflexivity |].
  intro trade. unfold calculateSharpeRatio.
  cbn [List.length Nat.eqb map fold_left sum].
  change (ofNat 1) with (Fin 1).
  destruct (trec_pnlPercent trade) as [| | | r].
  - reflexivity.
  - cbn [isFinite add div]. rewrite (Rltb_false 1 0) by lra. reflexivity.
  - cbn [isFinite add div]. rewrite (Rltb_false 1 0) by lra. reflexivity.
  - cbn [isFinite add].
    rewrite (div_reals (0 + r) 1) by lra.
    unfold sub, neg, add, Math_pow2, mul.
    rewrite (div_reals _ 1) by lra.
    replace ((0 + (r + - ((0 + r) / 1)) * (r + - ((0 + r) / 1))) / 1) with 0
      by (field).
    unfold Math_sqrt. rewrite (Rltb_false 0 0) by lra.
    rewrite sqrt_0. unfold eqb. rewrite (Reqb_true 0 0) by reflexivity.
    reflexivity.
Qed.

(** ** The replay of the candles *)

Import BacktestEngine.

Lemma simulateStep_idle :
  forall (balance : num) (trades : list TradeRecord) (counter : nat)
         (k : KlineData),
    geb balance (ofZ 100) = false ->
    simulateStep (mkSimState balance trades [] counter) k
    = mkSimState balance trades [] counter.
Proof.
  intros balance trades counter k H.
  unfold simulateStep, enterPosition.
  cbn [sim_positions sim_balance filter map fold_left List.length Nat.eqb].
  rewrite H. reflexivity.
Qed.

(** X5.  The replay opens no position with less than 100 in the account,
    and none before the 21st candle: in both cases it records no trade. *)
Theorem simulateTrading_no_trade :
  forall (klines : list KlineData) (strategyType : string)
         (strategyConfig : StrategyConfig) (initialBalance : num),
    geb initialBalance (ofZ 100) = false
    \/ (List.length klines <= 20)%nat ->
    simulateTrading klines strategyType strategyConfig initialBalance = [].
Proof.
  intros klines strategyType strategyConfig initialBalance H.
  unfold simulateTrading.
  assert (E : fold_left simulateStep (skipn 20 klines)
                        (mkSimState initialBalance [] [] 0)
              = mkSimState initialBalance [] [] 0).
  { destruct H as [H | H].
    - induction (skipn 20 klines) as [| k l IH]; [reflexivity |].
      cbn [fold_left]. rewrite (simulateStep_idle _ _ _ _ H). exact IH.
    - rewrite skipn_all2 by exact H. reflexivity. }
  rewrite E. destruct (rev klines); reflexivity.
Qed.

Lemma simulateTrading_no_trade_witness :
  simulateTrading [candle (ofZ 100) 0] "momentum" noConfig (ofZ 50) = [].
Proof.
  apply (simulateTrading_no_trade [candle (ofZ 100) 0] "momentum" noConfig
                                  (ofZ 50)).
  left. unfold geb, leb, ofZ. apply Rleb_false. lra.
Defined.

(** What the replay keeps true from candle to candle: it holds at most
    one position, and every trade recorded so far left by the exit rule
    with fields that agree with its prices. *)
Definition replayInvariant (st : SimState) : Prop :=
  (List.length (sim_positions st) <= 1)%nat
  /\ Forall exitRule (sim_trades st)
  /\ Forall consistentTrade (sim_trades st).

Lemma tradeOf_consistent :
  forall (position : SimPosition) (exitPrice : num) (exitTime : Date),
    consistentTrade (tradeOf position exitPrice exitTime).
Proof. intros. repeat split. Qed.

Lemma simulateStep_invariant :
  forall (st : SimState) (k : KlineData),
    replayInvariant st -> replayInvariant (simulateStep st k).
Proof.
  intros st k (Hlen & Hrule & Hcons).
  unfold simulateStep.
  set (price := kd_close k). set (time := kd_timestamp k).
  assert (Hexit :
    replayInvariant
      (fold_left (exitPosition price time)
         (map sp_id
            (filter (fun position =>
                       geb (pnlPercentAt price position) (ofZ 5)
                       || leb (pnlPercentAt price position) (Fin (- (25 / 10))))
                    (sim_positions st)))
         st)).
  { destruct st as [balance trades positions counter].
    cbn [sim_positions sim_trades] in *.
    destruct positions as [| p [| q rest]]; [| | simpl in Hlen; lia].
    - simpl. repeat split; assumption.
    - cbn [filter].
      destruct (geb (pnlPercentAt price p) (ofZ 5)
                || leb (pnlPercentAt price p) (Fin (- (25 / 10)))) eqn:E.
      + cbn [map fold_left]. unfold exitPosition.
        cbn [sim_positions findIndex]. rewrite Nat.eqb_refl.
        cbn [nth_error]. unfold splice1. cbn [firstn skipn app].
        repeat split; cbn [sim_positions sim_trades List.length].
        * lia.
        * apply Forall_app. split; [exact Hrule |].
          constructor; [| constructor].
          unfold exitRule, tradeOf. cbn [trec_pnlPercent].
          apply orb_true_iff in E. exact E.
        * apply Forall_app. split; [exact Hcons |].
          constructor; [apply tradeOf_consistent | constructor].
      + simpl. repeat split; assumption. }
  destruct Hexit as (Hlen' & Hrule' & Hcons').
  set (st' := fold_left _ _ st) in *. clearbody st'.
  unfold enterPosition.
  destruct (Nat.eqb (List.length (sim_positions st')) 0) eqn:E0;
    [| repeat split; assumption].
  apply Nat.eqb_eq in E0.
  destruct (geb (sim_balance st') (ofZ 100)); [| repeat split; assumption].
  match goal with |- replayInvariant (if ?c then _ else _) => destruct c end;
    [| repeat split; assumption].
  repeat split; cbn [sim_positions sim_trades]; try assumption.
  rewrite length_app, E0. simpl. lia.
Qed.

(** X6.  The replay holds at most one position at a time.  Its trades are
    those closed during the replay, each at a gain of at least 5 percent or
    a loss of at least 2.5 percent, followed by at most one trade closed at
    the close of the last candle; in every trade the pnl, the return and
    the fee (0.1 percent of the exit value) agree with the prices and the
    quantity. *)
Theorem simulateTrading_trades :
  forall (klines : list KlineData) (strategyType : string)
         (strategyConfig : StrategyConfig) (initialBalance : num),
    exists closedInLoop closedAtEnd : list TradeRecord,
      simulateTrading klines strategyType strategyConfig initialBalance
      = closedInLoop ++ closedAtEnd
      /\ Forall exitRule closedInLoop
      /\ (List.length closedAtEnd <= 1)%nat
      /\ Forall (fun trade =>
                   Some (trec_exitPrice trade)
                   = option_map kd_close (hd_error (rev klines)))
                closedAtEnd
      /\ Forall consistentTrade (closedInLoop ++ closedAtEnd).
Proof.
  intros klines strategyType strategyConfig initialBalance.
  unfold simulateTrading.
  assert (Hinv : replayInvariant
                   (fold_left simulateStep (skipn 20 klines)
                              (mkSimState initialBalance [] [] 0))).
  { assert (G : forall l st, replayInvariant st ->
                             replayInvariant (fold_left simulateStep l st)).
    { induction l as [| k l IH]; intros st H; [exact H |].
      cbn [fold_left]. apply IH. apply simulateStep_invariant. exact H. }
    apply G. repeat split; cbn; [lia | constructor | constructor]. }
  set (st := fold_left simulateStep (skipn 20 klines) _) in *. clearbody st.
  destruct Hinv as (Hlen & Hrule & Hcons).
  destruct (rev klines) as [| lastKline front].
  - exists (sim_trades st), []. rewrite app_nil_r.
    repeat split; try assumption; try (simpl; lia); constructor.
  - destruct (sim_positions st) as [| p [| q rest]]; [| | simpl in Hlen; lia].
    + exists (sim_trades st), []. cbn [fold_left]. rewrite app_nil_r.
      repeat split; try assumption; try (simpl; lia); constructor.
    + exists (sim_trades st),
             [tradeOf p (kd_close lastKline) (kd_timestamp lastKline)].
      cbn [fold_left]. repeat split; try assumption.
      * constructor; [reflexivity | constructor].
      * apply Forall_app. split; [exact Hcons |].
        constructor; [apply tradeOf_consistent | constructor].
Qed.

(** ** Technical indicators *)

Lemma fold_append_length :
  forall (A : Type) (f : list A -> nat -> A) (l : list nat) (acc : list A),
    List.length (fold_left (fun a i => a ++ [f a i]) l acc)
    = (List.length acc + List.length l)%nat.
Proof.
  intros A f l. induction l as [| i l IH]; intro acc; simpl; [lia |].
  rewrite IH, length_app. simpl. lia.
Qed.

Lemma calculateEMA_length :
  forall (prices : list num) (period : nat),
    List.length (calculateEMA prices period) = List.length prices.
Proof.
  intros prices period. unfold calculateEMA.
  rewrite (fold_append_length num
             (fun ema i =>
                if Nat.eqb i 0 then at_index prices i
                else if (i <? period)%nat
                     then div (sum (slice prices 0 (i + 1))) (ofNat (i + 1))
                     else add (mul (sub (at_index prices i) (at_index ema (i - 1)))
                                   (div (Fin 2) (ofNat (period + 1))))
                              (at_index ema (i - 1)))).
  rewrite length_seq. reflexivity.
Qed.

(** X7.  Every indicator series is aligned with the prices it was computed
    from: the moving averages, the RSI, the three MACD series (the signal
    line is padded for that purpose) and the three Bollinger bands all have
    as many entries as there are prices. *)
Theorem indicators_aligned :
  forall (prices : list num) (period fastPeriod slowPeriod signalPeriod : nat)
         (stdDev : num),
    List.length (calculateSMA prices period) = List.length prices
    /\ List.length (calculateEMA prices period) = List.length prices
    /\ List.length (calculateRSI prices period) = List.length prices
    /\ List.length (macd_line (calculateMACD prices fastPeriod slowPeriod signalPeriod))
       = List.length prices
    /\ List.length (macd_signal (calculateMACD prices fastPeriod slowPeriod signalPeriod))
       = List.length prices
    /\ List.length (macd_histogram (calculateMACD prices fastPeriod slowPeriod signalPeriod))
       = List.length prices
    /\ List.length (upper (calculateBollingerBands prices period stdDev))
       = List.length prices
    /\ List.length (middle (calculateBollingerBands prices period stdDev))
       = List.length prices
    /\ List.length (lower (calculateBollingerBands prices period stdDev))
       = List.length prices.
Proof.
  intros prices period fastPeriod slowPeriod signalPeriod stdDev.
  split; [unfold calculateSMA; rewrite length_map, length_seq; reflexivity |].
  split; [apply calculateEMA_length |].
  split; [unfold calculateRSI; rewrite length_map, length_seq; reflexivity |].
  unfold calculateMACD. cbn [macd_line macd_signal macd_histogram].
  set (macd := map _ (seq 0 (List.length prices))).
  assert (Hm : List.length macd = List.length prices)
    by (unfold macd; rewrite length_map, length_seq; reflexivity).
  split; [exact Hm |].
  split.
  - rewrite length_app, repeat_length, calculateEMA_length.
    pose proof (filter_length_le _ (fun v => negb (isNaN v)) macd). lia.
  - split; [rewrite length_map, length_seq; exact Hm |].
    unfold calculateBollingerBands. cbn [upper middle lower].
    rewrite !length_map, length_seq. repeat split.
Qed.

(** *** The relative strength index *)

(** X9.  For a period of at least one every entry of the RSI series is
    undefined ([NaN]) or a real between 0 and 100, whatever the prices
    (infinite and undefined ones included). *)
Theorem calculateRSI_range :
  forall (prices : list num) (period : nat),
    Forall (fun v => v = NaN \/ within 0 100 v) (calculateRSI prices (S period)).
Proof.
  intros prices period. unfold calculateRSI.
  apply Forall_forall. intros v Hv.
  apply in_map_iff in Hv. destruct Hv as (i & <- & _).
  destruct (i <? S period)%nat; [left; reflexivity |].
  apply rsiAt_range.
Qed.

(** *** Bollinger bands *)

Lemma Rltb_false_iff : forall a b : R, Rltb a b = false <-> ~ a < b.
Proof.
  intros a b. unfold Rltb. destruct (Rlt_dec a b); split; intro H;
    try discriminate; try contradiction; try reflexivity; assumption.
Qed.

(** A square root is [NaN], plus infinity, or a real not below zero; so is
    its product with a factor that is not below zero. *)
Lemma spread_not_below_zero :
  forall variance stdDev : num,
    ltb stdDev (Fin 0) = false ->
    ltb (mul (Math_sqrt variance) stdDev) (Fin 0) = false.
Proof.
  intros variance stdDev Hk.
  assert (Hs : Math_sqrt variance = NaN \/ Math_sqrt variance = PInf
               \/ exists s, Math_sqrt variance = Fin s /\ 0 <= s).
  { destruct variance as [| | | r]; cbn [Math_sqrt]; auto.
    destruct (Rltb r 0); auto.
    right. right. exists (sqrt r). split; [reflexivity | apply sqrt_pos]. }
  destruct Hs as [-> | [-> | (s & -> & Hs)]].
  - reflexivity.
  - destruct stdDev as [| | | k]; try reflexivity; try discriminate.
    cbn [ltb] in Hk. apply Rltb_false_iff in Hk.
    cbn [mul]. unfold inf_times.
    destruct (Reqb k 0) eqn:E0; [reflexivity |].
    assert (Hpos : 0 < k).
    { destruct (Rtotal_order 0 k) as [H | [H | H]]; [exact H | | lra].
      exfalso. unfold Reqb in E0. destruct (Req_dec_T k 0); [discriminate |].
      auto. }
    rewrite (Rltb_true 0 k) by exact Hpos. reflexivity.
  - destruct stdDev as [| | | k]; try reflexivity; try discriminate.
    + cbn [mul]. unfold inf_times.
      destruct (Reqb s 0) eqn:E0; [reflexivity |].
      assert (Hpos : 0 < s).
      { destruct (Rtotal_order 0 s) as [H | [H | H]]; [exact H | | lra].
        exfalso. unfold Reqb in E0. destruct (Req_dec_T s 0); [discriminate |].
        auto. }
      rewrite (Rltb_true 0 s) by exact Hpos. reflexivity.
    + cbn [ltb] in Hk. apply Rltb_false_iff in Hk.
      cbn [mul ltb]. apply Rltb_false_iff.
      assert (0 <= s * k) by (apply Rmult_le_pos; lra). lra.
Qed.

(** Adding what is not below zero never gives less, and subtracting it
    never gives more. *)
Lemma add_not_below :
  forall mean spread : num,
    ltb spread (Fin 0) = false ->
    ltb (add mean spread) mean = false
    /\ gtb (sub mean spread) mean = false.
Proof.
  intros mean spread H. unfold gtb, sub.
  destruct mean as [| | | m], spread as [| | | x];
    try discriminate; try (split; reflexivity).
  cbn [ltb] in H. apply Rltb_false_iff in H.
  cbn [neg add ltb]. split; apply Rltb_false_iff; lra.
Qed.

(** X10.  For a width factor that is not below zero and every price list
    (infinite and undefined prices included): before the index
    [period - 1] the three Bollinger bands are undefined ([NaN]); from that
    index on the middle band is the entry of the simple moving average, the
    upper band is never below the middle band and the lower band never
    above it. *)
Theorem bollinger_bands_ordered :
  forall (prices : list num) (period i : nat) (stdDev : num),
    ltb stdDev (Fin 0) = false ->
    (i < List.length prices)%nat ->
    if (i <? period - 1)%nat
    then
      at_index (upper (calculateBollingerBands prices period stdDev)) i = NaN
      /\ at_index (middle (calculateBollingerBands prices period stdDev)) i = NaN
      /\ at_index (lower (calculateBollingerBands prices period stdDev)) i = NaN
    else
      at_index (middle (calculateBollingerBands prices period stdDev)) i
      = at_index (calculateSMA prices period) i
      /\ ltb (at_index (upper (calculateBollingerBands prices period stdDev)) i)
             (at_index (middle (calculateBollingerBands prices period stdDev)) i)
         = false
      /\ gtb (at_index (lower (calculateBollingerBands prices period stdDev)) i)
             (at_index (middle (calculateBollingerBands prices period stdDev)) i)
         = false.
Proof.
  intros prices period i stdDev Hk Hi.
  unfold calculateBollingerBands. cbn [upper middle lower].
  rewrite !map_map.
  rewrite !at_index_map_seq by exact Hi.
  destruct (i <? period - 1)%nat; [repeat split |].
  unfold bandsAt. cbn [fst snd].
  match goal with
  | |- context [Math_sqrt ?v] =>
      pose proof (spread_not_below_zero v stdDev Hk) as Hspread
  end.
  split; [reflexivity |].
  apply add_not_below. exact Hspread.
Qed.

Lemma bollinger_bands_ordered_witness :
  at_index (middle (calculateBollingerBands (map Fin [1; 3]) 2 (Fin 2))) 1
  = at_index (calculateSMA (map Fin [1; 3]) 2) 1
  /\ ltb (at_index (upper (calculateBollingerBands (map Fin [1; 3]) 2 (Fin 2))) 1)
         (at_index (middle (calculateBollingerBands (map Fin [1; 3]) 2 (Fin 2))) 1)
     = false
  /\ gtb (at_index (lower (calculateBollingerBands (map Fin [1; 3]) 2 (Fin 2))) 1)
         (at_index (middle (calculateBollingerBands (map Fin [1; 3]) 2 (Fin 2))) 1)
     = false.
Proof.
  apply (bollinger_bands_ordered (map Fin [1; 3]) 2 1 (Fin 2)).
  - apply Rltb_false. lra.
  - simpl. lia.
Defined.

(** *** Support and resistance *)

Lemma ltb_trans :
  forall a b c : num, ltb a b = true -> ltb b c = true -> ltb a c = true.
Proof.
  intros a b c Hab Hbc.
  destruct a as [| | | x], b as [| | | y], c as [| | | z];
    try discriminate; try reflexivity.
  unfold ltb in *. apply Rltb_iff in Hab, Hbc. apply Rltb_iff. lra.
Qed.

Lemma at_index_In :
  forall (l : list num) (i : nat) (x : num),
    ltb (at_index l i) x = true \/ ltb x (at_index l i) = true ->
    In (at_index l i) l.
Proof.
  intros l i x H. unfold at_index in *.
  destruct (Nat.lt_ge_cases i (List.length l)) as [Hi | Hi].
  - apply nth_In. exact Hi.
  - rewrite nth_overflow in H by exact Hi.
    destruct H as [H | H]; [discriminate | destruct x; discriminate].
Qed.

(** X11.  For a non-empty candle list the support is one of the lows and
    is the first low or below it; the resistance is one of the highs and
    is the first high or above it. *)
Theorem support_resistance_bounds :
  forall (k : KlineData) (rest : list KlineData),
    In (fst (calculateSupportResistance (k :: rest))) (map kd_low (k :: rest))
    /\ In (snd (calculateSupportResistance (k :: rest))) (map kd_high (k :: rest))
    /\ (fst (calculateSupportResistance (k :: rest)) = kd_low k
        \/ ltb (fst (calculateSupportResistance (k :: rest))) (kd_low k) = true)
    /\ (snd (calculateSupportResistance (k :: rest)) = kd_high k
        \/ gtb (snd (calculateSupportResistance (k :: rest))) (kd_high k) = true).
Proof.
  intros k rest. unfold calculateSupportResistance.
  set (klines := k :: rest).
  set (highs := map kd_high klines). set (lows := map kd_low klines).
  set (window := (List.length klines / 10)%nat).
  change (at_index highs 0) with (kd_high k).
  change (at_index lows 0) with (kd_low k).
  match goal with |- context [fold_left ?f _ _] => set (step := f) end.
  set (good := fun acc : num * num =>
                 In (fst acc) lows /\ In (snd acc) highs
                 /\ (fst acc = kd_low k \/ ltb (fst acc) (kd_low k) = true)
                 /\ (snd acc = kd_high k \/ gtb (snd acc) (kd_high k) = true)).
  assert (G : forall l acc, good acc -> good (fold_left step l acc)).
  { induction l as [| i l IH]; intros acc Hacc; [exact Hacc |].
    cbn [fold_left]. apply IH. clear IH.
    destruct acc as [support resistance].
    destruct Hacc as (Hs & Hr & Hsb & Hrb). cbn [fst snd] in *.
    unfold step, good. cbn [fst snd].
    repeat split.
    - match goal with |- In (if ?c then _ else _) _ => destruct c eqn:E end;
        [| exact Hs].
      apply andb_prop in E. destruct E as [_ E].
      apply (at_index_In lows i support). left. exact E.
    - match goal with |- In (if ?c then _ else _) _ => destruct c eqn:E end;
        [| exact Hr].
      apply andb_prop in E. destruct E as [_ E].
      apply (at_index_In highs i resistance). right. exact E.
    - match goal with |- (if ?c then _ else _) = _ \/ _ => destruct c eqn:E end;
        [| exact Hsb].
      apply andb_prop in E. destruct E as [_ E]. right.
      destruct Hsb as [<- | Hsb]; [exact E |].
      exact (ltb_trans _ _ _ E Hsb).
    - match goal with |- (if ?c then _ else _) = _ \/ _ => destruct c eqn:E end;
        [| exact Hrb].
      apply andb_prop in E. destruct E as [_ E]. right.
      destruct Hrb as [<- | Hrb]; [exact E |].
      unfold gtb in *. exact (ltb_trans _ _ _ Hrb E). }
  apply (G _ (kd_low k, kd_high k)).
  unfold good. cbn [fst snd]. repeat split.
  - left. reflexivity.
  - left. reflexivity.
  - left. reflexivity.
  - left. reflexivity.
Qed.

(** ** The risk calculator *)

Section RiskChecks.

Variable sv : Services.
Variable risk : RiskConfig.
Variable localMidnight : Z -> Z.

Lemma checkPositionSize_outcome :
  forall (userId symbol : string) (quantity price : num) (limits : Limits)
         (w : World),
    (exists e, checkPositionSize sv userId symbol quantity price limits w
               = (Throw e, record (CallGetBalance "USDT") w))
    \/ (exists r, checkPositionSize sv userId symbol quantity price limits w
                  = (Ok r, record (CallGetBalance "USDT") w)
                  /\ (r = approval \/ denial r)).
Proof.
  intros userId symbol quantity price limits w.
  unfold checkPositionSize, bind, getBalance, request.
  destruct (getBalance_answer sv (w_log w) "USDT") as [[balance |] | e].
  - right. destruct (eqb (bal_total balance) (Fin 0)).
    + eexists. split; [reflexivity |]. right.
      repeat split. eexists. reflexivity.
    + destruct (gtb _ _).
      * eexists. split; [reflexivity |]. right.
        repeat split. eexists. reflexivity.
      * eexists. split; [reflexivity |]. left. reflexivity.
  - right. eexists. split; [reflexivity |]. right.
    repeat split. eexists. reflexivity.
  - left. eexists. reflexivity.
Qed.

Lemma checkConcurrentPositions_outcome :
  forall (userId : string) (limits : Limits) (w : World),
    exists r, checkConcurrentPositions userId limits w = (Ok r, w)
              /\ (r = approval \/ denial r).
Proof.
  intros userId limits w. unfold checkConcurrentPositions, bind, read_db.
  destruct (geb _ _).
  - eexists. split; [reflexivity |]. right. repeat split. eexists. reflexivity.
  - eexists. split; [reflexivity |]. left. reflexivity.
Qed.

Lemma checkDailyLossLimit_outcome :
  forall (userId : string) (limits : Limits) (w : World),
    (exists e, checkDailyLossLimit sv localMidnight userId limits w
               = (Throw e, record (CallGetBalance "USDT") w))
    \/ (exists r, checkDailyLossLimit sv localMidnight userId limits w
                  = (Ok r, record (CallGetBalance "USDT") w)
                  /\ (r = approval \/ denial r)).
Proof.
  intros userId limits w.
  unfold checkDailyLossLimit, bind, getBalance, request, now, read_db.
  destruct (getBalance_answer sv (w_log w) "USDT") as [[balance |] | e].
  - right. destruct (eqb (bal_total balance) (Fin 0)).
    + eexists. split; [reflexivity |]. left. reflexivity.
    + destruct (geb _ _).
      * eexists. split; [reflexivity |]. right.
        repeat split. eexists. reflexivity.
      * eexists. split; [reflexivity |]. left. reflexivity.
  - right. eexists. split; [reflexivity |]. left. reflexivity.
  - left. eexists. reflexivity.
Qed.

(** X12.  [checkTradeRisk] never throws and never writes the database.
    It answers with the approval (allowed, no reason, medium risk: the
    level and the remark of the correlation check are not passed on) after
    exactly two balance requests, or with a denial at high risk that
    carries a reason; an exception of a collaborator becomes such a
    denial. *)
Theorem checkTradeRisk_verdict :
  forall (userId symbol : string) (quantity price : num) (side : Side)
         (w : World),
    exists (r : RiskCheckResult) (w' : World),
      checkTradeRisk sv risk localMidnight userId symbol quantity price side w
      = (Ok r, w')
      /\ w_db w' = w_db w
      /\ ((r = approval
           /\ w' = record (CallGetBalance "USDT")
                          (record (CallGetBalance "USDT") w))
          \/ denial r).
Proof.
  intros userId symbol quantity price side w.
  assert (Hfail : forall e, denial (mkRiskCheckResult false (Some (Failure e)) high)).
  { intro e. repeat split. eexists. reflexivity. }
  unfold checkTradeRisk, try_catch, bind.
  destruct (getRiskLimits_reads risk userId w) as (limits & ->).
  destruct (checkPositionSize_outcome userId symbol quantity price limits w)
    as [(e & ->) | (r1 & -> & [-> | Hd1])].
  - do 2 eexists. split; [reflexivity |]. split; [reflexivity |]. right. apply Hfail.
  - cbn [allowed approval negb].
    set (w1 := record (CallGetBalance "USDT") w).
    destruct (checkConcurrentPositions_outcome userId limits w1)
      as (r2 & -> & [-> | Hd2]).
    + cbn [allowed approval negb].
      destruct (checkDailyLossLimit_outcome userId limits w1)
        as [(e & ->) | (r3 & -> & [-> | Hd3])].
      * do 2 eexists. split; [reflexivity |]. split; [reflexivity |].
        right. apply Hfail.
      * cbn [allowed approval negb].
        destruct (checkCorrelation_allows userId symbol
                    (record (CallGetBalance "USDT") w1)) as (r4 & -> & ->).
        cbn [negb ret].
        do 2 eexists. split; [reflexivity |]. split; [reflexivity |].
        left. split; reflexivity.
      * destruct Hd3 as (Ha & Hr & Hwhy). rewrite Ha. cbn [negb ret].
        do 2 eexists. split; [reflexivity |]. split; [reflexivity |].
        right. repeat split; assumption.
    + destruct Hd2 as (Ha & Hr & Hwhy). rewrite Ha. cbn [negb ret].
      do 2 eexists. split; [reflexivity |]. split; [reflexivity |].
      right. repeat split; assumption.
  - destruct Hd1 as (Ha & Hr & Hwhy). rewrite Ha. cbn [negb ret].
    do 2 eexists. split; [reflexivity |]. split; [reflexivity |].
    right. repeat split; assumption.
Qed.

(** X13.  The daily-loss check on a day without trades: with a limit above
    zero it allows the trade whatever the balance; with a limit of zero (or
    below) and a balance that is a non-zero real it denies the trade,
    although nothing was lost. *)
Theorem checkDailyLossLimit_without_trades :
  forall (userId : string) (limits : Limits) (w : World)
         (balance : option Balance),
    todayTradesOf localMidnight w = [] ->
    getBalance_answer sv (w_log w) "USDT" = Ok balance ->
    (gtb (dailyLossLimitPercent limits) (Fin 0) = true ->
     checkDailyLossLimit sv localMidnight userId limits w
     = (Ok approval, record (CallGetBalance "USDT") w))
    /\ (forall (b : Balance) (total : R),
           balance = Some b -> bal_total b = Fin total -> total <> 0 ->
           leb (dailyLossLimitPercent limits) (Fin 0) = true ->
           checkDailyLossLimit sv localMidnight userId limits w
           = (Ok (mkRiskCheckResult false
                    (Some (DailyLossExceeded (dailyLossLimitPercent limits)
                                             (Fin 0)))
                    high),
              record (CallGetBalance "USDT") w)).
Proof.
  intros userId limits w balance Hnone Hb.
  unfold todayTradesOf in Hnone.
  split.
  - intro Hlimit.
    unfold checkDailyLossLimit, bind, getBalance, request, now, read_db.
    rewrite Hb, Hnone. cbn [fold_left].
    destruct balance as [b |]; [| reflexivity].
    destruct (eqb (bal_total b) (Fin 0)) eqn:Ez; [reflexivity |].
    assert (E : Math_abs (Math_min (Fin 0) (Fin 0)) = Fin (Rabs 0)).
    { unfold Math_min, ltb. rewrite (Rltb_false 0 0) by lra. reflexivity. }
    rewrite E.
    assert (Hnot : geb (mul (div (Fin (Rabs 0)) (bal_total b)) (ofZ 100))
                       (dailyLossLimitPercent limits) = false).
    { rewrite Rabs_R0.
      destruct (dailyLossLimitPercent limits) as [| | | l]; try discriminate.
      - destruct (bal_total b) as [| | | t]; try reflexivity.
        unfold div. destruct (Reqb t 0); [rewrite (Reqb_true 0 0) by reflexivity |];
          reflexivity.
      - unfold gtb, ltb in Hlimit. apply Rltb_iff in Hlimit.
        destruct (bal_total b) as [| | | t]; try reflexivity.
        + unfold div, mul, ofZ, geb, leb. apply Rleb_false. lra.
        + unfold div, mul, ofZ, geb, leb. apply Rleb_false. lra.
        + unfold div. destruct (Reqb t 0) eqn:Et.
          * rewrite (Reqb_true 0 0) by reflexivity. reflexivity.
          * unfold mul, ofZ, geb, leb. apply Rleb_false.
            unfold Rdiv. rewrite Rmult_0_l, Rmult_0_l. lra. }
    rewrite Hnot. reflexivity.
  - intros b total -> Ht Hne Hlimit.
    unfold checkDailyLossLimit, bind, getBalance, request, now, read_db.
    rewrite Hb, Hnone. cbn [fold_left]. rewrite Ht.
    unfold eqb at 1. rewrite (Reqb_false total 0 Hne).
    assert (E : Math_abs (Math_min (Fin 0) (Fin 0)) = Fin (Rabs 0)).
    { unfold Math_min, ltb. rewrite (Rltb_false 0 0) by lra. reflexivity. }
    rewrite E. rewrite (div_reals _ total Hne).
    cbv beta iota delta [mul ofZ].
    replace (Rabs 0 / total * 100) with 0
      by (rewrite Rabs_R0; unfold Rdiv; rewrite !Rmult_0_l; reflexivity).
    unfold geb. rewrite Hlimit. reflexivity.
Qed.

End RiskChecks.

(** An account of 1000 USDT on a day without trades: with a limit of 5
    percent the check approves, with a limit of 0 it denies. *)
Lemma checkDailyLossLimit_without_trades_witness :
  checkDailyLossLimit (sampleServices (ofZ 100)) (fun t => t) "u1"
                      (sampleLimits (ofZ 5)) sampleWorld
  = (Ok approval, record (CallGetBalance "USDT") sampleWorld)
  /\ checkDailyLossLimit (sampleServices (ofZ 100)) (fun t => t) "u1"
                         (sampleLimits (Fin 0)) sampleWorld
     = (Ok (mkRiskCheckResult false
              (Some (DailyLossExceeded (Fin 0) (Fin 0))) high),
        record (CallGetBalance "USDT") sampleWorld).
Proof.
  split.
  - apply (checkDailyLossLimit_without_trades
             (sampleServices (ofZ 100)) (fun t => t) "u1" (sampleLimits (ofZ 5))
             sampleWorld (Some sampleBalance) eq_refl eq_refl).
    apply Rltb_true. lra.
  - apply (proj2 (checkDailyLossLimit_without_trades
                    (sampleServices (ofZ 100)) (fun t => t) "u1"
                    (sampleLimits (Fin 0)) sampleWorld (Some sampleBalance)
                    eq_refl eq_refl)
                 sampleBalance 1000 eq_refl eq_refl).
    + lra.
    + apply Rleb_true. lra.
Defined.

(** X14.  For an entry price above zero, a stop-loss percentage from 0 to
    100 and a take-profit percentage not below zero, the stop-loss price is
    not below zero and not above the entry price, and the take-profit price
    is not below the entry price. *)
Theorem stop_and_target_around_entry :
  forall entryPrice stopLossPercent takeProfitPercent : R,
    0 < entryPrice ->
    0 <= stopLossPercent <= 100 ->
    0 <= takeProfitPercent ->
    leb (Fin 0) (calculateStopLoss (Fin entryPrice) (Fin stopLossPercent)) = true
    /\ leb (calculateStopLoss (Fin entryPrice) (Fin stopLossPercent))
           (Fin entryPrice) = true
    /\ geb (calculateTakeProfit (Fin entryPrice) (Fin takeProfitPercent))
           (Fin entryPrice) = true.
Proof.
  intros e s t He Hs Ht.
  unfold calculateStopLoss, calculateTakeProfit, ofZ.
  rewrite !div_reals by lra.
  cbv beta iota delta [mul sub add neg geb leb].
  repeat split; apply Rleb_true; nra.
Qed.

Lemma stop_and_target_around_entry_witness :
  leb (Fin 0) (calculateStopLoss (Fin 100) (Fin (25 / 10))) = true
  /\ leb (calculateStopLoss (Fin 100) (Fin (25 / 10))) (Fin 100) = true
  /\ geb (calculateTakeProfit (Fin 100) (Fin 5)) (Fin 100) = true.
Proof.
  apply (stop_and_target_around_entry 100 (25 / 10) 5); lra.
Defined.

(** ** Profit and loss of a closed trade (orderUtils.ts) *)

(** X15.  [calculatePnl] never reports a gain as a loss or a loss as a
    gain: for prices and a quantity that are not below zero, an exit price
    not below the entry price gives a pnl and a percentage that are not
    below zero, and an exit price not above the entry price gives a pnl
    and a percentage that are not above zero.  Without an entry price above
    zero (zero, negative or [NaN]) the percentage is zero instead of a
    division by zero. *)
Theorem calculatePnl_sign :
  forall entryPrice exitPrice quantity : R,
    0 <= entryPrice ->
    0 <= exitPrice ->
    0 <= quantity ->
    (entryPrice <= exitPrice ->
     geb (fst (calculatePnl (Fin entryPrice) (Fin exitPrice) (Fin quantity)))
         (Fin 0) = true
     /\ geb (snd (calculatePnl (Fin entryPrice) (Fin exitPrice) (Fin quantity)))
            (Fin 0) = true)
    /\ (exitPrice <= entryPrice ->
        leb (fst (calculatePnl (Fin entryPrice) (Fin exitPrice) (Fin quantity)))
            (Fin 0) = true
        /\ leb (snd (calculatePnl (Fin entryPrice) (Fin exitPrice)
                                  (Fin quantity)))
               (Fin 0) = true)
    /\ (forall entry exit qty : num,
           gtb entry (Fin 0) = false ->
           snd (calculatePnl entry exit qty) = Fin 0).
Proof.
  intros e x q He Hx Hq.
  assert (Hpercent :
            forall d : R,
              0 < e ->
              (0 <= d -> 0 <= d / e * 100) /\ (d <= 0 -> d / e * 100 <= 0)).
  { intros d Hpos.
    assert (Hi : 0 < / e) by (apply Rinv_0_lt_compat; exact Hpos).
    unfold Rdiv. split; intro Hd.
    - assert (0 <= d * / e) by (apply Rmult_le_pos; lra). lra.
    - assert (0 <= (- d) * / e) by (apply Rmult_le_pos; lra). lra. }
  split; [| split].
  - intro Hup. unfold calculatePnl, gtb, geb, ofZ.
    cbv beta iota delta [sub add neg mul fst snd ltb leb].
    split; [apply Rleb_true; nra |].
    destruct (Rlt_dec 0 e) as [Hpos | Hzero].
    + rewrite (Rltb_true 0 e Hpos). rewrite div_reals by lra.
      cbv beta iota delta [mul leb]. apply Rleb_true.
      apply (Hpercent (x + - e) Hpos). lra.
    + rewrite (Rltb_false 0 e Hzero). apply Rleb_true. lra.
  - intro Hdown. unfold calculatePnl, gtb, geb, ofZ.
    cbv beta iota delta [sub add neg mul fst snd ltb leb].
    split; [apply Rleb_true; nra |].
    destruct (Rlt_dec 0 e) as [Hpos | Hzero].
    + rewrite (Rltb_true 0 e Hpos). rewrite div_reals by lra.
      cbv beta iota delta [mul leb]. apply Rleb_true.
      apply (Hpercent (x + - e) Hpos). lra.
    + rewrite (Rltb_false 0 e Hzero). apply Rleb_true. lra.
  - intros entry exit qty H. unfold calculatePnl. cbn [snd].
    rewrite H. reflexivity.
Qed.

(** A trade bought at 100 and sold at 110, and one sold at 90. *)
Lemma calculatePnl_sign_witness :
  geb (fst (calculatePnl (Fin 100) (Fin 110) (Fin 2))) (Fin 0) = true
  /\ leb (snd (calculatePnl (Fin 100) (Fin 90) (Fin 2))) (Fin 0) = true.
Proof.
  split.
  - apply (calculatePnl_sign 100 110 2); lra.
  - apply (proj1 (proj2 (calculatePnl_sign 100 90 2 ltac:(lra) ltac:(lra)
                                            ltac:(lra)))).
    lra.
Defined.

(** ** The monitor's sweep as a whole *)

Lemma monitored_refl : forall p : PositionRow, monitored p p.
Proof. intro p. unfold monitored. repeat split; auto. Qed.

Lemma monitored_trans :
  forall p q r : PositionRow, monitored p q -> monitored q r -> monitored p r.
Proof.
  unfold monitored. intros p q r H1 H2.
  destruct H1 as (A1 & A2 & A3 & A4 & A5 & A6 & A7 & A8 & A9 & A10).
  destruct H2 as (B1 & B2 & B3 & B4 & B5 & B6 & B7 & B8 & B9 & B10).
  repeat split; try congruence. intro H. auto.
Qed.

Lemma Forall2_monitored_refl :
  forall l : list PositionRow, Forall2 monitored l l.
Proof.
  induction l as [| p l IH]; constructor; [apply monitored_refl | exact IH].
Qed.

Lemma Forall2_monitored_trans :
  forall l1 l2 l3 : list PositionRow,
    Forall2 monitored l1 l2 -> Forall2 monitored l2 l3 -> Forall2 monitored l1 l3.
Proof.
  intros l1 l2 l3 H. revert l3.
  induction H as [| p q l1 l2 Hpq Hl IH]; intros l3 H3.
  - inversion H3. constructor.
  - inversion H3 as [| q' r l2' l3' Hqr Hl3]; subst.
    constructor; [exact (monitored_trans _ _ _ Hpq Hqr) | apply IH; exact Hl3].
Qed.

Lemma Forall2_monitored_update :
  forall (id : string) (f : PositionRow -> PositionRow) (l : list PositionRow),
    (forall p, monitored p (f p)) ->
    Forall2 monitored l (update_where pos_id id f l).
Proof.
  intros id f l Hf. unfold update_where.
  induction l as [| p l IH]; simpl; constructor; [| exact IH].
  destruct (String.eqb (pos_id p) id); [apply Hf | apply monitored_refl].
Qed.

(** A row of the table after corresponds to a row of the table before. *)
Lemma Forall2_monitored_origin :
  forall (l l' : list PositionRow) (q : PositionRow),
    Forall2 monitored l l' -> In q l' -> exists p, In p l /\ monitored p q.
Proof.
  intros l l' q H. induction H as [| p q' l l' Hpq Hl IH]; intro Hin.
  - contradiction.
  - destruct Hin as [<- | Hin].
    + exists p. split; [left; reflexivity | exact Hpq].
    + destruct (IH Hin) as (p0 & Hp0 & Hm). exists p0. split; [right |]; assumption.
Qed.

Lemma swept_refl : forall w : World, swept w w.
Proof.
  intro w. unfold swept. split; [apply Forall2_monitored_refl |].
  split; [exists []; rewrite app_nil_r; split; [reflexivity | constructor] |].
  repeat split. exists []. rewrite app_nil_r. reflexivity.
Qed.

Lemma forcedSale_origin :
  forall (l l' : list PositionRow) (t : TradeRow),
    Forall2 monitored l l' -> forcedSale l' t -> forcedSale l t.
Proof.
  intros l l' t H (H1 & H2 & H3 & q & Hq & Hopen & H4 & H5 & H6).
  destruct (Forall2_monitored_origin l l' q H Hq) as (p & Hp & Hm).
  destruct Hm as (A1 & A2 & A3 & _ & _ & _ & _ & _ & _ & A10).
  repeat split; try assumption.
  exists p. repeat split; try congruence; auto.
Qed.

Lemma swept_trans :
  forall w1 w2 w3 : World, swept w1 w2 -> swept w2 w3 -> swept w1 w3.
Proof.
  intros w1 w2 w3
         (P1 & (a1 & T1 & F1) & S1 & R1 & B1 & N1 & (l1 & L1))
         (P2 & (a2 & T2 & F2) & S2 & R2 & B2 & N2 & (l2 & L2)).
  unfold swept. split; [exact (Forall2_monitored_trans _ _ _ P1 P2) |].
  split.
  - exists (a1 ++ a2). split; [rewrite T2, T1, app_assoc; reflexivity |].
    apply Forall_app. split; [exact F1 |].
    apply Forall_forall. intros t Ht. rewrite Forall_forall in F2.
    exact (forcedSale_origin _ _ t P1 (F2 t Ht)).
  - repeat split; try congruence.
    exists (l1 ++ l2). rewrite L2, L1, app_assoc. reflexivity.
Qed.

(** A world that differs only by its log. *)
Lemma swept_log :
  forall (w w' : World) (l : list Effect),
    w_db w' = w_db w -> w_now w' = w_now w -> w_log w' = w_log w ++ l ->
    swept w w'.
Proof.
  intros w w' l Hdb Hnow Hlog. unfold swept. rewrite Hdb.
  split; [apply Forall2_monitored_refl |].
  split; [exists []; rewrite app_nil_r; split; [reflexivity | constructor] |].
  repeat split; try assumption. exists l. exact Hlog.
Qed.

Section Sweep.

Variable sv : Services.

Lemma resolve_frame :
  forall (result : ExecutedLike) (w : World),
    w_db (snd (resolveExecutedFromExchange sv result w)) = w_db w
    /\ w_now (snd (resolveExecutedFromExchange sv result w)) = w_now w
    /\ exists l, w_log (snd (resolveExecutedFromExchange sv result w))
                 = w_log w ++ l.
Proof.
  intros result w. unfold resolveExecutedFromExchange.
  assert (Z : w_db w = w_db w /\ w_now w = w_now w
              /\ exists l, w_log w = w_log w ++ l).
  { repeat split. exists []. rewrite app_nil_r. reflexivity. }
  destruct (isFinite _ && gtb _ _ && isFinite _ && gtb _ _); [exact Z |].
  destruct (el_symbol result) as [symbol |]; [| exact Z].
  destruct (el_orderId result) as [orderId |]; [| exact Z].
  destruct (negb (nonempty (Some symbol)) || missingId (Some orderId));
    [exact Z |].
  unfold try_catch, bind, getOrderStatus, request.
  destruct (getOrder_answer sv (w_log w) symbol orderId);
    cbn [snd ret record w_db w_now w_log]; repeat split; eexists; reflexivity.
Qed.

Lemma sellAndReconcile_frame :
  forall (position : PositionRow) (w : World),
    w_db (snd (sellAndReconcile sv position w)) = w_db w
    /\ w_now (snd (sellAndReconcile sv position w)) = w_now w
    /\ exists l, w_log (snd (sellAndReconcile sv position w)) = w_log w ++ l.
Proof.
  intros position w.
  unfold sellAndReconcile, bind, marketSell, placeOrder, request.
  destruct (placeOrder_answer sv (w_log w) _) as [result | e].
  - destruct (negb (isFinite _) || leb _ (Fin 0)).
    + match goal with
      | |- context [resolveExecutedFromExchange sv ?r ?w0] =>
          destruct (resolve_frame r w0) as (H1 & H2 & (l & H3));
          destruct (resolveExecutedFromExchange sv r w0) as [[e | err] w1]
      end; cbn [snd ret] in *; rewrite H1, H2, H3;
        cbn [record w_db w_now w_log]; repeat split;
        rewrite <- app_assoc; eexists; reflexivity.
    + cbn [snd ret record w_db w_now w_log]. repeat split. eexists. reflexivity.
  - cbn [snd record w_db w_now w_log]. repeat split. eexists. reflexivity.
Qed.

Lemma closedAt_monitored :
  forall (executedPrice : num) (t : Z) (p : PositionRow),
    monitored p (closedAt_ executedPrice t p).
Proof.
  intros. unfold monitored, closedAt_. cbn. repeat split. discriminate.
Qed.

Lemma refreshed_monitored :
  forall (currentPrice pnl pnlPercent : num) (p : PositionRow),
    monitored p (refreshed currentPrice pnl pnlPercent p).
Proof.
  intros. unfold monitored, refreshed. cbn. repeat split. auto.
Qed.

Lemma findPosition_In :
  forall (positionId : string) (d : Db) (p : PositionRow),
    findPosition positionId d = Some p ->
    In p (tbl_positions d) /\ pos_id p = positionId.
Proof.
  intros positionId d p H. unfold findPosition, select_first in H.
  apply find_some in H. destruct H as [Hin Heq].
  split; [exact Hin | apply String.eqb_eq; exact Heq].
Qed.

Lemma executeStopLoss_swept :
  forall (positionId : string) (w : World),
    swept w (snd (executeStopLoss sv positionId w)).
Proof.
  intros positionId w. unfold executeStopLoss, bind, read_db.
  destruct (findPosition positionId (w_db w)) as [position |] eqn:Hfind;
    [| apply swept_refl].
  destruct (pos_isOpen position) eqn:Hopen; [| apply swept_refl].
  cbn [negb].
  destruct (sellAndReconcile_frame position w) as (Hdb & Hnow & (l & Hlog)).
  destruct (sellAndReconcile sv position w)
    as [[[result executedPrice] | e] w1]; cbn [snd] in *.
  - unfold now, write_db. cbn [snd w_db w_now w_log].
    destruct (findPosition_In _ _ _ Hfind) as [Hin Hid].
    unfold swept. cbn [w_db w_now w_log tbl_positions tbl_trades tbl_strategies
                       tbl_riskLimits tbl_backtestResults set_trades
                       set_positions].
    rewrite Hdb, Hnow.
    split; [apply Forall2_monitored_update; intro; apply closedAt_monitored |].
    split.
    + eexists. split; [reflexivity |].
      constructor; [| constructor].
      repeat split. exists position. repeat split; assumption.
    + repeat split. exists l. exact Hlog.
  - apply (swept_log w w1 l); assumption.
Qed.

Lemma executeTakeProfit_swept :
  forall (positionId : string) (w : World),
    swept w (snd (executeTakeProfit sv positionId w)).
Proof.
  intros positionId w. unfold executeTakeProfit, bind, read_db.
  destruct (findPosition positionId (w_db w)) as [position |] eqn:Hfind;
    [| apply swept_refl].
  destruct (pos_isOpen position) eqn:Hopen; [| apply swept_refl].
  cbn [negb].
  destruct (sellAndReconcile_frame position w) as (Hdb & Hnow & (l & Hlog)).
  destruct (sellAndReconcile sv position w)
    as [[[result executedPrice] | e] w1]; cbn [snd] in *.
  - unfold now, write_db. cbn [snd w_db w_now w_log].
    unfold swept. cbn [w_db w_now w_log tbl_positions tbl_trades tbl_strategies
                       tbl_riskLimits tbl_backtestResults set_positions].
    rewrite Hdb, Hnow.
    split; [apply Forall2_monitored_update; intro; apply closedAt_monitored |].
    split; [exists []; rewrite app_nil_r; split; [reflexivity | constructor] |].
    repeat split. exists l. exact Hlog.
  - apply (swept_log w w1 l); assumption.
Qed.

Lemma checkPosition_swept :
  forall (position : PositionRow) (w : World),
    fst (checkPosition sv position w) = Ok tt
    /\ swept w (snd (checkPosition sv position w)).
Proof.
  intros position w.
  unfold checkPosition, try_catch, bind, getPrice, request.
  set (w0 := record (CallGetPrice (pos_symbol position)) w).
  assert (H0 : swept w w0).
  { apply (swept_log w w0 [CallGetPrice (pos_symbol position)]); reflexivity. }
  destruct (getPrice_answer sv (w_log w) (pos_symbol position))
    as [currentPrice | e]; [| split; [reflexivity | exact H0]].
  destruct (present (pos_stopLoss position) && leb currentPrice _).
  - pose proof (executeStopLoss_swept (pos_id position) w0) as H.
    destruct (executeStopLoss sv (pos_id position) w0) as [[[] | e] w1];
      cbn [fst snd ret] in *; (split; [reflexivity |]);
      exact (swept_trans _ _ _ H0 H).
  - destruct (present (pos_takeProfit position) && geb currentPrice _).
    + pose proof (executeTakeProfit_swept (pos_id position) w0) as H.
      destruct (executeTakeProfit sv (pos_id position) w0) as [[[] | e] w1];
        cbn [fst snd ret] in *; (split; [reflexivity |]);
        exact (swept_trans _ _ _ H0 H).
    + unfold write_db. cbn [fst snd]. split; [reflexivity |].
      apply (swept_trans _ _ _ H0).
      unfold swept. cbn [w_db w_now w_log tbl_positions tbl_trades tbl_strategies
                         tbl_riskLimits tbl_backtestResults set_positions].
      split; [apply Forall2_monitored_update; intro; apply refreshed_monitored |].
      split; [exists []; rewrite app_nil_r; split; [reflexivity | constructor] |].
      repeat split. exists []. rewrite app_nil_r. reflexivity.
Qed.

(** X16.  A sweep of the monitor never throws, whatever the exchange
    answers.  It adds and removes no position row and leaves the identity,
    quantity, entry price and stops of every row as they were; it opens no
    closed row again; it only appends to the trades table, and each row it
    appends is a filled market sell of a position that was open; the other
    tables and the clock are untouched and the log only grows. *)
Theorem checkAndExecuteStopLosses_sweeps :
  forall w : World,
    fst (checkAndExecuteStopLosses sv w) = Ok tt
    /\ swept w (snd (checkAndExecuteStopLosses sv w)).
Proof.
  intro w. unfold checkAndExecuteStopLosses, bind, read_db.
  generalize (openPositionsOf (w_db w)). intro positions.
  revert w. induction positions as [| p rest IH]; intro w.
  - split; [reflexivity | apply swept_refl].
  - cbn [for_each]. unfold bind.
    destruct (checkPosition_swept p w) as [Hok Hsw].
    destruct (checkPosition sv p w) as [[[] | e] w1]; cbn [fst snd] in *;
      [| discriminate].
    destruct (IH w1) as [Hok' Hsw'].
    split; [exact Hok' | exact (swept_trans _ _ _ Hsw Hsw')].
Qed.

End Sweep.

(** ** The position ledger *)

Lemma update_where_absent :
  forall (id : string) (f : PositionRow -> PositionRow) (rows : list PositionRow),
    ~ In id (map pos_id rows) -> update_where pos_id id f rows = rows.
Proof.
  intros id f rows H. unfold update_where.
  induction rows as [| p rows IH]; [reflexivity |].
  simpl in *. destruct (String.eqb (pos_id p) id) eqn:E.
  - apply String.eqb_eq in E. exfalso. apply H. left. exact E.
  - f_equal. apply IH. intro Hin. apply H. right. exact Hin.
Qed.

Lemma findPosition_absent :
  forall (id : string) (d : Db),
    ~ In id (map pos_id (tbl_positions d)) -> findPosition id d = None.
Proof.
  intros id d H. unfold findPosition, select_first.
  destruct (find _ _) as [p |] eqn:E; [| reflexivity].
  apply find_some in E. destruct E as [Hin Heq]. apply String.eqb_eq in Heq.
  exfalso. apply H. rewrite <- Heq. apply in_map. exact Hin.
Qed.

Lemma find_app_absent :
  forall (id : string) (rows : list PositionRow) (p : PositionRow),
    ~ In id (map pos_id rows) -> pos_id p = id ->
    find (fun q => String.eqb (pos_id q) id) (rows ++ [p]) = Some p.
Proof.
  intros id rows p H Hp. induction rows as [| q rows IH]; simpl in *.
  - rewrite Hp, String.eqb_refl. reflexivity.
  - destruct (String.eqb (pos_id q) id) eqn:E.
    + apply String.eqb_eq in E. exfalso. apply H. left. exact E.
    + apply IH. intro Hin. apply H. right. exact Hin.
Qed.

Section LedgerRoundTrip.

Variable generatedId : Db -> string.

(** What the calls do when the database accepts every write. *)
Lemma createPosition_then_close :
  forall (s : Strategy) (positionData : PositionData) (closePrice : num)
         (w : World),
    ~ In (generatedId (w_db w)) (map pos_id (tbl_positions (w_db w))) ->
    (exists (row : PositionRow) (before : list PositionRow) (w1 w2 : World),
        createPosition generatedId s positionData w = (Ok row, w1)
        /\ pos_id row = generatedId (w_db w)
        /\ pos_strategyId row = strategyId s
        /\ pos_symbol row = pd_symbol positionData
        /\ pos_side row = pd_side positionData
        /\ pos_isOpen row = true
        /\ w_now w1 = w_now w
        /\ getOpenPositions s w = (Ok before, w)
        /\ getOpenPositions s w1 = (Ok (before ++ [row]), w1)
        /\ closePosition s (pos_id row) closePrice w1
           = (Ok (Some (closedRow closePrice (w_now w) row)), w2)
        /\ getOpenPositions s w2 = (Ok before, w2))
    /\ closePosition s (generatedId (w_db w)) closePrice w
       = (Ok None, w).
Proof.
  intros s positionData closePrice w Hfresh.
  split.
  - unfold createPosition, closePosition, getOpenPositions, getPositions,
      onPositionOpened, onPositionClosed, bind, now, read_db, write_db, ret,
      set_positions.
    cbn [w_db w_now w_log tbl_positions pos_id].
    do 4 eexists.
    split; [reflexivity |]. split; [reflexivity |]. split; [reflexivity |].
    split; [reflexivity |]. split; [reflexivity |]. split; [reflexivity |].
    split; [reflexivity |]. split; [reflexivity |].
    split.
    + cbn [w_db w_now w_log tbl_positions pos_id].
      rewrite !filter_app. cbn [filter pos_strategyId pos_isOpen].
      rewrite String.eqb_refl. cbn [filter pos_isOpen]. reflexivity.
    + cbn [w_db w_now w_log tbl_positions pos_id].
      unfold update_where. rewrite map_app.
      fold (update_where pos_id (generatedId (w_db w))
              (closedRow closePrice (w_now w)) (tbl_positions (w_db w))).
      rewrite (update_where_absent _ _ _ Hfresh).
      cbn [map pos_id]. rewrite String.eqb_refl.
      unfold findPosition, select_first. cbn [tbl_positions].
      rewrite (find_app_absent _ _ _ Hfresh) by reflexivity.
      split; [reflexivity |].
      cbn [w_db w_now w_log tbl_positions pos_id].
      rewrite !filter_app. cbn [filter closedRow pos_strategyId pos_isOpen].
      destruct (String.eqb (strategyId s) (strategyId s));
        cbn [filter pos_isOpen]; rewrite !app_nil_r; reflexivity.
  - unfold closePosition, bind, now, read_db, write_db, ret, set_positions.
    cbn [w_db w_now w_log tbl_positions].
    rewrite (update_where_absent _ _ _ Hfresh).
    assert (Ed : mkDb (tbl_strategies (w_db w)) (tbl_positions (w_db w))
                      (tbl_trades (w_db w)) (tbl_riskLimits (w_db w))
                      (tbl_backtestResults (w_db w)) = w_db w).
    { destruct (w_db w). reflexivity. }
    assert (Ew : mkWorld (w_db w) (w_now w) (w_log w) = w).
    { destruct w. reflexivity. }
    rewrite Ed, Ew, (findPosition_absent _ _ Hfresh). reflexivity.
Qed.


End LedgerRoundTrip.


(** ** The position sizer *)

Import PositionSizer.

Section SizerAndLimit.

Variable sv : Services.
Variable risk : RiskConfig.

Lemma Math_min_not_above :
  forall x limit : num, gtb (Math_min x limit) limit = false.
Proof.
  intros x limit. unfold gtb, Math_min.
  destruct x as [| | | a], limit as [| | | l]; try reflexivity;
    cbn [ltb]; try (apply Rltb_false; lra).
  destruct (Rltb l a) eqn:E; cbn [ltb].
  - apply Rltb_false. lra.
  - exact E.
Qed.

(** X19.  [calculateSafePositionSize] never sizes above the user's limit:
    whatever percentage is requested, a result it returns carries a
    percentage that is not above [maxPositionSizePercent]; a requested
    percentage that is not zero and not above the limit is the one used;
    without a request, or with a request of zero, the limit is used.  The
    value of the result is that percentage of the free balance and the
    quantity is the value over the price, rounded down by [Math.floor] at
    eight decimals.  It throws 'Insufficient USDT balance' when the exchange
    reports no USDT balance or a free balance of zero; in every case it
    made one balance request and wrote nothing. *)
Theorem safe_position_size_capped :
  forall (userId symbol : string) (price : num) (requestedPercent : option num)
         (w : World),
    exists limits : Limits,
      getRiskLimits risk userId w = (Ok limits, w)
      /\ match calculateSafePositionSize sv risk userId symbol price
                                         requestedPercent w with
         | (Ok r, w') =>
             w' = record (CallGetBalance "USDT") w
             /\ gtb (psr_percentage r) (maxPositionSizePercent limits) = false
             /\ (forall p : num,
                    requestedPercent = Some p ->
                    truthy p = true ->
                    gtb p (maxPositionSizePercent limits) = false ->
                    isNaN (maxPositionSizePercent limits) = false ->
                    psr_percentage r = p)
             /\ (requestedPercent = None \/ requestedPercent = Some (Fin 0) ->
                 isNaN (maxPositionSizePercent limits) = false ->
                 psr_percentage r = maxPositionSizePercent limits)
             /\ (exists balance : Balance,
                    getBalance_answer sv (w_log w) "USDT" = Ok (Some balance)
                    /\ eqb (bal_free balance) (Fin 0) = false
                    /\ psr_value r
                       = div (mul (bal_free balance) (psr_percentage r))
                             (ofZ 100)
                    /\ psr_quantity r = roundDown8 (div (psr_value r) price))
         | (Throw e, w') =>
             w' = record (CallGetBalance "USDT") w
             /\ (getBalance_answer sv (w_log w) "USDT" = Throw e
                 \/ e = Err "Insufficient USDT balance"
                    /\ (getBalance_answer sv (w_log w) "USDT" = Ok None
                        \/ exists balance : Balance,
                             getBalance_answer sv (w_log w) "USDT"
                             = Ok (Some balance)
                             /\ eqb (bal_free balance) (Fin 0) = true))
         end.
Proof.
  intros userId symbol price requestedPercent w.
  destruct (getRiskLimits_reads risk userId w) as (limits & Hlimits).
  exists limits. split; [exact Hlimits |].
  unfold calculateSafePositionSize, bind. rewrite Hlimits.
  set (limit := maxPositionSizePercent limits).
  set (riskPercent := match requestedPercent with
                      | Some p => or_else p limit
                      | None => limit
                      end).
  unfold calculatePositionSize, bind, getBalance, request.
  destruct (getBalance_answer sv (w_log w) "USDT") as [[balance |] | e].
  - destruct (eqb (bal_free balance) (Fin 0)) eqn:Efree.
    + cbn [throw]. split; [reflexivity |].
      right. split; [reflexivity |]. right. exists balance. split; auto.
    + cbn [ret psr_percentage psr_value psr_quantity].
      split; [reflexivity |].
      split; [apply Math_min_not_above |].
      split; [| split].
      * intros p Hp Htruthy Hle Hnan. unfold riskPercent. rewrite Hp.
        unfold or_else. rewrite Htruthy.
        unfold gtb in Hle. unfold Math_min.
        destruct p as [| | | a]; [discriminate | | |];
          destruct limit as [| | | l]; try discriminate; try reflexivity.
        cbn [ltb] in Hle. cbn [ltb]. rewrite Hle. reflexivity.
      * intros Hreq Hnan. unfold riskPercent.
        assert (Hmin : Math_min limit limit = limit).
        { unfold Math_min. destruct limit as [| | | l];
            try discriminate; try reflexivity.
          cbn [ltb]. rewrite (Rltb_false l l) by lra. reflexivity. }
        destruct Hreq as [-> | ->]; [exact Hmin |].
        unfold or_else. cbn [truthy].
        rewrite (Reqb_true 0 0) by reflexivity. exact Hmin.
      * exists balance. repeat split. exact Efree.
  - cbn [throw]. split; [reflexivity |].
    right. split; [reflexivity |]. left. reflexivity.
  - split; [reflexivity |]. left. reflexivity.
Qed.

End SizerAndLimit.

(** ** The window of a backtest *)

(** X20.  On valid dates [validateDateRange] accepts a window exactly when
    the start is before the end, the two are at most 365 days apart (365
    days to the millisecond are accepted) and the end is not after the
    present instant (an end at the present instant is accepted). *)
Theorem validateDateRange_accepts :
  forall today startMs endMs : Z,
    valid (validateDateRange (DateMs today) (DateMs startMs) (DateMs endMs))
    = ((startMs <? endMs) && (endMs - startMs <=? 365 * 86400000)
       && (endMs <=? today))%Z.
Proof.
  intros today s e. unfold validateDateRange.
  cbv beta iota delta [getTime geb gtb leb ltb sub add neg div ofZ].
  change (1000 * 60 * 60 * 24)%Z with 86400000%Z.
  rewrite (Reqb_false (IZR 86400000) 0) by lra.
  destruct (Z.ltb_spec s e) as [Hse | Hse].
  - rewrite (Rleb_false (IZR e) (IZR s)) by (apply Rlt_not_le, IZR_lt; exact Hse).
    destruct (Z.leb_spec (e - s) (365 * 86400000)) as [Hd | Hd].
    + assert (Hr : (IZR e + - IZR s) / IZR 86400000 <= IZR 365).
      { apply (Rmult_le_reg_r (IZR 86400000)); [lra |].
        unfold Rdiv. rewrite Rmult_assoc, Rinv_l by lra.
        rewrite Rmult_1_r, <- mult_IZR, <- opp_IZR, <- plus_IZR.
        apply IZR_le. lia. }
      rewrite (Rltb_false (IZR 365) _) by lra.
      destruct (Z.leb_spec e today) as [Ht | Ht].
      * rewrite (Rltb_false (IZR today) (IZR e))
          by (apply Rle_not_lt, IZR_le; exact Ht).
        reflexivity.
      * rewrite (Rltb_true (IZR today) (IZR e)) by (apply IZR_lt; exact Ht).
        reflexivity.
    + assert (Hr : IZR 365 < (IZR e + - IZR s) / IZR 86400000).
      { apply (Rmult_lt_reg_r (IZR 86400000)); [lra |].
        unfold Rdiv. rewrite Rmult_assoc, Rinv_l by lra.
        rewrite Rmult_1_r, <- mult_IZR, <- opp_IZR, <- plus_IZR.
        apply IZR_lt. lia. }
      rewrite (Rltb_true (IZR 365) _) by lra. reflexivity.
  - rewrite (Rleb_true (IZR e) (IZR s)) by (apply IZR_le; exact Hse).
    reflexivity.
Qed.

(** ** Reconciliation never yields an undefined number *)

Lemma or_else_zero_defined :
  forall x : num, isNaN (or_else x (Fin 0)) = false.
Proof.
  intros [| | | r]; unfold or_else, truthy; try reflexivity.
  destruct (negb (Reqb r 0)); reflexivity.
Qed.

Lemma or_else_defined :
  forall x y : num, isNaN y = false -> isNaN (or_else x y) = false.
Proof.
  intros [| | | r] y H; unfold or_else, truthy; try assumption; try reflexivity.
  destruct (negb (Reqb r 0)); [reflexivity | exact H].
Qed.

(** X21.  [resolveExecutedFromExchange] never throws, whatever the order
    result holds and whatever the exchange answers (an exception of the
    order-status request is swallowed), and neither the price nor the
    quantity it returns is [NaN]: what cannot be determined is zero. *)
Theorem resolveExecutedFromExchange_defined :
  forall (sv : Services) (result : ExecutedLike) (w : World),
    exists (e : Executed) (w' : World),
      resolveExecutedFromExchange sv result w = (Ok e, w')
      /\ isNaN (ex_price e) = false
      /\ isNaN (ex_qty e) = false.
Proof.
  intros sv result w. unfold resolveExecutedFromExchange.
  set (price := ex_price (extractExecutedFromResult result)).
  set (qty := ex_qty (extractExecutedFromResult result)).
  assert (Z : exists (e : Executed) (w' : World),
             ret (mkExecuted (or_else price (Fin 0)) (or_else qty (Fin 0))) w
             = (Ok e, w')
             /\ isNaN (ex_price e) = false /\ isNaN (ex_qty e) = false).
  { do 2 eexists. split; [reflexivity |].
    split; apply or_else_zero_defined. }
  destruct (isFinite price && gtb price (Fin 0) && isFinite qty && gtb qty (Fin 0))
    eqn:Evalid.
  - do 2 eexists. split; [reflexivity |].
    rewrite andb4_pairs in Evalid. apply andb_prop in Evalid.
    destruct Evalid as [Hp Hq].
    apply andb_prop in Hp. apply andb_prop in Hq.
    destruct Hp as [Hp _]. destruct Hq as [Hq _].
    cbn [ex_price ex_qty].
    split; [destruct price | destruct qty]; try discriminate; reflexivity.
  - destruct (el_symbol result) as [symbol |]; [| exact Z].
    destruct (el_orderId result) as [orderId |]; [| exact Z].
    destruct (negb (nonempty (Some symbol)) || missingId (Some orderId));
      [exact Z |].
    unfold try_catch, bind, getOrderStatus, request.
    destruct (getOrder_answer sv (w_log w) symbol orderId) as [order | err].
    + do 2 eexists. split; [reflexivity |]. cbn [ex_price ex_qty].
      split; apply or_else_defined; apply or_else_zero_defined.
    + do 2 eexists. split; [reflexivity |]. cbn [ex_price ex_qty].
      split; apply or_else_zero_defined.
Qed.

(** ** The requests of a scoring round *)

Lemma scoreEach_requests :
  forall (sv : Services) (pairs : list TradingPair) (acc : list PairScore)
         (w : World),
    exists (scores : list PairScore) (w' : World),
      scoreEach sv pairs acc w = (Ok scores, w')
      /\ w_db w' = w_db w
      /\ w_now w' = w_now w
      /\ w_log w'
         = w_log w
           ++ map (fun p => CallGetKlines (tp_symbol p) "1h" (ofZ 100)) pairs.
Proof.
  intros sv pairs. induction pairs as [| p rest IH]; intros acc w.
  - exists acc, w. rewrite app_nil_r. repeat split.
  - cbn [scoreEach]. unfold bind, try_catch.
    destruct (scorePair_outcome sv p w) as (ps & E & _).
    rewrite E.
    destruct (IH (acc ++ [ps])
                 (record (CallGetKlines (tp_symbol p) "1h" (ofZ 100)) w))
      as (scores & w' & E' & Hdb & Hnow & Hlog).
    exists scores, w'. split; [exact E' |].
    split; [exact Hdb |]. split; [exact Hnow |].
    rewrite Hlog. cbn [record w_log map]. rewrite <- app_assoc. reflexivity.
Qed.

(** X22.  A scoring round asks the exchange for candles exactly once per
    pair, in the order of the pairs (hourly candles, 100 of them), makes no
    other request, writes nothing to the database and does not throw. *)
Theorem scorePairs_requests :
  forall (sv : Services) (pairs : list TradingPair) (w : World),
    exists (scores : list PairScore) (w' : World),
      scorePairs sv pairs w = (Ok scores, w')
      /\ w_db w' = w_db w
      /\ w_log w'
         = w_log w
           ++ map (fun p => CallGetKlines (tp_symbol p) "1h" (ofZ 100)) pairs.
Proof.
  intros sv pairs w. unfold scorePairs, bind.
  destruct (scoreEach_requests sv pairs [] w)
    as (scores & w' & E & Hdb & _ & Hlog).
  rewrite E. exists (sortByScore scores), w'.
  split; [reflexivity |]. split; assumption.
Qed.

(** ** The ledger accepts a trade with a positive price *)

(** X23.  [saveTrade] by its outcome.  A call that returns was given a
    price that is a finite number above zero, and has appended exactly one
    row to the trades table, the last, which carries the strategy's id and
    the position, symbol, side, order type, fee asset and status of the
    trade; the other tables are as they were.  A call that throws has
    changed nothing. *)
Theorem saveTrade_stores_positive_price :
  forall (s : Strategy) (tradeData : TradeData) (w : World),
    match saveTrade s tradeData w with
    | (Ok _, w') =>
        positive_finite (td_price tradeData) = true
        /\ (exists row : TradeRow,
               tbl_trades (w_db w') = tbl_trades (w_db w) ++ [row]
               /\ tr_strategyId row = strategyId s
               /\ tr_positionId row = td_positionId tradeData
               /\ tr_symbol row = td_symbol tradeData
               /\ tr_side row = td_side tradeData
               /\ tr_orderType row = td_orderType tradeData
               /\ tr_feeAsset row = td_feeAsset tradeData
               /\ tr_status row = td_status tradeData)
        /\ tbl_positions (w_db w') = tbl_positions (w_db w)
        /\ tbl_strategies (w_db w') = tbl_strategies (w_db w)
        /\ w_log w' = w_log w
    | (Throw _, w') => w' = w
    end.
Proof.
  intros s tradeData w. unfold saveTrade, positive_finite.
  destruct (td_price tradeData) as [| | | p]; cbn [isFinite andb];
    try reflexivity.
  unfold gtb, ltb, leb, truthy. cbn [negb orb].
  destruct (Rlt_dec 0 p) as [Hp | Hp].
  - rewrite (Rltb_true 0 p Hp), (Rleb_false p 0), (Reqb_false p 0) by lra.
    cbn [negb orb].
    unfold bind, now, write_db, set_trades.
    cbn [w_db w_log tbl_trades tbl_positions tbl_strategies].
    split; [reflexivity |]. split; [| repeat split].
    eexists. repeat split.
  - rewrite (Rleb_true p 0) by lra.
    rewrite orb_true_r. reflexivity.
Qed.

(** A sale at 100 on the sample ledger is stored. *)
Example saveTrade_sample_stored :
  exists w' : World,
    saveTrade (idleStrategy "s1" true) (sampleTrade (ofZ 100)) sampleWorld
    = (Ok tt, w')
    /\ List.length (tbl_trades (w_db w')) = 1%nat.
Proof.
  unfold saveTrade, sampleTrade. cbn [td_price].
  unfold ofZ, truthy, isFinite, leb.
  rewrite (Reqb_false 100 0), (Rleb_false 100 0) by lra.
  cbn [negb orb]. unfold bind, now, write_db.
  eexists. split; reflexivity.
Qed.

(** ** A backtest run *)

Section BacktestRun.

Variable sv : Services.
Variable generatedId : Db -> string.

Lemma fetchBatches_frame :
  forall (fuel : nat) (symbol interval : string) (endDate : Date)
         (estimatedCandles : num) (currentStart : Date) (allKlines : list Kline)
         (w w' : World) (r : Result (list Kline)),
    fetchBatches sv fuel symbol interval endDate estimatedCandles currentStart
                 allKlines w = Some (r, w') ->
    w_db w' = w_db w /\ w_now w' = w_now w.
Proof.
  induction fuel as [| fuel IH];
    intros symbol interval endDate estimatedCandles currentStart allKlines
           w w' r H; cbn [fetchBatches] in H.
  - destruct (ltb (getTime currentStart) (getTime endDate)); [discriminate |].
    injection H as _ <-. split; reflexivity.
  - destruct (ltb (getTime currentStart) (getTime endDate));
      [| injection H as _ <-; split; reflexivity].
    unfold getKlines, request in H.
    destruct (getKlines_answer sv (w_log w) symbol interval _) as [klines | e];
      [| injection H as _ <-; split; reflexivity].
    destruct (Nat.eqb (List.length klines) 0);
      [injection H as _ <-; split; reflexivity |].
    destruct (ltb _ _); [injection H as _ <-; split; reflexivity |].
    apply IH in H. exact H.
Qed.

(** X24.  A backtest run that throws leaves every table as it was.  A run
    that returns has appended exactly one row to the stored results and
    touched no other table; the row carries the final balance and the
    number of trades of the returned result, whose identifier is the one
    the database gave to the row; the final balance is the initial balance
    plus the total return, the stored number of trades is the number of
    trades returned, and the equity curve has one point more than there are
    trades. *)
Theorem runBacktest_stores_one_row :
  forall (fuel : nat) (cfg : BacktestConfig) (w : World),
    match runBacktestOfEngine sv generatedId fuel cfg w with
    | None => True
    | Some (Throw e, w') => w_db w' = w_db w
    | Some (Ok result, w') =>
        exists row : BacktestResultRow,
          tbl_backtestResults (w_db w') = tbl_backtestResults (w_db w) ++ [row]
          /\ tbl_positions (w_db w') = tbl_positions (w_db w)
          /\ tbl_trades (w_db w') = tbl_trades (w_db w)
          /\ tbl_strategies (w_db w') = tbl_strategies (w_db w)
          /\ tbl_riskLimits (w_db w') = tbl_riskLimits (w_db w)
          /\ res_id result = Some (generatedId (w_db w))
          /\ br_finalBalance row = NumText (res_finalBalance result)
          /\ br_totalTrades row = ofNat (List.length (res_trades result))
          /\ res_finalBalance result
             = add (bc_initialBalance cfg) (pm_totalReturn (res_metrics result))
          /\ List.length (res_equityCurve result)
             = S (List.length (res_trades result))
    end.
Proof.
  intros fuel cfg w. unfold runBacktestOfEngine, runBacktest.
  destruct (negb (valid _)); [reflexivity |].
  unfold getHistoricalData.
  match goal with
  | |- context [fetchBatches sv fuel ?s ?i ?e ?c ?st ?a w] =>
      pose proof (fetchBatches_frame fuel s i e c st a w) as Hframe;
      destruct (fetchBatches sv fuel s i e c st a w) as [[[klines | err] w1] |]
  end; [| | exact I].
  - destruct (Hframe w1 (Ok klines) eq_refl) as [Hdb Hnow].
    unfold saveBacktestResult.
    cbn [w_db w_now tbl_backtestResults tbl_positions tbl_trades tbl_strategies
         tbl_riskLimits set_backtestResults res_id res_finalBalance res_trades
         res_metrics res_equityCurve res_config bd_klines].
    rewrite Hdb.
    eexists. split; [reflexivity |].
    cbn [br_finalBalance br_totalTrades].
    repeat split.
    + apply calculateMetrics_totalTrades.
    + apply generateEquityCurve_length.
  - destruct (Hframe w1 (Throw err) eq_refl) as [Hdb _]. exact Hdb.
Qed.

End BacktestRun.

(** ** The historical data of a backtest *)

Lemma insertByTime_Forall :
  forall (P : KlineData -> Prop) (x : KlineData) (l : list KlineData),
    P x -> Forall P l -> Forall P (insertByTime x l).
Proof.
  intros P x l Hx Hl. induction Hl as [| y l Hy Hl IH]; cbn [insertByTime].
  - constructor; [exact Hx | constructor].
  - destruct (ltb _ _).
    + constructor; assumption.
    + constructor; [exact Hx |]. constructor; assumption.
Qed.

Lemma sortByTime_Forall :
  forall (P : KlineData -> Prop) (l : list KlineData),
    Forall P l -> Forall P (sortByTime l).
Proof.
  intros P l Hl. unfold sortByTime.
  induction Hl as [| y l Hy Hl IH]; cbn [fold_right]; [constructor |].
  apply insertByTime_Forall; assumption.
Qed.

Lemma fetchBatches_not_after_end :
  forall (sv : Services) (fuel : nat) (symbol interval : string)
         (endDate : Date) (estimatedCandles : num) (currentStart : Date)
         (allKlines : list Kline) (w w' : World) (klines : list Kline),
    Forall (fun k => notAfter endDate (toKlineData k)) allKlines ->
    fetchBatches sv fuel symbol interval endDate estimatedCandles currentStart
                 allKlines w = Some (Ok klines, w') ->
    Forall (fun k => notAfter endDate (toKlineData k)) klines.
Proof.
  intros sv fuel. induction fuel as [| fuel IH];
    intros symbol interval endDate estimatedCandles currentStart allKlines
           w w' result Hall H; cbn [fetchBatches] in H.
  - destruct (ltb (getTime currentStart) (getTime endDate)); [discriminate |].
    injection H as <- _. exact Hall.
  - destruct (ltb (getTime currentStart) (getTime endDate));
      [| injection H as <- _; exact Hall].
    unfold getKlines, request in H.
    destruct (getKlines_answer sv (w_log w) symbol interval _) as [klines | e];
      [| discriminate].
    assert (Hall' :
              Forall (fun k => notAfter endDate (toKlineData k))
                     (allKlines
                        ++ filter (fun k =>
                                     geb (getTime (k_openTime k))
                                         (getTime currentStart)
                                     && leb (getTime (k_openTime k))
                                            (getTime endDate))
                                  klines)).
    { apply Forall_app. split; [exact Hall |].
      apply Forall_forall. intros k Hk. apply filter_In in Hk.
      destruct Hk as [_ Hk]. apply andb_prop in Hk. exact (proj2 Hk). }
    destruct (Nat.eqb (List.length klines) 0);
      [injection H as <- _; exact Hall |].
    destruct (ltb _ _); [injection H as <- _; exact Hall' |].
    exact (IH _ _ _ _ _ _ _ _ _ Hall' H).
Qed.

(** X25.  The historical data returned for a backtest holds no candle
    opened after the end of the window, whatever the exchange answered to
    the candle requests; when the start is not before the end no request is
    made and the data holds no candle; and fetching the data writes no
    table. *)
Theorem getHistoricalData_candles_not_after_end :
  forall (sv : Services) (fuel : nat) (symbol interval : string)
         (startDate endDate : Date) (w w' : World) (data : BacktestData),
    getHistoricalData sv fuel symbol interval startDate endDate w
    = Some (Ok data, w') ->
    Forall (notAfter endDate) (bd_klines data)
    /\ (ltb (getTime startDate) (getTime endDate) = false ->
        bd_klines data = [] /\ w' = w)
    /\ w_db w' = w_db w.
Proof.
  intros sv fuel symbol interval startDate endDate w w' data H.
  unfold getHistoricalData in H.
  match type of H with
  | context [fetchBatches sv fuel ?s ?i ?e ?c ?st ?a w] =>
      pose proof (fetchBatches_frame sv fuel s i e c st a w) as Hframe;
      pose proof (fetchBatches_not_after_end sv fuel s i e c st a w) as Hend;
      destruct (fetchBatches sv fuel s i e c st a w)
        as [[[klines | err] w1] |] eqn:E
  end; try discriminate.
  injection H as <- <-. cbn [bd_klines].
  split; [| split].
  - apply sortByTime_Forall. apply Forall_map.
    exact (Hend w1 klines (Forall_nil _) eq_refl).
  - intro Hlt. destruct fuel; cbn [fetchBatches] in E; rewrite Hlt in E;
      injection E as <- <-; split; reflexivity.
  - exact (proj1 (Hframe w1 (Ok klines) eq_refl)).
Qed.

Lemma getHistoricalData_sample :
  getHistoricalData (candleServices [hourCandle 0; hourCandle 20000000]) 1
                    "BTCUSDT" "1h" (DateMs 0) (DateMs 10800000) sampleWorld
  = Some (Ok (mkBacktestData "BTCUSDT" "1h" [toKlineData (hourCandle 0)]
                             (DateMs 0) (DateMs 10800000)),
          record (CallGetKlines "BTCUSDT" "1h" (ofZ 3)) sampleWorld).
Proof.
  unfold getHistoricalData, fetchBatches, getKlines, request, Math_ceil,
    Math_floor, intervalMs, getTime, candleServices, hourCandle.
  cbn [String.eqb Ascii.eqb Bool.eqb getKlines_answer k_openTime List.length
       Nat.eqb].
  ncompute.
  rewrite (floorR_unique _ (-3)) by lra.
  change (Z.of_nat 0) with 0%Z. change (Z.of_nat 2) with 2%Z.
  replace (- (-3) + - 0) with 3 by lra.
  rdecide.
  cbn [filter k_openTime app]. rdecide. cbn [andb app sortByTime map fold_right
                                             insertByTime].
  reflexivity.
Defined.

Lemma getHistoricalData_candles_not_after_end_witness :
  Forall (notAfter (DateMs 10800000)) [toKlineData (hourCandle 0)]
  /\ (ltb (getTime (DateMs 0)) (getTime (DateMs 10800000)) = false ->
      [toKlineData (hourCandle 0)] = []
      /\ record (CallGetKlines "BTCUSDT" "1h" (ofZ 3)) sampleWorld = sampleWorld)
  /\ w_db (record (CallGetKlines "BTCUSDT" "1h" (ofZ 3)) sampleWorld)
     = w_db sampleWorld.
Proof.
  exact (getHistoricalData_candles_not_after_end
           (candleServices [hourCandle 0; hourCandle 20000000]) 1
           "BTCUSDT" "1h" (DateMs 0) (DateMs 10800000) sampleWorld _ _
           getHistoricalData_sample).
Defined.

(** A window of three hours on an exchange that answers two candles, one
    of them opened after the window: one request is enough, the run
    returns, and the row it stores reports no trade and the initial
    balance. *)
Example runBacktest_sample_returns :
  exists (result : BacktestResult) (row : BacktestResultRow),
    runBacktestOfEngine (candleServices [hourCandle 0; hourCandle 20000000])
                        (fun _ => "b1"%string) 1
                        (sampleBacktest 0 10800000) sampleWorld
    = Some (Ok result,
            mkWorld (set_backtestResults (fun rows => rows ++ [row])
                                         (w_db sampleWorld))
                    (w_now sampleWorld)
                    (w_log sampleWorld
                       ++ [CallGetKlines "BTCUSDT" "1h" (ofZ 3)]))
    /\ res_id result = Some "b1"%string
    /\ res_trades result = []
    /\ br_totalTrades row = Fin 0.
Proof.
  unfold runBacktestOfEngine, runBacktest.
  replace (negb (valid (validateDateRange
                          (DateMs (w_now sampleWorld))
                          (bc_startDate (sampleBacktest 0 10800000))
                          (bc_endDate (sampleBacktest 0 10800000)))))
    with false.
  2:{ unfold validateDateRange, sampleBacktest, sampleWorld.
      cbn [bc_startDate bc_endDate w_now getTime]. ncompute.
      change (1000 * 60 * 60 * 24)%Z with 86400000%Z. ncompute.
      reflexivity. }
  cbn [sampleBacktest bc_interval bc_symbol bc_startDate bc_endDate nonempty].
  rewrite getHistoricalData_sample.
  unfold saveBacktestResult. cbn [bd_klines].
  eexists. eexists. split; [reflexivity |].
  repeat split.
Qed.

(** ** Setting the stops of a position *)

Lemma find_update_where_other :
  forall (id id' : string) (f : PositionRow -> PositionRow)
         (rows : list PositionRow),
    id' <> id ->
    (forall p, pos_id (f p) = pos_id p) ->
    find (fun p => String.eqb (pos_id p) id') (update_where pos_id id f rows)
    = find (fun p => String.eqb (pos_id p) id') rows.
Proof.
  intros id id' f rows Hne Hid. unfold update_where.
  induction rows as [| r rows IH]; [reflexivity |].
  cbn [map find]. destruct (String.eqb (pos_id r) id) eqn:E.
  - rewrite Hid. apply String.eqb_eq in E.
    destruct (String.eqb (pos_id r) id') eqn:E'.
    + apply String.eqb_eq in E'. congruence.
    + exact IH.
  - destruct (String.eqb (pos_id r) id'); [reflexivity | exact IH].
Qed.

(** X26.  [updateStopLossTakeProfit] by its outcome.  For an identifier
    without a position and for a closed position it never returns, and
    nothing is changed.  For an open position, a call that throws has
    written no table; a call that returns has made no request to the
    exchange, and the position read back is still open with the same
    identifier, strategy, symbol, side, quantity and entry price; a
    percentage that was omitted leaves its column as it was, one that was
    given leaves a value in it; every position with another identifier
    reads back as before, no row is added or removed, and the trades and
    strategies tables are as they were. *)
Theorem updateStopLossTakeProfit_outcome :
  forall (positionId : string) (stopLossPercent takeProfitPercent : option num)
         (w : World),
    match findPosition positionId (w_db w) with
    | Some position =>
        if pos_isOpen position
        then
          match updateStopLossTakeProfit positionId stopLossPercent
                                         takeProfitPercent w with
          | (Ok _, w') =>
              (exists after : PositionRow,
                  findPosition positionId (w_db w') = Some after
                  /\ pos_id after = pos_id position
                  /\ pos_strategyId after = pos_strategyId position
                  /\ pos_symbol after = pos_symbol position
                  /\ pos_side after = pos_side position
                  /\ pos_quantity after = pos_quantity position
                  /\ pos_entryPrice after = pos_entryPrice position
                  /\ pos_isOpen after = true
                  /\ (stopLossPercent = None ->
                      pos_stopLoss after = pos_stopLoss position)
                  /\ (takeProfitPercent = None ->
                      pos_takeProfit after = pos_takeProfit position)
                  /\ (stopLossPercent <> None -> pos_stopLoss after <> None)
                  /\ (takeProfitPercent <> None ->
                      pos_takeProfit after <> None))
              /\ (forall id : string,
                     id <> positionId ->
                     findPosition id (w_db w') = findPosition id (w_db w))
              /\ List.length (tbl_positions (w_db w'))
                 = List.length (tbl_positions (w_db w))
              /\ tbl_trades (w_db w') = tbl_trades (w_db w)
              /\ tbl_strategies (w_db w') = tbl_strategies (w_db w)
              /\ w_log w' = w_log w
          | (Throw _, w') => w_db w' = w_db w /\ w_log w' = w_log w
          end
        else
          match updateStopLossTakeProfit positionId stopLossPercent
                                         takeProfitPercent w with
          | (Ok _, _) => False
          | (Throw _, w') => w' = w
          end
    | None =>
        match updateStopLossTakeProfit positionId stopLossPercent
                                       takeProfitPercent w with
        | (Ok _, _) => False
        | (Throw _, w') => w' = w
        end
    end.
Proof.
  intros positionId stopLossPercent takeProfitPercent w.
  unfold updateStopLossTakeProfit, bind, read_db.
  destruct (findPosition positionId (w_db w)) as [position |] eqn:Hfind;
    [| reflexivity].
  destruct (pos_isOpen position) eqn:Hopen; [| reflexivity].
  cbn [negb].
  set (stopLoss := option_map _ stopLossPercent).
  set (takeProfit := option_map _ takeProfitPercent).
  assert (Hkept :
            pos_id (with_stops stopLoss takeProfit position) = pos_id position
            /\ pos_strategyId (with_stops stopLoss takeProfit position)
               = pos_strategyId position
            /\ pos_symbol (with_stops stopLoss takeProfit position)
               = pos_symbol position
            /\ pos_side (with_stops stopLoss takeProfit position)
               = pos_side position
            /\ pos_quantity (with_stops stopLoss takeProfit position)
               = pos_quantity position
            /\ pos_entryPrice (with_stops stopLoss takeProfit position)
               = pos_entryPrice position
            /\ pos_isOpen (with_stops stopLoss takeProfit position) = true
            /\ (stopLossPercent = None ->
                pos_stopLoss (with_stops stopLoss takeProfit position)
                = pos_stopLoss position)
            /\ (takeProfitPercent = None ->
                pos_takeProfit (with_stops stopLoss takeProfit position)
                = pos_takeProfit position)
            /\ (stopLossPercent <> None ->
                pos_stopLoss (with_stops stopLoss takeProfit position) <> None)
            /\ (takeProfitPercent <> None ->
                pos_takeProfit (with_stops stopLoss takeProfit position)
                <> None)).
  { unfold with_stops, stopLoss, takeProfit.
    cbn [pos_id pos_strategyId pos_symbol pos_side pos_quantity pos_entryPrice
         pos_isOpen pos_stopLoss pos_takeProfit].
    repeat split; try exact Hopen.
    - intros ->. reflexivity.
    - intros ->. reflexivity.
    - destruct stopLossPercent; [discriminate | congruence].
    - destruct takeProfitPercent; [discriminate | congruence]. }
  assert (Hsame : stopLoss = None -> takeProfit = None ->
                  with_stops stopLoss takeProfit position = position).
  { intros -> ->. destruct position; reflexivity. }
  assert (Hwrite :
            let w' := snd (write_db
                             (set_positions
                                (update_where pos_id positionId
                                   (with_stops stopLoss takeProfit))) w) in
            (exists after : PositionRow,
                findPosition positionId (w_db w') = Some after
                /\ pos_id after = pos_id position
                /\ pos_strategyId after = pos_strategyId position
                /\ pos_symbol after = pos_symbol position
                /\ pos_side after = pos_side position
                /\ pos_quantity after = pos_quantity position
                /\ pos_entryPrice after = pos_entryPrice position
                /\ pos_isOpen after = true
                /\ (stopLossPercent = None ->
                    pos_stopLoss after = pos_stopLoss position)
                /\ (takeProfitPercent = None ->
                    pos_takeProfit after = pos_takeProfit position)
                /\ (stopLossPercent <> None -> pos_stopLoss after <> None)
                /\ (takeProfitPercent <> None -> pos_takeProfit after <> None))
            /\ (forall id : string,
                   id <> positionId ->
                   findPosition id (w_db w') = findPosition id (w_db w))
            /\ List.length (tbl_positions (w_db w'))
               = List.length (tbl_positions (w_db w))
            /\ tbl_trades (w_db w') = tbl_trades (w_db w)
            /\ tbl_strategies (w_db w') = tbl_strategies (w_db w)
            /\ w_log w' = w_log w).
  { unfold write_db, set_positions, findPosition, select_first.
    cbn [snd w_db w_log tbl_positions tbl_trades tbl_strategies].
    split; [| split; [| split; [| repeat split]]].
    - exists (with_stops stopLoss takeProfit position).
      split; [| exact Hkept].
      rewrite find_update_where by reflexivity.
      unfold findPosition, select_first in Hfind. rewrite Hfind. reflexivity.
    - intros id Hne. apply find_update_where_other; [exact Hne | reflexivity].
    - unfold update_where. apply length_map. }
  destruct stopLoss as [sl |] eqn:Esl; [| destruct takeProfit as [tp |] eqn:Etp].
  - exact Hwrite.
  - exact Hwrite.
  - cbn [ret]. split; [| repeat split; reflexivity].
    exists position. split; [exact Hfind |].
    rewrite <- (Hsame eq_refl eq_refl) at 1 2 3 4 5 6 7 8 9 10 11.
    exact Hkept.
Qed.

(** An open position bought at 100: a stop 2.5 percent below and a target
    5 percent above are written, and the call returns. *)
Example updateStopLossTakeProfit_sample :
  exists w' : World,
    updateStopLossTakeProfit "p1" (Some (Fin (25 / 10))) (Some (ofZ 5))
                             (worldWith [samplePosition "p1" "BTCUSDT" None None])
    = (Ok tt, w')
    /\ option_map pos_stopLoss (findPosition "p1" (w_db w'))
       = Some (Some (NumText (calculateStopLoss (ofZ 100) (Fin (25 / 10)))))
    /\ option_map pos_takeProfit (findPosition "p1" (w_db w'))
       = Some (Some (NumText (calculateTakeProfit (ofZ 100) (ofZ 5)))).
Proof.
  unfold updateStopLossTakeProfit, bind, read_db, write_db, findPosition,
    select_first, worldWith, samplePosition.
  cbn [w_db tbl_positions find pos_id String.eqb Ascii.eqb Bool.eqb pos_isOpen
       negb option_map pos_entryPrice parseFloat].
  eexists. split; [reflexivity |].
  cbn [w_db set_positions tbl_positions update_where map pos_id find
       String.eqb Ascii.eqb Bool.eqb option_map with_stops pos_stopLoss
       pos_takeProfit].
  split; reflexivity.
Qed.
